(** * Water-surface-elevation processing: a shallow embedding of
      [wse_processing] (calculations.py, qaqc.py) and its verification.

    Python [float] and pandas [float64] are IEEE 754 binary64: they are
    modelled by Rocq's primitive [float], so every arithmetic step rounds
    exactly as the program's does.  A pandas [DataFrame] is a list of rows,
    each row a finite map from column label to cell; a raised exception is
    the [Raise] branch of [result]. *)

From Stdlib Require Import ZArith Zpower List String Ascii Bool Lia Floats Sorted Permutation.
From stdpp Require Import gmap strings list fin_maps sorting.

Set Warnings "-inexact-float".

(** ** Exceptions *)

Inductive exception :=
  | ValueError (msg : string)
  | KeyError (msg : string)
  | TypeError (msg : string)
  | MergeError (msg : string).

Inductive result (A : Type) :=
  | Ok (a : A)
  | Raise (e : exception).
Arguments Ok {A} a.
Arguments Raise {A} e.

#[global] Instance result_ret : MRet result := @Ok.
#[global] Instance result_bind : MBind result :=
  fun A B f m => match m with Ok a => f a | Raise e => Raise e end.

(** [mapM] for [result]: the first failure wins, as in a Python loop. *)
Fixpoint collect {A B} (f : A -> result B) (l : list A) : result (list B) :=
  match l with
  | [] => Ok []
  | a :: l' =>
      match f a with
      | Ok b => match collect f l' with Ok bs => Ok (b :: bs) | Raise e => Raise e end
      | Raise e => Raise e
      end
  end.

(** ** Strings: [str.lower] on ASCII text

    Text is modelled as ASCII text, one character per [ascii]: on it
    [str.lower] maps the letters A-Z to a-z and leaves every other character
    alone.  On text with other characters Python's [str.lower] does more (it
    maps U+212A KELVIN SIGN to "k", for one), which [lower] does not
    describe; a statement that says which strings the code rejects is
    therefore made for ASCII text only ([is_ascii_text]). *)

Definition lower_ascii (c : ascii) : ascii :=
  let n := nat_of_ascii c in
  if (65 <=? n)%nat && (n <=? 90)%nat then ascii_of_nat (n + 32) else c.

Fixpoint lower (s : string) : string :=
  match s with
  | EmptyString => EmptyString
  | String c s' => String (lower_ascii c) (lower s')
  end.

(** Text whose characters are all ASCII characters (code points below 128). *)
Fixpoint is_ascii_text (s : string) : bool :=
  match s with
  | EmptyString => true
  | String c s' => (nat_of_ascii c <? 128)%nat && is_ascii_text s'
  end.

(** Two characters that differ at most by letter case; two strings that do
    so position by position.  Stated without [lower]: this is what
    "case-insensitive" means in the specification. *)
Definition same_letter (a b : ascii) : bool :=
  let x := nat_of_ascii a in
  let y := nat_of_ascii b in
  (x =? y)%nat
  || ((65 <=? x)%nat && (x <=? 90)%nat && (y =? x + 32)%nat)
  || ((65 <=? y)%nat && (y <=? 90)%nat && (x =? y + 32)%nat).

Fixpoint same_ignoring_case (s t : string) : bool :=
  match s, t with
  | EmptyString, EmptyString => true
  | String a s', String b t' => same_letter a b && same_ignoring_case s' t'
  | _, _ => false
  end.

(** ** calculations.py: constants and configuration *)

Definition GRAVITY : float := 9.80665%float.
Definition PSI_TO_PASCAL : float := 6894.757293168%float.
Definition KPA_TO_PASCAL : float := 1000.0%float.

Record ProcessingConfig := {
  reference_datum : float;
  fluid_density : float;
  pressure_units : string;
  timezone : option string;
  merge_tolerance : string
}.

(** The constructor a [@dataclass] generates: it stores its arguments,
    filling in the declared defaults.  The class has no [__post_init__]. *)
Definition ProcessingConfig_init (reference_datum : float)
    (fluid_density : option float) (pressure_units : option string)
    (timezone : option string) (merge_tolerance : option string)
    : result ProcessingConfig :=
  Ok {| reference_datum := reference_datum;
        fluid_density := default 1000.0%float fluid_density;
        pressure_units := default "kPa" pressure_units;
        timezone := timezone;
        merge_tolerance := default "15min" merge_tolerance |}.

Module ColumnNames.
Definition TIMESTAMP : string := "timestamp".
Definition WATER_PRESSURE : string := "water_pressure".
Definition BARO_PRESSURE : string := "barometric_pressure".
Definition GAUGE_PRESSURE : string := "gauge_pressure".
Definition WATER_TEMPERATURE : string := "water_temperature".
Definition AIR_TEMPERATURE : string := "air_temperature".
Definition WATER_DEPTH : string := "water_depth_m".
Definition WSE : string := "water_surface_elevation".
End ColumnNames.

(** ** Unit conversion *)

Definition _to_pascal (series : list float) (units : string) : result (list float) :=
  let units := lower units in
  if String.eqb units "kpa" then Ok (map (fun v => (v * KPA_TO_PASCAL)%float) series)
  else if String.eqb units "psi" then Ok (map (fun v => (v * PSI_TO_PASCAL)%float) series)
  else Raise (ValueError ("Unsupported pressure unit: " +:+ units)).

Definition gauge_to_depth (gauge_pressure : list float) (density : float)
    (units : string) : result (list float) :=
  pascal ← _to_pascal gauge_pressure units;
  let depth_m := map (fun p => (p / (density * GRAVITY))%float) pascal in
  Ok depth_m.

(** ** Tables

    A cell is a [float64] (NaN is the missing value), a timestamp in
    nanoseconds since the epoch, [NaT], or any other object (text).  A
    frame lists its column labels with their dtypes, in order, and its rows;
    row labels (the index) play no part in the functions below, which select
    and assign by position on identically indexed data. *)

Inductive dtype := float64 | datetime64 | object.

Inductive cell :=
  | CFloat (x : float)
  | CTime (t : Z)
  | CNaT
  | CStr (s : string).

Record DataFrame := {
  columns : list (string * dtype);
  rows : list (gmap string cell)
}.

Definition labels (df : DataFrame) : list string := map fst (columns df).

(** [label in df] *)
Definition contains (df : DataFrame) (label : string) : bool :=
  existsb (String.eqb label) (labels df).

(** [pd.isna] on one cell *)
Definition isna (c : cell) : bool :=
  match c with
  | CFloat x => is_nan x
  | CNaT => true
  | CTime _ | CStr _ => false
  end.

(** [df[label]]: the column's cells, top to bottom. *)
Definition getitem (df : DataFrame) (label : string) : result (list cell) :=
  if contains df label
  then Ok (map (fun r : gmap string cell => default (CFloat nan) (r !! label)) (rows df))
  else Raise (KeyError label).

(** The cells of a column read as [float64]; arithmetic and ordering on
    any other kind of cell raise [TypeError]. *)
Definition to_float64 (c : cell) : result float :=
  match c with
  | CFloat x => Ok x
  | _ => Raise (TypeError "unsupported operand type")
  end.

Definition numeric (df : DataFrame) (label : string) : result (list float) :=
  cells ← getitem df label;
  collect to_float64 cells.

(** [df.loc[mask]] and [series[mask]]: keep the positions where the mask
    holds. *)
Fixpoint boolean_mask {A} (mask : list bool) (l : list A) : list A :=
  match mask, l with
  | b :: mask', a :: l' => if b then a :: boolean_mask mask' l' else boolean_mask mask' l'
  | _, _ => []
  end.

Definition loc (df : DataFrame) (mask : list bool) : DataFrame :=
  {| columns := columns df; rows := boolean_mask mask (rows df) |}.

(** [df[label] = values]: an existing column is overwritten in place, a
    new one is appended as the last column. *)
Definition set_dtype (cols : list (string * dtype)) (label : string) (dt : dtype)
    : list (string * dtype) :=
  if existsb (String.eqb label) (map fst cols)
  then map (fun c : string * dtype => if String.eqb label (fst c) then (label, dt) else c) cols
  else cols ++ [(label, dt)].

Fixpoint assign (label : string) (rs : list (gmap string cell)) (values : list cell)
    : list (gmap string cell) :=
  match rs, values with
  | r :: rs', v :: values' => <[label := v]> r :: assign label rs' values'
  | _, _ => []
  end.

Definition setitem (df : DataFrame) (label : string) (dt : dtype) (values : list cell)
    : DataFrame :=
  {| columns := set_dtype (columns df) label dt;
     rows := assign label (rows df) values |}.

(** [df.dropna(subset=...)] *)
Definition notna_at (subset : list string) (r : gmap string cell) : bool :=
  forallb (fun label => negb (isna (default (CFloat nan) (r !! label)))) subset.

Definition dropna (df : DataFrame) (subset : list string) : result DataFrame :=
  match find (fun label => negb (contains df label)) subset with
  | Some label => Raise (KeyError label)
  | None => Ok {| columns := columns df; rows := filter (fun r => notna_at subset r = true) (rows df) |}
  end.

(** [pd.DataFrame(columns=df.columns)]: no rows, the same labels, every
    column of dtype [object]. *)
Definition empty_like (df : DataFrame) : DataFrame :=
  {| columns := map (fun c : string * dtype => (fst c, object)) (columns df); rows := [] |}.

(** ** qaqc.py *)

Record QAQCConfig := {
  shift_threshold : float;
  temperature_threshold : option float
}.

(** [Series.diff()]: the first entry has no predecessor and is NaN. *)
Fixpoint diff_from (prev : float) (s : list float) : list float :=
  match s with
  | [] => []
  | x :: s' => (x - prev)%float :: diff_from x s'
  end.

Definition diff (s : list float) : list float :=
  match s with
  | [] => []
  | x :: s' => nan :: diff_from x s'
  end.

Definition flag_shifts (df : DataFrame) (config : QAQCConfig) : result DataFrame :=
  if negb (contains df ColumnNames.WATER_DEPTH)
  then Raise (KeyError "water depth column missing from dataframe")
  else
    depth ← numeric df ColumnNames.WATER_DEPTH;
    let delta := map abs (diff depth) in
    let flags := map (fun d => (shift_threshold config <? d)%float) delta in
    let flagged := loc df flags in
    Ok (setitem flagged "depth_change" float64 (map CFloat (boolean_mask flags delta))).

(** Python truth value of an [Optional[float]]: [None] and zero (of either
    sign) are false, every other float, NaN included, is true. *)
Definition truthy (x : option float) : bool :=
  match x with
  | None => false
  | Some v => negb (v =? 0)%float
  end.

Definition flag_temperature_outliers (df : DataFrame) (config : QAQCConfig)
    : result DataFrame :=
  if negb (truthy (temperature_threshold config))
     || negb (contains df ColumnNames.WATER_TEMPERATURE)
  then Ok (empty_like df)
  else
    let threshold := default nan (temperature_threshold config) in
    temperature ← numeric df ColumnNames.WATER_TEMPERATURE;
    let mask := map (fun v => (threshold <? v)%float) temperature in
    let flagged := loc df mask in
    Ok (setitem flagged "temperature_excess" float64
          (map (fun v => CFloat (v - threshold)%float) (boolean_mask mask temperature))).

(** ** calculations.py: alignment and [compute_wse]

    The two input frames are lists of rows of arbitrary types [W] and [B];
    a column name passed to [compute_wse] is modelled by the accessor that
    reads that column from a row, an unselected optional column by [None].
    Text-to-timestamp parsing, the timezone database, duration parsing and
    the sorting routine are pandas' own and are taken as parameters.
    Timestamps are integers, in nanoseconds.  The merged frame is given with
    the columns [compute_wse] reads and writes, under their fixed names; the
    other columns of the water frame, and the barometric timestamp column
    when its name differs from the water one, which pandas carries along
    unchanged, are left out.

    The accessors stand for the calls in which the selected pressure and
    temperature columns hold numbers and have names that differ from one
    another and from the fixed names.  Where a name is shared between the
    two frames pandas suffixes it ("_x", "_y"), the renaming finds nothing
    and [dropna] raises [KeyError] or a temperature column keeps its
    suffixed name; where a selected column holds text the arithmetic raises
    [TypeError].  The model has none of these failures, so it returns in
    cases where the code raises; the statements about [compute_wse] are
    about the rows of a frame that was returned, or say that nothing is
    returned, and hold of the code in those cases as well. *)

(** [pd.merge_asof] requires keys without nulls, in ascending order.  Which
    exception it raises for keys it refuses (the class, [MergeError] or its
    base class [ValueError], the message, and whether a check of the key
    dtypes comes first, as it does for a key column without any valid
    timestamp) varies with the pandas version; the messages below are those
    of pandas 2, and no statement uses more than that the call raises.
    Differences of timestamps are exact integers: the 64-bit wrap-around
    between timestamps more than 292 years apart is not modelled. *)
Fixpoint sorted_from (prev : Z) (keys : list (option Z)) : bool :=
  match keys with
  | [] => true
  | Some k :: keys' => (prev <=? k)%Z && sorted_from k keys'
  | None :: _ => false
  end.

Definition is_monotonic_increasing (keys : list (option Z)) : bool :=
  match keys with
  | [] => true
  | Some k :: keys' => sorted_from k keys'
  | None :: _ => false
  end.

Definition keyed {A} (df : list (option Z * A)) : list (Z * A) :=
  omap (fun r : option Z * A => match fst r with Some k => Some (k, snd r) | None => None end) df.

Definition check_keys (side : string) (keys : list (option Z)) : result unit :=
  if is_monotonic_increasing keys then Ok tt
  else if existsb (fun k : option Z => match k with None => true | Some _ => false end) keys
  then Raise (ValueError ("Merge keys contain null values on " +:+ side +:+ " side"))
  else Raise (ValueError (side +:+ " keys must be sorted")).

(** The two searches of [merge_asof] walk the sorted right keys while a
    condition holds and keep the last row passed. *)
Fixpoint last_while {B} (p : Z -> bool) (l : list (Z * B)) (found : option (Z * B))
    : option (Z * B) :=
  match l with
  | [] => found
  | r :: l' => if p (fst r) then last_while p l' (Some r) else found
  end.

(** Backward search: from the start, while the key is at most [t]. *)
Definition asof_backward {B} (t : Z) (right : list (Z * B)) : option (Z * B) :=
  last_while (fun k => (k <=? t)%Z) right None.

(** Forward search: from the end, while the key is at least [t]. *)
Definition asof_forward {B} (t : Z) (right : list (Z * B)) : option (Z * B) :=
  last_while (fun k => (t <=? k)%Z) (rev right) None.

(** A candidate farther than the tolerance is discarded. *)
Definition within_tolerance {B} (tolerance : Z) (distance : Z -> Z)
    (candidate : option (Z * B)) : option (Z * B) :=
  match candidate with
  | Some r => if (tolerance <? distance (fst r))%Z then None else Some r
  | None => None
  end.

(** [direction="nearest"]: of the two candidates the closer one, the
    backward one when they are equally far. *)
Definition asof_nearest {B} (tolerance : Z) (t : Z) (right : list (Z * B))
    : option (Z * B) :=
  let back := within_tolerance tolerance (fun k => t - k)%Z (asof_backward t right) in
  let fwd := within_tolerance tolerance (fun k => k - t)%Z (asof_forward t right) in
  match back, fwd with
  | Some b, Some f => if (t - fst b <=? fst f - t)%Z then Some b else Some f
  | Some b, None => Some b
  | None, _ => fwd
  end.

Definition merge_asof {A B} (left : list (option Z * A)) (right : list (option Z * B))
    (tolerance : Z) : result (list (Z * A * option (Z * B))) :=
  if (tolerance <? 0)%Z then Raise (MergeError "tolerance must be positive")
  else
    _ ← check_keys "left" (map fst left);
    _ ← check_keys "right" (map fst right);
    Ok (map (fun l : Z * A => (l, asof_nearest tolerance (fst l) (keyed right))) (keyed left)).

Section Calculations.
Context {raw W B : Type}.
(** [pd.to_datetime(..., errors="coerce")]: a timestamp, or [None] for NaT. *)
Variable to_datetime : raw -> option Z.
(** [.dt.tz_localize(tz, nonexistent="shift_forward", ambiguous="NaT")]:
    fails as a whole (unknown zone), or maps each wall-clock time to an
    instant, or to NaT when it is ambiguous. *)
Variable tz_localize : string -> result (Z -> option Z).
(** [pd.to_timedelta]: nanoseconds, or an error for unreadable text. *)
Variable to_timedelta : string -> result Z.
(** [DataFrame.sort_values] on the timestamp column. *)
Variable sort_values : forall A : Type, (A -> option Z) -> list A -> list A.

(** One pass of the loop over the two frames: parse, localise, sort. *)
Definition localizer (config : ProcessingConfig) : result (option Z -> option Z) :=
  match timezone config with
  | None | Some EmptyString => Ok (fun t => t)
  | Some tz => localize ← tz_localize tz; Ok (fun t : option Z => t ≫= localize)
  end.

Definition prepare {A} (config : ProcessingConfig) (timestamp_col : A -> raw)
    (df : list A) : result (list (option Z * A)) :=
  localize ← localizer config;
  let stamped := map (fun r => (localize (to_datetime (timestamp_col r)), r)) df in
  Ok (sort_values _ fst stamped).

(** The merged row after the renames, under the fixed column names. *)
Definition merged_row (water_pressure_col : W -> float) (baro_pressure_col : B -> float)
    (water_temp_col : option (W -> float)) (baro_temp_col : option (B -> float))
    (m : Z * W * option (Z * B)) : gmap string cell :=
  let w := snd (fst m) in
  let b := snd <$> snd m in
  let r : gmap string cell :=
    <[ColumnNames.BARO_PRESSURE := CFloat (from_option baro_pressure_col nan b)]>
      (<[ColumnNames.WATER_PRESSURE := CFloat (water_pressure_col w)]>
        (<[ColumnNames.TIMESTAMP := CTime (fst (fst m))]> ∅)) in
  let r :=
    match water_temp_col with
    | Some col => <[ColumnNames.WATER_TEMPERATURE := CFloat (col w)]> r
    | None => r
    end in
  match baro_temp_col with
  | Some col => <[ColumnNames.AIR_TEMPERATURE := CFloat (from_option col nan b)]> r
  | None => r
  end.

Definition merged_columns (water_temp_col : option (W -> float))
    (baro_temp_col : option (B -> float)) : list (string * dtype) :=
  [(ColumnNames.TIMESTAMP, datetime64); (ColumnNames.WATER_PRESSURE, float64)]
  ++ match water_temp_col with Some _ => [(ColumnNames.WATER_TEMPERATURE, float64)] | None => [] end
  ++ [(ColumnNames.BARO_PRESSURE, float64)]
  ++ match baro_temp_col with Some _ => [(ColumnNames.AIR_TEMPERATURE, float64)] | None => [] end.

Definition compute_wse (water : list W) (barometric : list B) (config : ProcessingConfig)
    (water_pressure_col : W -> float) (baro_pressure_col : B -> float)
    (water_temp_col : option (W -> float)) (baro_temp_col : option (B -> float))
    (timestamp_col_water : W -> raw) (timestamp_col_baro : B -> raw)
    : result DataFrame :=
  df_water ← prepare config timestamp_col_water water;
  df_baro ← prepare config timestamp_col_baro barometric;
  tolerance ← to_timedelta (merge_tolerance config);
  aligned ← merge_asof df_water df_baro tolerance;
  let merged :=
    {| columns := merged_columns water_temp_col baro_temp_col;
       rows := map (merged_row water_pressure_col baro_pressure_col
                      water_temp_col baro_temp_col) aligned |} in
  merged ← dropna merged [ColumnNames.TIMESTAMP; ColumnNames.WATER_PRESSURE;
                           ColumnNames.BARO_PRESSURE];
  water_pressure ← numeric merged ColumnNames.WATER_PRESSURE;
  baro_pressure ← numeric merged ColumnNames.BARO_PRESSURE;
  let merged := setitem merged ColumnNames.GAUGE_PRESSURE float64
                  (map CFloat (zip_with PrimFloat.sub water_pressure baro_pressure)) in
  gauge ← numeric merged ColumnNames.GAUGE_PRESSURE;
  depth ← gauge_to_depth gauge (fluid_density config) (pressure_units config);
  let merged := setitem merged ColumnNames.WATER_DEPTH float64 (map CFloat depth) in
  depth ← numeric merged ColumnNames.WATER_DEPTH;
  let merged := setitem merged ColumnNames.WSE float64
                  (map (fun d => CFloat (reference_datum config + d)%float) depth) in
  Ok merged.

End Calculations.

(** A stable insertion sort on the timestamp, NaT last: one sorting routine
    that [sort_values] can stand for. *)
Definition key_le (a b : option Z) : bool :=
  match a, b with
  | Some x, Some y => (x <=? y)%Z
  | _, None => true
  | None, Some _ => false
  end.

Fixpoint insert_by {A} (key : A -> option Z) (a : A) (l : list A) : list A :=
  match l with
  | [] => [a]
  | b :: l' => if key_le (key a) (key b) then a :: l else b :: insert_by key a l'
  end.

Definition insertion_sort (A : Type) (key : A -> option Z) (l : list A) : list A :=
  foldr (insert_by key) [] l.

(** ** calculations.py: [summarise_timeseries]

    [resample(rule).mean(numeric_only=True)]: rows are grouped into
    consecutive calendar bins between the earliest and the latest timestamp
    (rows without a timestamp belong to no bin), the [float64] columns are
    averaged per bin and every other column is left out.  A frame without
    rows is the exception: there is nothing to group, and pandas returns the
    frame as it is, with all its columns, the timestamp column included.
    The averaging routine itself and the conversion of non-timestamp cells
    into an index are pandas' and are parameters. *)

Record Resampled := {
  bins : list Z;
  frame : DataFrame
}.

Definition NS_PER_DAY : Z := 86400000000000.

(** ["1D"]: the calendar day of an instant. *)
Definition day_bin (t : Z) : Z := (t / NS_PER_DAY)%Z.
Definition day_label (b : Z) : Z := (b * NS_PER_DAY)%Z.

(** ["1W"]: weeks end on Sunday and are labelled by that Sunday; day 0 of
    the epoch is a Thursday. *)
Definition week_bin (t : Z) : Z := ((day_bin t + 3) / 7)%Z.
Definition week_label (b : Z) : Z := ((7 * b + 3) * NS_PER_DAY)%Z.

Definition is_float64 (c : string * dtype) : bool :=
  match snd c with float64 => true | _ => false end.

Definition bin_range (bs : list Z) : list Z :=
  match bs with
  | [] => []
  | b :: bs' =>
      let lo := foldr Z.min b bs' in
      let hi := foldr Z.max b bs' in
      seqZ lo (hi - lo + 1)
  end.

Section Summaries.
(** [pd.DatetimeIndex] applied to a cell that is not already a timestamp. *)
Variable coerce_datetime : cell -> result (option Z).
(** The NaN-skipping mean of one group of one column. *)
Variable mean : list float -> float.

Definition datetime_of_cell (c : cell) : result (option Z) :=
  match c with
  | CTime t => Ok (Some t)
  | CNaT => Ok None
  | _ => coerce_datetime c
  end.

Definition DatetimeIndex (cells : list cell) : result (list (option Z)) :=
  collect datetime_of_cell cells.

Definition group_values (bin_of : Z -> Z) (b : Z) (label : string)
    (stamped : list (Z * gmap string cell)) : list float :=
  omap (fun s : Z * gmap string cell =>
          if (bin_of (fst s) =? b)%Z
          then match snd s !! label with Some (CFloat x) => Some x | _ => None end
          else None) stamped.

Definition resample_mean (bin_of label_of : Z -> Z) (index : list (option Z))
    (df : DataFrame) : Resampled :=
  match rows df with
  | [] => {| bins := []; frame := {| columns := columns df; rows := [] |} |}
  | _ :: _ =>
      let stamped := keyed (zip index (rows df)) in
      let numeric_cols := List.filter is_float64 (columns df) in
      let all_bins :=
        bin_range (map (fun s : Z * gmap string cell => bin_of (fst s)) stamped) in
      {| bins := map label_of all_bins;
         frame :=
           {| columns := numeric_cols;
              rows := map (fun b =>
                        list_to_map (map (fun c : string * dtype =>
                          (fst c, CFloat (mean (group_values bin_of b (fst c) stamped))))
                          numeric_cols)) all_bins |} |}
  end.

Definition summarise_timeseries (df : DataFrame) : result (Resampled * Resampled) :=
  cells ← getitem df ColumnNames.TIMESTAMP;
  index ← DatetimeIndex cells;
  let daily := resample_mean day_bin day_label index df in
  let weekly := resample_mean week_bin week_label index df in
  Ok (daily, weekly).

End Summaries.

(** ** Notions used in the statements

    [conversion_factor] and [shift_at] follow the specification's wording;
    the predicates on [spec_float] describe the outcome of a rounded
    operation. *)

(** The factor the specification attaches to a unit name, matched without
    regard to case. *)
Definition conversion_factor (units : string) : option float :=
  if same_ignoring_case units "kPa" then Some KPA_TO_PASCAL
  else if same_ignoring_case units "psi" then Some PSI_TO_PASCAL
  else None.

(** The float stored in a row under a label (NaN when there is none). *)
Definition float_at (label : string) (r : gmap string cell) : float :=
  match r !! label with
  | Some (CFloat x) => x
  | _ => nan
  end.

(** The absolute change of depth at row [i] from row [i - 1]; undefined
    for the first row. *)
Definition shift_at (depth : list float) (i : nat) : option float :=
  match i with
  | O => None
  | S j =>
      match depth !! i, depth !! j with
      | Some a, Some b => Some (abs (a - b))
      | _, _ => None
      end
  end.

(** Row [i] as the shift detector reports it, if it reports it. *)
Definition shift_row (threshold : float) (depth : list float)
    (rs : list (gmap string cell)) (i : nat) : option (gmap string cell) :=
  match shift_at depth i, rs !! i with
  | Some d, Some r =>
      if (threshold <? d)%float then Some (<["depth_change" := CFloat d]> r) else None
  | _, _ => None
  end.

(** The three derived columns of one merged row. *)
Definition gauge_of (r : gmap string cell) : float :=
  (float_at ColumnNames.WATER_PRESSURE r - float_at ColumnNames.BARO_PRESSURE r)%float.

Definition depth_of (config : ProcessingConfig) (factor : float)
    (r : gmap string cell) : float :=
  (gauge_of r * factor / (fluid_density config * GRAVITY))%float.

Definition wse_of (config : ProcessingConfig) (factor : float)
    (r : gmap string cell) : float :=
  (reference_datum config + depth_of config factor r)%float.

Definition with_wse (config : ProcessingConfig) (factor : float)
    (r : gmap string cell) : gmap string cell :=
  <[ColumnNames.WSE := CFloat (wse_of config factor r)]>
    (<[ColumnNames.WATER_DEPTH := CFloat (depth_of config factor r)]>
      (<[ColumnNames.GAUGE_PRESSURE := CFloat (gauge_of r)]> r)).

Abbreviation emin64 := (-1074)%Z.

(** A rounded result that is finite or infinite with sign [s], never zero
    and never NaN. *)
Definition positive_result (s : bool) (x : spec_float) : Prop :=
  match x with
  | S754_finite s' _ _ | S754_infinity s' => s' = s
  | _ => False
  end.

(** Order of two finite numbers of one sign, by exponent, then mantissa. *)
Definition finite_compare (e1 e2 : Z) (m1 m2 : positive) : comparison :=
  match (e1 ?= e2)%Z with Lt => Lt | Gt => Gt | Eq => Pos.compare_cont Eq m1 m2 end.

(** [x] is NaN, or carries the sign [s] (zeros and infinities included). *)
Definition signed (s : bool) (x : spec_float) : Prop :=
  match x with
  | S754_nan => True
  | S754_zero s' | S754_infinity s' | S754_finite s' _ _ => s' = s
  end.

(** The rows [compute_wse] keeps after [dropna], before the derived
    columns are added. *)
Definition retained {W B} (water_pressure_col : W -> float) (baro_pressure_col : B -> float)
    (water_temp_col : option (W -> float)) (baro_temp_col : option (B -> float))
    (aligned : list (Z * W * option (Z * B))) : list (gmap string cell) :=
  filter (fun r => notna_at [ColumnNames.TIMESTAMP; ColumnNames.WATER_PRESSURE;
                              ColumnNames.BARO_PRESSURE] r = true)
    (map (merged_row water_pressure_col baro_pressure_col water_temp_col baro_temp_col)
       aligned).

(** Rows in ascending order of their keys. *)
Definition by_key {B} (a b : Z * B) : Prop := (fst a <= fst b)%Z.

(** Every character. *)
Definition all_ascii : list ascii := map ascii_of_nat (seq 0 256).

(** ** Example data *)

(** A merged frame without the water-depth column. *)
Definition no_depth_frame : DataFrame :=
  {| columns := [(ColumnNames.TIMESTAMP, datetime64); (ColumnNames.WATER_PRESSURE, float64)];
     rows := [ {[ ColumnNames.TIMESTAMP := CTime 0; ColumnNames.WATER_PRESSURE := CFloat 101.3 ]} ] |}.

(** The depths 1.00, 1.00, 1.20, 1.21 of the specification's example. *)
Definition depth_row (t : Z) (d : float) : gmap string cell :=
  {[ ColumnNames.TIMESTAMP := CTime t; ColumnNames.WATER_DEPTH := CFloat d ]}.

Definition example_depths : DataFrame :=
  {| columns := [(ColumnNames.TIMESTAMP, datetime64); (ColumnNames.WATER_DEPTH, float64)];
     rows := [depth_row 0 1.00; depth_row 1 1.00; depth_row 2 1.20; depth_row 3 1.21] |}.

(** One reading of 5.0 degrees. *)
Definition warm_frame : DataFrame :=
  {| columns := [(ColumnNames.TIMESTAMP, datetime64); (ColumnNames.WATER_TEMPERATURE, float64)];
     rows := [ {[ ColumnNames.TIMESTAMP := CTime 0;
                  ColumnNames.WATER_TEMPERATURE := CFloat 5.0 ]} ] |}.


(** A worked run of [compute_wse].

    Samples are (time in ns, pressure, temperature); timestamps are already
    parsed, no time zone is configured, and "15min" is the only duration
    the stand-in for [pd.to_timedelta] reads. *)

Definition Sample : Type := Z * float * float.
Definition sample_time (s : Sample) : Z := fst (fst s).
Definition sample_pressure (s : Sample) : float := snd (fst s).
Definition sample_temperature (s : Sample) : float := snd s.

Definition example_timedelta (text : string) : result Z :=
  if String.eqb text "15min" then Ok 900000000000%Z
  else Raise (ValueError "unit abbreviation w/o a number").

Definition no_timezones (tz : string) : result (Z -> option Z) :=
  Raise (ValueError "unknown time zone").

Definition example_config (density : float) : ProcessingConfig :=
  {| reference_datum := 100.0; fluid_density := density; pressure_units := "kPa";
     timezone := None; merge_tolerance := "15min" |}.

Definition run_example (config : ProcessingConfig) (water barometric : list Sample)
    (water_temp_col : option (Sample -> float)) : result DataFrame :=
  compute_wse (raw := Z) Some no_timezones example_timedelta insertion_sort
    water barometric config sample_pressure sample_pressure water_temp_col None
    sample_time sample_time.

Definition HOUR : Z := 3600000000000.

(** The second water sample is above water: 100.9 kPa under 101.0 kPa of
    air; the third has no barometric sample within 15 minutes. *)
Definition example_water : list Sample :=
  [(HOUR, 100.9%float, 11.0%float); (0%Z, 101.3%float, 12.5%float);
   ((5 * HOUR)%Z, 101.2%float, 12.0%float)].
Definition example_baro : list Sample :=
  [(0%Z, 101.0%float, 9.0%float); (HOUR, 101.0%float, 9.5%float)].

(** One water sample ten minutes after the first of two barometric samples
    and ten minutes before the second. *)
Definition MINUTE : Z := 60000000000.
Definition tie_water : list Sample := [((10 * MINUTE)%Z, 101.3%float, 12.0%float)].
Definition tie_baro : list Sample :=
  [(0%Z, 101.0%float, 9.0%float); ((20 * MINUTE)%Z, 100.0%float, 9.5%float)].

(** ** io.py

    Column and header detection work on text only and are modelled in
    full.  The readers, the byte decoder and the splitting of text into
    lines are pandas' and Python's; [load_dataset] and [read_hobo_file] take
    them as parameters, together with the type of the frames they return. *)

(** [candidate in key]: [candidate] occurs in [key] as a substring. *)
Fixpoint substring_of (candidate key : string) : bool :=
  String.prefix candidate key
  || match key with
     | EmptyString => false
     | String _ key' => substring_of candidate key'
     end.

(** [for idx, line in enumerate(lines)] of [_find_header_line]. *)
Fixpoint find_header_from (idx : nat) (lines : list string) : nat :=
  match lines with
  | [] => 0
  | line :: rest =>
      let normalized := lower line in
      if substring_of "date" normalized && substring_of "time" normalized then idx
      else find_header_from (S idx) rest
  end.

Definition _find_header_line (lines : list string) : nat := find_header_from 0 lines.

(** A Python [dict] with string keys, in insertion order: assigning to a
    key that is present replaces its value and keeps its place. *)
Fixpoint dict_set (key value : string) (d : list (string * string)) : list (string * string) :=
  match d with
  | [] => [(key, value)]
  | kv :: d' =>
      if String.eqb key (fst kv) then (key, value) :: d' else kv :: dict_set key value d'
  end.

(** [{col.lower(): col for col in columns}] *)
Definition lowered_columns (columns : list string) : list (string * string) :=
  fold_left (fun d col => dict_set (lower col) col d) columns [].

(** The inner loop of [_find_column]: the first key that contains the
    candidate. *)
Definition first_match (candidate : string) (lowered : list (string * string))
    : option string :=
  snd <$> find (fun kv : string * string => substring_of candidate (fst kv)) lowered.

Fixpoint find_in (lowered : list (string * string)) (candidates : list string)
    : option string :=
  match candidates with
  | [] => None
  | candidate :: rest =>
      match first_match candidate lowered with
      | Some original => Some original
      | None => find_in lowered rest
      end
  end.

Definition _find_column (columns candidates : list string) : option string :=
  find_in (lowered_columns columns) candidates.

(** [str.strip()] on ASCII text. *)
Definition is_space (c : ascii) : bool :=
  let n := nat_of_ascii c in
  ((9 <=? n)%nat && (n <=? 13)%nat) || ((28 <=? n)%nat && (n <=? 32)%nat).

Fixpoint lstrip (s : string) : string :=
  match s with
  | EmptyString => EmptyString
  | String c s' => if is_space c then lstrip s' else s
  end.

Fixpoint rstrip (s : string) : string :=
  match s with
  | EmptyString => EmptyString
  | String c s' =>
      match rstrip s' with
      | EmptyString => if is_space c then EmptyString else String c EmptyString
      | rest => String c rest
      end
  end.

Definition strip (s : string) : string := rstrip (lstrip s).

Definition TIMESTAMP_CANDIDATES : list string := ["date time"; "datetime"; "timestamp"; "time"].
Definition PRESSURE_CANDIDATES : list string :=
  ["pressure"; "abs pressure"; "water pressure"; "kpa"; "psi"].
Definition TEMPERATURE_CANDIDATES : list string := ["temp"; "temperature"].

Record ParsedDataset (T : Type) := {
  name : string;
  data : T;
  timestamp_column : option string;
  pressure_column : option string;
  temperature_column : option string
}.
Arguments name {T} _.
Arguments data {T} _.
Arguments timestamp_column {T} _.
Arguments pressure_column {T} _.
Arguments temperature_column {T} _.

(** The separators [read_hobo_file] tries, in order; [None] lets the
    parser guess. *)
Definition HOBO_SEPARATORS : list (option string) :=
  [None; Some ","; Some (String (ascii_of_nat 9) EmptyString); Some ";"].

Section Loading.
Context {Bytes T : Type}.
(** [_decode_bytes]: the text of the file (the last codec tried, latin-1,
    decodes every byte string). *)
Variable _decode_bytes : Bytes -> string.
Variable splitlines : string -> list string.
(** [pd.read_csv(StringIO(content), sep=sep, engine="python")] *)
Variable read_csv : string -> option string -> result T.
Variable read_delimited : Bytes -> result T.
Variable read_excel : Bytes -> result T.
(** [df.empty], [df.columns] and [df.columns = ...] *)
Variable empty : T -> bool.
Variable columns_of : T -> list string.
Variable set_columns : T -> list string -> T.

(** The loop over the separators: a parse that raises or gives an empty
    frame is passed over.  The dash of the message is U+2013, here in
    UTF-8. *)
Fixpoint first_parse (content : string) (seps : list (option string)) : result T :=
  match seps with
  | [] => Raise (ValueError "Unable to parse HOBO file – please export as CSV/Excel.")
  | sep :: rest =>
      match read_csv content sep with
      | Ok df => if negb (empty df) then Ok df else first_parse content rest
      | Raise _ => first_parse content rest
      end
  end.

Definition read_hobo_file (data : Bytes) : result T :=
  let text := _decode_bytes data in
  let lines := splitlines text in
  let header_idx := _find_header_line lines in
  let content := String.concat (String (ascii_of_nat 10) EmptyString) (drop header_idx lines) in
  first_parse content HOBO_SEPARATORS.

Definition load_dataset (name : string) (data : Bytes) (suffix : string)
    : result (ParsedDataset T) :=
  let suffix := lower suffix in
  df ← (if String.eqb suffix ".hobo" then read_hobo_file data
        else if String.eqb suffix ".csv" || String.eqb suffix ".txt" then read_delimited data
        else if String.eqb suffix ".xls" || String.eqb suffix ".xlsx" then read_excel data
        else Raise (ValueError ("Unsupported file type: " +:+ suffix)));
  let df := set_columns df (map strip (columns_of df)) in
  let timestamp_col := _find_column (columns_of df) TIMESTAMP_CANDIDATES in
  let pressure_col := _find_column (columns_of df) PRESSURE_CANDIDATES in
  let temp_col := _find_column (columns_of df) TEMPERATURE_CANDIDATES in
  Ok {| name := name; data := df; timestamp_column := timestamp_col;
        pressure_column := pressure_col; temperature_column := temp_col |}.

End Loading.

(** ** app.py: joining the historical dataset

    [main] appends the new frame to the historical one, drops rows whose
    timestamp was already seen and sorts by timestamp.  Sorting is pandas'
    and a parameter; it can fail on a column of mixed kinds. *)

(** Two cells that [drop_duplicates] takes for the same value. *)
Definition cell_eqb (a b : cell) : bool :=
  match a, b with
  | CFloat x, CFloat y => (x =? y)%float || (is_nan x && is_nan y)
  | CTime s, CTime t => (s =? t)%Z
  | CNaT, CNaT => true
  | CStr s, CStr t => String.eqb s t
  | _, _ => false
  end.

(** [DataFrame.empty]: no column or no row. *)
Definition frame_empty (df : DataFrame) : bool :=
  match columns df, rows df with
  | [], _ | _, [] => true
  | _, _ => false
  end.

Definition dtype_eqb (a b : dtype) : bool :=
  match a, b with
  | float64, float64 | datetime64, datetime64 | object, object => true
  | _, _ => false
  end.

(** [pd.concat([a, b], ignore_index=True)]: the rows of [a], then those of
    [b]; the columns of [a], then the new ones of [b]; a column whose two
    dtypes differ becomes [object]. *)
Definition concat (a b : DataFrame) : DataFrame :=
  {| columns :=
       map (fun c : string * dtype =>
              match find (fun c' : string * dtype => String.eqb (fst c) (fst c')) (columns b) with
              | Some c' => if dtype_eqb (snd c) (snd c') then c else (fst c, object)
              | None => c
              end) (columns a)
       ++ List.filter (fun c : string * dtype => negb (contains a (fst c))) (columns b);
     rows := rows a ++ rows b |}.

(** [drop_duplicates(subset=[label])], keeping the first row of each
    value. *)
Fixpoint keep_first (label : string) (seen : list cell) (rs : list (gmap string cell))
    : list (gmap string cell) :=
  match rs with
  | [] => []
  | r :: rs' =>
      let c := default (CFloat nan) (r !! label) in
      if existsb (cell_eqb c) seen then keep_first label seen rs'
      else r :: keep_first label (c :: seen) rs'
  end.

Definition drop_duplicates (df : DataFrame) (label : string) : result DataFrame :=
  if contains df label
  then Ok {| columns := columns df; rows := keep_first label [] (rows df) |}
  else Raise (KeyError label).

Section History.
(** [DataFrame.sort_values(label)] on the rows. *)
Variable sort_rows : string -> list (gmap string cell) -> result (list (gmap string cell)).

Definition with_history (history_df : option DataFrame) (merged : DataFrame)
    : result DataFrame :=
  match history_df with
  | Some history =>
      if negb (frame_empty history) then
        let merged := concat history merged in
        deduplicated ← drop_duplicates merged ColumnNames.TIMESTAMP;
        sorted ← sort_rows ColumnNames.TIMESTAMP (rows deduplicated);
        Ok {| columns := columns deduplicated; rows := sorted |}
      else Ok merged
  | None => Ok merged
  end.

End History.

(** ** Further notions used in the statements *)

(** The labels of a frame after a column assignment. *)
Definition labels_with (df : DataFrame) (label : string) : list string :=
  if contains df label then labels df else labels df ++ [label].

(** Row and temperature as the outlier detector reports them, if it does. *)
Definition excess_row (threshold : float) (rv : gmap string cell * float)
    : option (gmap string cell) :=
  if (threshold <? snd rv)%float
  then Some (<["temperature_excess" := CFloat (snd rv - threshold)]> (fst rv))
  else None.

(** The timestamp of a row, when it has one. *)
Definition timestamp_of (r : gmap string cell) : option Z :=
  match r !! ColumnNames.TIMESTAMP with
  | Some (CTime t) => Some t
  | _ => None
  end.

(** A frame with its parsed and localised timestamps, before sorting. *)
Definition stamped {raw A} (to_datetime : raw -> option Z) (localize : option Z -> option Z)
    (timestamp_col : A -> raw) (df : list A) : list (option Z * A) :=
  map (fun r => (localize (to_datetime (timestamp_col r)), r)) df.

(** The frame [compute_wse] builds from the aligned rows. *)
Definition finished {W B} (config : ProcessingConfig) (factor : float)
    (water_pressure_col : W -> float) (baro_pressure_col : B -> float)
    (water_temp_col : option (W -> float)) (baro_temp_col : option (B -> float))
    (aligned : list (Z * W * option (Z * B))) : DataFrame :=
  {| columns :=
       set_dtype
         (set_dtype
            (set_dtype (merged_columns water_temp_col baro_temp_col)
               ColumnNames.GAUGE_PRESSURE float64)
            ColumnNames.WATER_DEPTH float64)
         ColumnNames.WSE float64;
     rows := map (with_wse config factor)
               (retained water_pressure_col baro_pressure_col water_temp_col baro_temp_col
                  aligned) |}.

(** ** app.py: [_column_selector]

    The selector is a widget; what the code computes is the position of the
    option shown first, [options.index(default) if default in options else
    0].  [default] is a detected column, or [None]. *)

(** [list.index] *)
Fixpoint list_index (x : string) (l : list string) : result nat :=
  match l with
  | [] => Raise (ValueError "x not in list")
  | y :: l' => if String.eqb x y then Ok 0%nat else i ← list_index x l'; Ok (S i)
  end.

Definition _column_selector_index (options : list string) (default : option string)
    : result nat :=
  match default with
  | Some d => if existsb (String.eqb d) options then list_index d options else Ok 0%nat
  | None => Ok 0%nat
  end.

(** A line that [_find_header_line] takes for the header row. *)
Definition header_like (line : string) : bool :=
  substring_of "date" (lower line) && substring_of "time" (lower line).

(** The cell of a row under a label, as [drop_duplicates] compares it. *)
Definition cell_at (label : string) (r : gmap string cell) : cell :=
  default (CFloat nan) (r !! label).

(** Water samples whose timestamp text may fail to parse. *)
Definition RawSample : Type := option Z * float.

(** A series whose depth does not change. *)
Definition steady_depths : DataFrame :=
  {| columns := [(ColumnNames.TIMESTAMP, datetime64); (ColumnNames.WATER_DEPTH, float64)];
     rows := [depth_row 0 2.5; depth_row 1 2.5; depth_row 2 2.5] |}.

(** A stand-in for the readers: a frame is given by its column names, and
    every file holds the same three columns. *)
Definition example_reader (data : string) : result (list string) :=
  Ok [" Date Time, GMT-08:00"; "Abs Pres, kPa "; "Temp, C"].

Definition example_load (name suffix : string) : result (ParsedDataset (list string)) :=
  load_dataset (Bytes := string) (T := list string) id (fun text => [text])
    (fun content sep => example_reader content) example_reader example_reader
    (fun df => match df with [] => true | _ => false end) id (fun _ l => l)
    name "" suffix.

(** A stand-in for [sort_values]: an insertion sort on the timestamps of
    the column, rows without one last. *)
Definition sort_by_time (label : string) (rs : list (gmap string cell))
    : result (list (gmap string cell)) :=
  Ok (insertion_sort _ (fun r => match cell_at label r with CTime t => Some t | _ => None end)
        rs).

Definition wse_row (t : Z) (wse : float) : gmap string cell :=
  {[ ColumnNames.TIMESTAMP := CTime t; ColumnNames.WSE := CFloat wse ]}.

(** A history of two readings and a new frame that repeats the second. *)
Definition example_history : DataFrame :=
  {| columns := [(ColumnNames.TIMESTAMP, datetime64); (ColumnNames.WSE, float64)];
     rows := [wse_row 0 100.5; wse_row HOUR 100.6] |}.
Definition example_new : DataFrame :=
  {| columns := [(ColumnNames.TIMESTAMP, datetime64); (ColumnNames.WSE, float64)];
     rows := [wse_row HOUR 100.7; wse_row (2 * HOUR) 100.8] |}.

(** * Verification *)

(** ** Binary64 arithmetic

    Facts about the rounded operations, derived from the specification of
    the primitive floats ([SpecFloat], [FloatAxioms]). *)

Section Binary64.
Local Open Scope Z_scope.

(** The float specification is written with the kernel's integer
    operations; [std_z] restates them with the library's, which [lia] reads. *)
Ltac std_z :=
  change IntDef.Z.max with Z.max in *;
  change IntDef.Z.min with Z.min in *;
  change IntDef.Z.add with Z.add in *;
  change IntDef.Z.sub with Z.sub in *;
  change IntDef.Z.mul with Z.mul in *;
  change IntDef.Z.opp with Z.opp in *;
  change IntDef.Z.leb with Z.leb in *;
  change IntDef.Z.eqb with Z.eqb in *;
  change IntDef.Z.compare with Z.compare in *.

Lemma digits2_pos_lower m : 2 ^ (Z.pos (digits2_pos m) - 1) <= Z.pos m.
Proof.
  induction m as [m IH|m IH|]; simpl digits2_pos.
  - rewrite Pos2Z.inj_succ. replace (Z.succ (Z.pos (digits2_pos m)) - 1) with (Z.succ (Z.pos (digits2_pos m) - 1)) by lia.
    rewrite Z.pow_succ_r by lia. lia.
  - rewrite Pos2Z.inj_succ. replace (Z.succ (Z.pos (digits2_pos m)) - 1) with (Z.succ (Z.pos (digits2_pos m) - 1)) by lia.
    rewrite Z.pow_succ_r by lia. lia.
  - simpl. lia.
Qed.

Lemma digits2_pos_upper m : Z.pos m < 2 ^ Z.pos (digits2_pos m).
Proof.
  induction m as [m IH|m IH|]; simpl digits2_pos.
  - rewrite Pos2Z.inj_succ, Z.pow_succ_r by lia. lia.
  - rewrite Pos2Z.inj_succ, Z.pow_succ_r by lia. lia.
  - simpl. lia.
Qed.

Lemma shr_1_m mrs : 0 <= shr_m mrs -> shr_m (shr_1 mrs) = shr_m mrs / 2.
Proof.
  destruct mrs as [m r s]; cbn [shr_m]. intros Hm.
  destruct m as [|[p|p|]|p]; cbn [shr_1 shr_m]; try lia; try reflexivity.
  - apply Z.div_unique with 1; lia.
  - apply Z.div_unique with 0; lia.
Qed.

Lemma iter_shr_m p : forall mrs, 0 <= shr_m mrs ->
  shr_m (SpecFloat.iter_pos shr_1 p mrs) = shr_m mrs / 2 ^ Z.pos p.
Proof.
  induction p as [p IH|p IH|]; intros mrs Hm; simpl SpecFloat.iter_pos.
  - assert (H1 : 0 <= shr_m (shr_1 mrs)) by (rewrite shr_1_m by lia; apply Z.div_pos; lia).
    assert (H2 : 0 <= shr_m (SpecFloat.iter_pos shr_1 p (shr_1 mrs))) by (rewrite IH by lia; apply Z.div_pos; lia).
    rewrite IH, IH, shr_1_m by lia.
    rewrite !Z.div_div by lia.
    f_equal. rewrite Pos2Z.inj_xI. rewrite <- Z.pow_add_r, <- Z.pow_succ_r by lia. f_equal. lia.
  - assert (H2 : 0 <= shr_m (SpecFloat.iter_pos shr_1 p mrs)) by (rewrite IH by lia; apply Z.div_pos; lia).
    rewrite IH, IH by lia.
    rewrite !Z.div_div by lia.
    f_equal. rewrite Pos2Z.inj_xO. rewrite <- Z.pow_add_r by lia. f_equal. lia.
  - rewrite shr_1_m by lia. reflexivity.
Qed.

Lemma shr_m_of_loc m l : shr_m (shr_record_of_loc m l) = m.
Proof. destruct l as [|[]]; reflexivity. Qed.


(** Rounding a positive mantissa whose exponent is at least [emin] never
    reaches zero. *)
Lemma shr_fexp_pos m e l :
  0 < m -> emin64 <= e ->
  0 < shr_m (fst (shr_fexp prec emax m e l)) /\ emin64 <= snd (shr_fexp prec emax m e l).
Proof.
  intros Hm He. unfold shr_fexp, shr, fexp, SpecFloat.emin, prec, emax.
  destruct m as [|pm|pm]; try lia. simpl Zdigits2.
  set (d := Z.pos (digits2_pos pm)).
  destruct (Z.max (d + e - 53) (3 - 1024 - 53) - e) as [|n|n] eqn:Hn; simpl fst; simpl snd;
    rewrite ?shr_m_of_loc; try (split; lia).
  assert (Hd : Z.pos n = d - 53) by lia.
  rewrite iter_shr_m by (rewrite shr_m_of_loc; lia).
  rewrite shr_m_of_loc. split; [|lia].
  apply Z.div_str_pos. split; [apply Z.pow_pos_nonneg; lia|].
  etransitivity; [|apply digits2_pos_lower].
  apply Z.pow_le_mono_r; lia.
Qed.

Lemma round_nearest_even_ge m l : m <= round_nearest_even m l.
Proof. destruct l as [|[]]; simpl; try lia. destruct (Z.even m); lia. Qed.


Lemma binary_round_aux_pos s m e l :
  0 < m -> emin64 <= e -> positive_result s (binary_round_aux prec emax s m e l).
Proof.
  intros Hm He. unfold binary_round_aux.
  pose proof (shr_fexp_pos m e l Hm He) as [H1 H2].
  destruct (shr_fexp prec emax m e l) as [mrs' e'] eqn:E1. simpl in H1, H2.
  pose proof (round_nearest_even_ge (shr_m mrs') (loc_of_shr_record mrs')) as Hr.
  pose proof (shr_fexp_pos (round_nearest_even (shr_m mrs') (loc_of_shr_record mrs')) e' loc_Exact ltac:(lia) H2) as [H3 H4].
  destruct (shr_fexp prec emax _ e' loc_Exact) as [mrs'' e''] eqn:E2. simpl in H3, H4.
  destruct (shr_m mrs''); try lia.
  destruct (e'' <=? emax - prec); reflexivity.
Qed.

Lemma shl_align_fst mx ex ez :
  ez <= ex -> Z.pos (fst (shl_align mx ex ez)) = Z.pos mx * 2 ^ (ex - ez).
Proof.
  intros Hle. unfold shl_align. destruct (ez - ex) as [|d|d] eqn:Hd; try lia.
  - replace (ex - ez) with 0 by lia. simpl. lia.
  - cbn [fst]. fold (shift_pos d mx).
    rewrite shift_pos_correct, Zpower_pos_nat, Zpower_nat_Z, positive_nat_Z.
    replace (ex - ez) with (Z.pos d) by lia. lia.
Qed.

Lemma shl_align_snd mx ex ez : snd (shl_align mx ex ez) = Z.min ex ez.
Proof. unfold shl_align. destruct (ez - ex) as [|d|d] eqn:Hd; simpl; lia. Qed.

Lemma binary_round_pos s mx ex :
  emin64 <= ex -> positive_result s (binary_round prec emax s mx ex).
Proof.
  intros He. unfold binary_round.
  pose proof (shl_align_snd mx ex (fexp prec emax (Z.pos (digits2_pos mx) + ex))) as Hs.
  destruct (shl_align mx ex _) as [mz ez]. simpl in Hs.
  apply binary_round_aux_pos; [lia|].
  subst ez. unfold fexp, SpecFloat.emin, prec, emax. lia.
Qed.

(** A valid finite binary64 number has its exponent at least [emin]; above
    [emin] its mantissa has exactly 53 digits, and never more. *)
Lemma bounded_exponent m e :
  bounded prec emax m e = true ->
  emin64 <= e /\ Z.pos (digits2_pos m) <= 53 /\ (emin64 < e -> Z.pos (digits2_pos m) = 53).
Proof.
  unfold bounded, canonical_mantissa, fexp, SpecFloat.emin, prec, emax.
  intros [H _]%andb_true_iff. apply Z.eqb_eq in H.
  std_z. lia.
Qed.

Lemma pos_compare_cont_lt m1 m2 : Pos.compare_cont Eq m1 m2 = Lt -> Z.pos m1 < Z.pos m2.
Proof. intros H. apply Pos2Z.pos_lt_pos, Pos.compare_lt_iff. exact H. Qed.

(** The mantissas of two valid numbers of one sign, brought to the smaller
    exponent, compare as the numbers do. *)
Lemma aligned_lt m1 e1 m2 e2 :
  bounded prec emax m1 e1 = true -> bounded prec emax m2 e2 = true ->
  match e1 ?= e2 with Lt => Lt | Gt => Gt | Eq => Pos.compare_cont Eq m1 m2 end = Lt ->
  Z.pos (fst (shl_align m1 e1 (Z.min e1 e2))) < Z.pos (fst (shl_align m2 e2 (Z.min e1 e2))).

Proof.
  intros [Hb1 [Hd1 _]]%bounded_exponent [Hb2 [_ Hd2]]%bounded_exponent Hc.
  rewrite !shl_align_fst by lia.
  destruct (Z.compare_spec e1 e2) as [->|Hlt|Hgt]; try discriminate.
  - apply pos_compare_cont_lt in Hc. rewrite Z.min_id, Z.sub_diag. lia.
  - rewrite Z.min_l, Z.sub_diag by lia.
    specialize (Hd2 ltac:(lia)).
    pose proof (digits2_pos_upper m1) as Hu.
    pose proof (digits2_pos_lower m2) as Hl. rewrite Hd2 in Hl.
    assert (2 ^ Z.pos (digits2_pos m1) <= 2 ^ 53) by (apply Z.pow_le_mono_r; lia).
    assert (2 ^ 1 <= 2 ^ (e2 - e1)) by (apply Z.pow_le_mono_r; lia).
    change (2 ^ (53 - 1)) with 4503599627370496 in Hl.
    change (2 ^ 53) with 9007199254740992 in *. change (2 ^ 1) with 2 in *. change (2 ^ 0) with 1.
    nia.
Qed.


Lemma finite_compare_opp e1 e2 m1 m2 :
  match e1 ?= e2 with Lt => Gt | Gt => Lt | Eq => CompOpp (Pos.compare_cont Eq m1 m2) end = Lt ->
  finite_compare e2 e1 m2 m1 = Lt.
Proof.
  unfold finite_compare. rewrite (Z.compare_antisym e1 e2).
  destruct (e1 ?= e2); simpl; try discriminate; try reflexivity.
  change (Pos.compare_cont Eq m2 m1) with (Pos.compare m2 m1).
  rewrite (Pos.compare_antisym m1 m2). auto.
Qed.

Lemma SFcompare_finite_lt sy my ey sx mx ex :
  SFcompare (S754_finite sy my ey) (S754_finite sx mx ex) = Some Lt ->
  (sy = true /\ sx = false)
  \/ (sy = false /\ sx = false /\ finite_compare ey ex my mx = Lt)
  \/ (sy = true /\ sx = true /\ finite_compare ex ey mx my = Lt).
Proof.
  simpl. std_z. destruct sy, sx; intros H; try discriminate; auto.
  - injection H as H. right; right. repeat split. apply finite_compare_opp, H.
  - injection H as H. right; left. repeat split. exact H.
Qed.

Lemma SF64sub_pos x y :
  valid_binary x = true -> valid_binary y = true ->
  SFltb y x = true -> SFltb (S754_zero false) (SF64sub x y) = true.
Proof.
  intros Hx Hy Hlt. unfold SFltb in *.
  destruct (SFcompare y x) as [[]|] eqn:Hc; try discriminate. clear Hlt.
  assert (Hres : positive_result false (SF64sub x y)).
  { destruct x as [sx|sx| |sx mx ex], y as [sy|sy| |sy my ey];
      try discriminate;
      try (destruct sx; try discriminate; reflexivity);
      try (destruct sy; try discriminate; reflexivity);
      try (destruct sx, sy; try discriminate; reflexivity).
    simpl in Hx, Hy. unfold SF64sub, SFsub. std_z.
    pose proof (bounded_exponent _ _ Hx) as [Hex _].
    pose proof (bounded_exponent _ _ Hy) as [Hey _].
    set (ez := Z.min ex ey).
    assert (Hpos : 0 < cond_Zopp sx (Z.pos (fst (shl_align mx ex ez)))
                       - cond_Zopp sy (Z.pos (fst (shl_align my ey ez)))).
    { apply SFcompare_finite_lt in Hc as [[-> ->]|[(-> & -> & H)|(-> & -> & H)]];
        simpl cond_Zopp; try lia.
      - apply (aligned_lt my ey mx ex Hy Hx) in H. rewrite Z.min_comm in H. fold ez in H. lia.
      - apply (aligned_lt mx ex my ey Hx Hy) in H. fold ez in H. lia. }
    unfold binary_normalize.
    destruct (_ - _) as [|p|p]; try lia.
    apply binary_round_pos. subst ez. lia. }
  destruct (SF64sub x y) as [s|s| |s m e]; simpl in Hres; try contradiction; subst; reflexivity.
Qed.

Lemma sub_pos (x y : float) : (y <? x)%float = true -> (0 <? x - y)%float = true.
Proof.
  rewrite !ltb_spec, sub_spec. intros H.
  apply SF64sub_pos; auto using Prim2SF_valid.
Qed.

(** *** Signs of products and quotients *)


Lemma binary_round_aux_signed s m e l : signed s (binary_round_aux prec emax s m e l).
Proof.
  unfold binary_round_aux.
  destruct (shr_fexp prec emax m e l) as [mrs' e'].
  destruct (shr_fexp prec emax _ e' loc_Exact) as [mrs'' e''].
  destruct (shr_m mrs''); simpl; auto.
  destruct (_ <=? _)%Z; reflexivity.
Qed.

Lemma SF64mul_signed sx sy x y :
  signed sx x -> signed sy y -> signed (xorb sx sy) (SF64mul x y).
Proof.
  destruct x, y; simpl; intros; subst; auto.
  apply binary_round_aux_signed.
Qed.

Lemma SF64div_signed sx sy x y :
  signed sx x -> signed sy y -> signed (xorb sx sy) (SF64div x y).
Proof.
  destruct x, y; simpl; intros; subst; auto.
  destruct (SFdiv_core_binary _ _ _ _ _ _) as [[mz ez] lz].
  apply binary_round_aux_signed.
Qed.

Lemma SFltb_zero_signed x : SFltb x (S754_zero false) = true -> signed true x.
Proof. destruct x as [| [] | | [] ]; simpl; intros; try discriminate; auto. Qed.

Lemma SFltb_signed_zero x : SFltb (S754_zero false) x = true -> signed false x.
Proof. destruct x as [| [] | | [] ]; simpl; intros; try discriminate; auto. Qed.

Lemma signed_not_positive x : signed true x -> SFltb (S754_zero false) x = false.
Proof. destruct x; simpl; intros; subst; auto. Qed.

Lemma Prim2SF_zero : Prim2SF 0 = S754_zero false.
Proof. reflexivity. Qed.

Lemma Prim2SF_nan : Prim2SF nan = S754_nan.
Proof. reflexivity. Qed.

(** A negative number times a positive factor, divided by a positive
    density times a positive constant, is never positive. *)
Lemma quotient_not_positive (g c rho k : float) :
  (g <? 0)%float = true -> (0 <? c)%float = true ->
  (0 <? rho)%float = true -> (0 <? k)%float = true ->
  (0 <? g * c / (rho * k))%float = false.
Proof.
  rewrite !ltb_spec, div_spec, !mul_spec, Prim2SF_zero. intros Hg Hc Hr Hk.
  apply signed_not_positive.
  change true with (xorb (xorb true false) (xorb false false)).
  apply SF64div_signed; apply SF64mul_signed;
    eauto using SFltb_zero_signed, SFltb_signed_zero.
Qed.

Lemma ltb_nan_r (x : float) : (x <? nan)%float = false.
Proof. rewrite ltb_spec, Prim2SF_nan. unfold SFltb. destruct (Prim2SF x); reflexivity. Qed.

(** Dividing by a zero never raises and never gives a finite number. *)
Lemma div_zero_not_finite (p z : float) :
  (z =? 0)%float = true -> is_finite (p / z) = false.
Proof.
  intros Hz. unfold is_finite, is_nan, is_infinity.
  rewrite FloatAxioms.eqb_spec in Hz. rewrite !FloatAxioms.eqb_spec, abs_spec, div_spec.
  change (Prim2SF infinity) with (S754_infinity false).
  rewrite Prim2SF_zero in Hz.
  destruct (Prim2SF z) as [sz|sz| |sz mz ez]; try discriminate;
    try (destruct sz; discriminate).
  destruct (Prim2SF p) as [sp|sp| |sp mp ep]; try reflexivity;
    destruct sp, sz; reflexivity.
Qed.
End Binary64.

(** ** Unit names *)

Lemma all_ascii_complete (a : ascii) : In a all_ascii.
Proof.
  unfold all_ascii. rewrite <- (ascii_nat_embedding a).
  apply in_map, in_seq. pose proof (nat_ascii_bounded a). lia.
Qed.

Lemma same_letter_lower (a b : ascii) :
  same_letter a b = Ascii.eqb (lower_ascii a) (lower_ascii b).
Proof.
  assert (H : forallb (fun a => forallb (fun b =>
              Bool.eqb (same_letter a b) (Ascii.eqb (lower_ascii a) (lower_ascii b)))
              all_ascii) all_ascii = true) by (vm_compute; reflexivity).
  rewrite forallb_forall in H. specialize (H a (all_ascii_complete a)).
  rewrite forallb_forall in H. specialize (H b (all_ascii_complete b)).
  apply Bool.eqb_prop, H.
Qed.

Lemma same_ignoring_case_lower (s t : string) :
  same_ignoring_case s t = String.eqb (lower s) (lower t).
Proof.
  revert t. induction s as [|a s IH]; intros [|b t]; simpl; try reflexivity.
  rewrite same_letter_lower, IH. reflexivity.
Qed.

Lemma conversion_factor_lower (units : string) :
  conversion_factor units =
    if String.eqb (lower units) "kpa" then Some KPA_TO_PASCAL
    else if String.eqb (lower units) "psi" then Some PSI_TO_PASCAL
    else None.
Proof. unfold conversion_factor. rewrite !same_ignoring_case_lower. reflexivity. Qed.

Lemma to_pascal_factor (series : list float) (units : string) (factor : float) :
  conversion_factor units = Some factor ->
  _to_pascal series units = Ok (map (fun v => (v * factor)%float) series).
Proof.
  rewrite conversion_factor_lower. unfold _to_pascal.
  destruct (String.eqb (lower units) "kpa"); [intros [= <-]; reflexivity|].
  destruct (String.eqb (lower units) "psi"); [intros [= <-]; reflexivity|discriminate].
Qed.

Lemma to_pascal_unsupported (series : list float) (units : string) :
  conversion_factor units = None ->
  _to_pascal series units =
    Raise (ValueError ("Unsupported pressure unit: " +:+ lower units)).
Proof.
  rewrite conversion_factor_lower. unfold _to_pascal.
  destruct (String.eqb (lower units) "kpa"); [discriminate|].
  destruct (String.eqb (lower units) "psi"); [discriminate|reflexivity].
Qed.

Lemma to_pascal_Ok_inv (series pascal : list float) (units : string) :
  _to_pascal series units = Ok pascal ->
  exists factor, conversion_factor units = Some factor
    /\ pascal = map (fun v => (v * factor)%float) series.
Proof.
  destruct (conversion_factor units) as [factor|] eqn:E.
  - rewrite (to_pascal_factor _ _ _ E). intros [= <-]. eauto.
  - rewrite (to_pascal_unsupported _ _ E). discriminate.
Qed.

Lemma conversion_factor_positive (units : string) (factor : float) :
  conversion_factor units = Some factor -> (0 <? factor)%float = true.
Proof.
  rewrite conversion_factor_lower.
  destruct (String.eqb (lower units) "kpa"); [intros [= <-]; reflexivity|].
  destruct (String.eqb (lower units) "psi"); [intros [= <-]; reflexivity|discriminate].
Qed.

Lemma lower_ascii_inv (c d : ascii) :
  lower_ascii c = d ->
  c = d \/ c = ascii_of_nat (nat_of_ascii d - 32) /\ (97 <= nat_of_ascii d <= 122)%nat.
Proof.
  unfold lower_ascii. destruct (_ && _) eqn:E; [|auto].
  apply andb_true_iff in E as [H1%Nat.leb_le H2%Nat.leb_le].
  intros <-. right. rewrite nat_ascii_embedding by lia.
  rewrite Nat.add_sub, ascii_nat_embedding. split; [reflexivity|lia].
Qed.

Lemma lower_three (units : string) (a b c : ascii) :
  lower units = String a (String b (String c EmptyString)) ->
  exists a' b' c', units = String a' (String b' (String c' EmptyString))
    /\ lower_ascii a' = a /\ lower_ascii b' = b /\ lower_ascii c' = c.
Proof.
  destruct units as [|a' [|b' [|c' [|d' rest]]]]; simpl; try discriminate.
  intros [= <- <- <-]. eauto 10.
Qed.

Lemma factors_differ : KPA_TO_PASCAL <> PSI_TO_PASCAL.
Proof. intros H. apply (f_equal (fun x => (x <? 2000)%float)) in H. discriminate H. Qed.

(** C2, as amended.  [_to_pascal] multiplies every value by 1000 when the
    unit is kPa and by 6894.757293168 when it is psi, in each of the eight
    letter-case spellings of the name; for every other unit name in ASCII
    characters it raises [ValueError] ("Unsupported pressure unit").  The
    product is a rounded binary64 product: dividing it by the factor gives
    back the value exactly at 101.3, 101.4 and 101.0 kPa, the pressures of
    the end-to-end example, and is not claimed for every value. *)
Theorem to_pascal_scales_by_unit :
  (forall (series : list float) (units : string) (factor : float),
      conversion_factor units = Some factor ->
      _to_pascal series units = Ok (map (fun v => (v * factor)%float) series))
  /\ (forall (series : list float) (units : string),
        is_ascii_text units = true ->
        conversion_factor units = None ->
        _to_pascal series units
        = Raise (ValueError ("Unsupported pressure unit: " +:+ lower units)))
  /\ (forall units, conversion_factor units = Some KPA_TO_PASCAL
        <-> In units ["kpa"; "kpA"; "kPa"; "kPA"; "Kpa"; "KpA"; "KPa"; "KPA"])
  /\ (forall units, conversion_factor units = Some PSI_TO_PASCAL
        <-> In units ["psi"; "psI"; "pSi"; "pSI"; "Psi"; "PsI"; "PSi"; "PSI"])
  /\ Forall (fun v => exists p, _to_pascal [v] "kPa" = Ok [p]
                        /\ (p / KPA_TO_PASCAL =? v)%float = true)
       [101.3; 101.4; 101.0]%float.
Proof.
  split; [|split; [|split; [|split]]].
  - intros series units factor E. apply to_pascal_factor, E.
  - intros series units _ E. apply to_pascal_unsupported, E.
  - intros units. split.
    + rewrite conversion_factor_lower.
      destruct (String.eqb (lower units) "kpa") eqn:E.
      * intros _. apply String.eqb_eq, lower_three in E as (a & b & c & -> & Ha & Hb & Hc).
        apply lower_ascii_inv in Ha as [<-|[-> _]], Hb as [<-|[-> _]], Hc as [<-|[-> _]];
          simpl; auto 10.
      * destruct (String.eqb (lower units) "psi"); [|discriminate].
        intros H. exfalso. apply factors_differ. congruence.
    + simpl. intros H. repeat (destruct H as [<-|H]; [reflexivity|]). destruct H.
  - intros units. split.
    + rewrite conversion_factor_lower.
      destruct (String.eqb (lower units) "kpa") eqn:E0.
      * intros H. exfalso. apply factors_differ. congruence.
      * destruct (String.eqb (lower units) "psi") eqn:E; [|discriminate].
        intros _. apply String.eqb_eq, lower_three in E as (a & b & c & -> & Ha & Hb & Hc).
        apply lower_ascii_inv in Ha as [<-|[-> _]], Hb as [<-|[-> _]], Hc as [<-|[-> _]];
          simpl; auto 10.
    + simpl. intros H. repeat (destruct H as [<-|H]; [reflexivity|]). destruct H.
  - repeat constructor; eexists; (split; [reflexivity|vm_compute; reflexivity]).
Qed.

(** C2, counterexample.  At 14.7 psi the round trip does not give the
    value back: the product is rounded, and so is the quotient. *)
Lemma to_pascal_round_trip_not_exact :
  exists p, _to_pascal [14.7%float] "psi" = Ok [p]
    /\ conversion_factor "psi" = Some PSI_TO_PASCAL
    /\ (p / PSI_TO_PASCAL =? 14.7)%float = false.
Proof. eexists. repeat split. Qed.

(** ** Configuration and the depth formula *)

Lemma gauge_to_depth_factor (gauge : list float) (density : float) (units : string)
    (factor : float) :
  conversion_factor units = Some factor ->
  gauge_to_depth gauge density units
  = Ok (map (fun g => (g * factor / (density * GRAVITY))%float) gauge).
Proof.
  intros E. unfold gauge_to_depth. rewrite (to_pascal_factor _ _ _ E). simpl.
  rewrite map_map. reflexivity.
Qed.

Lemma gauge_to_depth_Ok_inv (gauge depth : list float) (density : float) (units : string) :
  gauge_to_depth gauge density units = Ok depth ->
  exists factor, conversion_factor units = Some factor
    /\ depth = map (fun g => (g * factor / (density * GRAVITY))%float) gauge.
Proof.
  destruct (conversion_factor units) as [factor|] eqn:E.
  - rewrite (gauge_to_depth_factor _ _ _ _ E). intros [= <-]. eauto.
  - unfold gauge_to_depth. rewrite (to_pascal_unsupported _ _ E). discriminate.
Qed.

Lemma zero_times_gravity (density : float) :
  (density =? 0)%float = true -> (density * GRAVITY =? 0)%float = true.
Proof.
  rewrite !FloatAxioms.eqb_spec, mul_spec, Prim2SF_zero.
  destruct (Prim2SF density) as [s|s| |s m e]; try discriminate;
    try (destruct s; discriminate).
  intros _. destruct s; reflexivity.
Qed.

(** C3, as amended.  Constructing a [ProcessingConfig] validates nothing:
    it succeeds for every fluid density, zero and negative ones included,
    and stores the density it is given.  The depth computation then divides
    by [density * 9.80665] row by row; when the density is zero that
    division raises nothing and every depth is an infinity or NaN. *)
Theorem ProcessingConfig_accepts_any_density :
  (forall datum density units tz tolerance,
      exists config,
        ProcessingConfig_init datum density units tz tolerance = Ok config
        /\ fluid_density config = default 1000.0%float density)
  /\ (forall gauge density units factor,
        conversion_factor units = Some factor ->
        (density =? 0)%float = true ->
        exists depth,
          gauge_to_depth gauge density units = Ok depth
          /\ length depth = length gauge
          /\ Forall (fun d => is_finite d = false) depth).
Proof.
  split.
  - intros. eexists. split; reflexivity.
  - intros gauge density units factor E Hz. eexists. split; [|split].
    + apply gauge_to_depth_factor, E.
    + apply length_map.
    + apply Forall_map, Forall_forall. intros g _.
      apply div_zero_not_finite, zero_times_gravity, Hz.
Qed.

(** C3, counterexample.  A configuration with density zero is constructed
    without error, and the depth of a 0.3 kPa gauge pressure computed with it
    is the quotient by zero, +infinity. *)
Lemma zero_density_is_accepted :
  exists config,
    ProcessingConfig_init 100.0%float (Some 0%float) None None None = Ok config
    /\ (fluid_density config <=? 0)%float = true
    /\ gauge_to_depth [0.3%float] (fluid_density config) (pressure_units config)
       = Ok [infinity].
Proof. eexists. repeat split. Qed.

(** ** Frames: selection and assignment *)

Lemma contains_In (df : DataFrame) (label : string) :
  contains df label = true <-> In label (labels df).
Proof.
  unfold contains. rewrite existsb_exists. split.
  - intros (x & Hx & ->%String.eqb_eq). exact Hx.
  - intros H. exists label. split; [exact H|apply String.eqb_refl].
Qed.

Lemma contains_not_In (df : DataFrame) (label : string) :
  contains df label = false <-> ~ In label (labels df).
Proof.
  rewrite <- contains_In. destruct (contains df label); split; congruence.
Qed.

(** C8.  Whenever the input frame has no water-depth column,
    [flag_shifts] raises [KeyError] (the missing-column error), whatever
    else the frame and the configuration contain. *)
Theorem flag_shifts_requires_water_depth (df : DataFrame) (config : QAQCConfig) :
  ~ In ColumnNames.WATER_DEPTH (labels df) ->
  flag_shifts df config = Raise (KeyError "water depth column missing from dataframe").
Proof.
  intros H%contains_not_In. unfold flag_shifts. rewrite H. reflexivity.
Qed.

Lemma flag_shifts_requires_water_depth_witness :
  flag_shifts no_depth_frame {| shift_threshold := 0.15; temperature_threshold := None |}
  = Raise (KeyError "water depth column missing from dataframe").
Proof.
  apply flag_shifts_requires_water_depth. simpl.
  intros [H|[H|[]]]; discriminate H.
Defined.

Lemma collect_to_float64 (cells : list cell) (xs : list float) :
  collect to_float64 cells = Ok xs -> cells = map CFloat xs.
Proof.
  revert xs. induction cells as [|c cells IH]; simpl; intros xs.
  - intros [= <-]. reflexivity.
  - destruct c; simpl; try discriminate.
    destruct (collect to_float64 cells) as [ys|]; [|discriminate].
    intros [= <-]. simpl. f_equal. apply IH. reflexivity.
Qed.

Lemma numeric_inv (df : DataFrame) (label : string) (xs : list float) :
  numeric df label = Ok xs ->
  contains df label = true /\ xs = map (float_at label) (rows df).
Proof.
  unfold numeric, getitem. destruct (contains df label); [|discriminate]. simpl.
  intros H%collect_to_float64. split; [reflexivity|].
  revert xs H. induction (rows df) as [|r rs IH]; intros [|x xs]; simpl; try discriminate.
  - reflexivity.
  - intros [= Hr Hrs]. f_equal; [|apply IH, Hrs].
    unfold float_at. destruct (r !! label) as [c|]; simpl in Hr; [subst c|]; congruence.
Qed.

Lemma numeric_length (df : DataFrame) (label : string) (xs : list float) :
  numeric df label = Ok xs -> length xs = length (rows df).
Proof. intros [_ ->]%numeric_inv. apply length_map. Qed.

(** A row of [df.loc[mask]] with a column assigned from [values[mask]]
    is an input row at a position where the mask holds, with the value of
    that position stored under the label. *)
Lemma assign_mask_In {V} (label : string) (f : V -> cell) (mask : list bool) :
  forall (rs : list (gmap string cell)) (vs : list V) (r : gmap string cell),
    In r (assign label (boolean_mask mask rs) (map f (boolean_mask mask vs))) ->
    exists i r0 v,
      mask !! i = Some true /\ rs !! i = Some r0 /\ vs !! i = Some v
      /\ r = <[label := f v]> r0.
Proof.
  induction mask as [|b mask IH]; intros [|r1 rs] [|v1 vs] r; simpl;
    try (destruct b); simpl; try tauto.
  - destruct (boolean_mask mask rs); simpl; tauto.
  - intros [<-|H].
    + exists 0%nat, r1, v1. auto.
    + apply IH in H as (i & r0 & v & ? & ? & ? & ?). exists (S i), r0, v. auto.
  - intros H. apply IH in H as (i & r0 & v & ? & ? & ? & ?). exists (S i), r0, v. auto.
Qed.

(** ** The shift detector *)

Lemma omap_cons {A B} (f : A -> option B) (a : A) (l : list A) :
  omap f (a :: l) = match f a with Some b => b :: omap f l | None => omap f l end.
Proof. reflexivity. Qed.

Lemma shift_rows_from (threshold : float) (xs : list float) :
  forall (rs : list (gmap string cell)) (pre : list float)
         (rpre : list (gmap string cell)) (prev : float),
    length rpre = S (length pre) ->
    length rs = length xs ->
    let delta := map abs (diff_from prev xs) in
    let flags := map (fun d => (threshold <? d)%float) delta in
    assign "depth_change" (boolean_mask flags rs) (map CFloat (boolean_mask flags delta))
    = omap (shift_row threshold (pre ++ prev :: xs) (rpre ++ rs))
        (seq (S (length pre)) (length rs)).
Proof.
  induction xs as [|x xs IH]; intros [|r rs] pre rpre prev Hpre Hlen; simpl in Hlen;
    try discriminate; [reflexivity|].
  cbn [diff_from map boolean_mask length seq].
  assert (Hrow : shift_row threshold (pre ++ prev :: x :: xs) (rpre ++ r :: rs) (S (length pre))
                 = if (threshold <? abs (x - prev))%float
                   then Some (<["depth_change" := CFloat (abs (x - prev))]> r) else None).
  { unfold shift_row, shift_at.
    rewrite (list_lookup_middle pre (x :: xs) prev (length pre) eq_refl).
    replace (pre ++ prev :: x :: xs) with ((pre ++ [prev]) ++ x :: xs)
      by (rewrite <- app_assoc; reflexivity).
    rewrite (list_lookup_middle (pre ++ [prev]) xs x (S (length pre)))
      by (rewrite length_app; simpl; lia).
    rewrite (list_lookup_middle rpre rs r (S (length pre))) by (symmetry; exact Hpre).
    reflexivity. }
  rewrite omap_cons, Hrow.
  specialize (IH rs (pre ++ [prev]) (rpre ++ [r]) x).
  rewrite !length_app in IH. simpl in IH.
  rewrite <- !app_assoc in IH. simpl in IH.
  replace (length pre + 1)%nat with (S (length pre)) in IH by lia.
  specialize (IH ltac:(lia) ltac:(lia)).
  destruct (threshold <? abs (x - prev))%float; cbn [assign map]; rewrite IH; reflexivity.
Qed.

Lemma flag_shifts_rows (df out : DataFrame) (config : QAQCConfig) :
  flag_shifts df config = Ok out ->
  exists depth,
    numeric df ColumnNames.WATER_DEPTH = Ok depth
    /\ rows out = omap (shift_row (shift_threshold config) depth (rows df))
                    (seq 0 (length (rows df))).
Proof.
  unfold flag_shifts. destruct (contains df ColumnNames.WATER_DEPTH); [|discriminate].
  simpl. destruct (numeric df ColumnNames.WATER_DEPTH) as [depth|] eqn:E; [|discriminate].
  simpl. intros [= <-]. exists depth. split; [reflexivity|]. simpl.
  pose proof (numeric_length _ _ _ E) as Hlen.
  destruct depth as [|x xs], (rows df) as [|r rs]; simpl in Hlen; try discriminate;
    [reflexivity|].
  cbn [diff map]. change (abs nan) with nan. rewrite ltb_nan_r.
  cbn [boolean_mask length seq]. rewrite omap_cons.
  change (shift_row (shift_threshold config) (x :: xs) (r :: rs) 0) with (@None (gmap string cell)).
  apply (shift_rows_from (shift_threshold config) xs rs [] [r] x); simpl; lia.
Qed.

Lemma shift_row_iff (threshold : float) (depth : list float)
    (rs : list (gmap string cell)) (i : nat) (r : gmap string cell) :
  shift_row threshold depth rs i = Some r <->
  exists j a b r0,
    i = S j /\ depth !! i = Some a /\ depth !! j = Some b /\ rs !! i = Some r0
    /\ (threshold <? abs (a - b))%float = true
    /\ r = <["depth_change" := CFloat (abs (a - b))]> r0.
Proof.
  unfold shift_row, shift_at. split.
  - destruct i as [|j]; [discriminate|].
    destruct (depth !! S j) as [a|] eqn:Ea; [|discriminate].
    destruct (depth !! j) as [b|] eqn:Eb; [|discriminate].
    destruct (rs !! S j) as [r0|] eqn:Er; [|discriminate].
    destruct (threshold <? abs (a - b))%float eqn:E; [|discriminate].
    intros [= <-]. exists j, a, b, r0. repeat split; assumption.
  - intros (j & a & b & r0 & -> & -> & -> & -> & -> & ->). reflexivity.
Qed.

(** C6.  [flag_shifts] returns exactly the rows whose absolute depth
    difference from the row just before strictly exceeds [shift_threshold],
    in their order, each with [depth_change] set to that difference; the
    first row is never among them.  On the depths 1.00, 1.00, 1.20, 1.21
    with threshold 0.15 it returns one row, the 1.20 one, with
    [depth_change] within 1e-15 of 0.20. *)
Theorem flag_shifts_flags_exactly_the_shifts :
  (forall df config out,
      flag_shifts df config = Ok out ->
      exists depth,
        numeric df ColumnNames.WATER_DEPTH = Ok depth
        /\ rows out = omap (shift_row (shift_threshold config) depth (rows df))
                        (seq 0 (length (rows df))))
  /\ (forall threshold depth rs i r,
        shift_row threshold depth rs i = Some r <->
        exists j a b r0,
          i = S j /\ depth !! i = Some a /\ depth !! j = Some b /\ rs !! i = Some r0
          /\ (threshold <? abs (a - b))%float = true
          /\ r = <["depth_change" := CFloat (abs (a - b))]> r0)
  /\ (forall threshold depth rs, shift_row threshold depth rs 0 = None)
  /\ (exists out d,
        flag_shifts example_depths
          {| shift_threshold := 0.15; temperature_threshold := None |} = Ok out
        /\ rows out = [<["depth_change" := CFloat d]> (depth_row 2 1.20)]
        /\ (abs (d - 0.20) <? 1e-15)%float = true).
Proof.
  split; [|split; [|split]].
  - intros df config out. apply flag_shifts_rows.
  - apply shift_row_iff.
  - reflexivity.
  - eexists. exists (abs (1.20 - 1.00))%float. split; [reflexivity|]. split.
    + vm_compute. reflexivity.
    + vm_compute. reflexivity.
Qed.

Lemma lookup_map {A B} (f : A -> B) (l : list A) (i : nat) :
  map f l !! i = f <$> (l !! i).
Proof. revert i. induction l as [|a l IH]; intros [|i]; simpl; auto. Qed.

Lemma lookup_In {A} (l : list A) (i : nat) (a : A) : l !! i = Some a -> In a l.
Proof. intros H. apply list_elem_of_In. eapply list_elem_of_lookup_2, H. Qed.

(** C10.  Every row [flag_shifts] and [flag_temperature_outliers] return
    is a row of the input with every column other than the added one
    unchanged; the added [depth_change] strictly exceeds [shift_threshold],
    and the added [temperature_excess] is strictly positive. *)
Theorem flagged_rows_are_input_rows :
  (forall df config out r,
      flag_shifts df config = Ok out -> In r (rows out) ->
      exists r0 d,
        In r0 (rows df)
        /\ (forall label, label <> "depth_change" -> r !! label = r0 !! label)
        /\ r !! "depth_change" = Some (CFloat d)
        /\ (shift_threshold config <? d)%float = true)
  /\ (forall df config out r,
        flag_temperature_outliers df config = Ok out -> In r (rows out) ->
        exists r0 e,
          In r0 (rows df)
          /\ (forall label, label <> "temperature_excess" -> r !! label = r0 !! label)
          /\ r !! "temperature_excess" = Some (CFloat e)
          /\ (0 <? e)%float = true).
Proof.
  split.
  - intros df config out r. unfold flag_shifts.
    destruct (contains df ColumnNames.WATER_DEPTH); [|discriminate]. simpl.
    destruct (numeric df ColumnNames.WATER_DEPTH) as [depth|]; [|discriminate]. simpl.
    intros [= <-]. simpl. intros (i & r0 & d & Hm & Hr & Hd & ->)%assign_mask_In.
    exists r0, d. split; [eapply lookup_In, Hr|]. split; [|split].
    + intros label Hne. apply lookup_insert_ne. congruence.
    + apply lookup_insert_eq.
    + rewrite lookup_map, Hd in Hm. simpl in Hm. congruence.
  - intros df config out r. unfold flag_temperature_outliers.
    destruct (_ || _); [intros [= <-] []|]. simpl.
    destruct (numeric df ColumnNames.WATER_TEMPERATURE) as [temperature|]; [|discriminate].
    simpl. intros [= <-]. simpl.
    intros (i & r0 & v & Hm & Hr & Hv & ->)%assign_mask_In.
    exists r0, (v - default nan (temperature_threshold config))%float.
    split; [eapply lookup_In, Hr|]. split; [|split].
    + intros label Hne. apply lookup_insert_ne. congruence.
    + apply lookup_insert_eq.
    + rewrite lookup_map, Hv in Hm. simpl in Hm. apply sub_pos. congruence.
Qed.

(** C7, the code at the failing input.  With [temperature_threshold = 0.0]
    and a water temperature of 5.0 the check is skipped and the empty frame
    is returned, although 5.0 exceeds 0.0; with the threshold 1.0 the same
    row is flagged with an excess of 4.0. *)
Theorem zero_threshold_disables_temperature_check :
  flag_temperature_outliers warm_frame
    {| shift_threshold := 0.15; temperature_threshold := Some 0%float |}
  = Ok (empty_like warm_frame)
  /\ rows (empty_like warm_frame) = []
  /\ (0 <? 5.0)%float = true
  /\ exists out,
       flag_temperature_outliers warm_frame
         {| shift_threshold := 0.15; temperature_threshold := Some 1.0%float |} = Ok out
       /\ rows out = [ {[ ColumnNames.TIMESTAMP := CTime 0;
                          ColumnNames.WATER_TEMPERATURE := CFloat 5.0;
                          "temperature_excess" := CFloat 4.0 ]} ].
Proof.
  repeat split. eexists. split; [reflexivity|]. vm_compute. reflexivity.
Qed.

(** ** Alignment *)

Section LastWhile.
Context {B : Type}.
Variable R : Z -> Z -> Prop.
Variable p : Z -> bool.
Hypothesis p_closed : forall a b, R a b -> p b = true -> p a = true.

(** On a list sorted by [R], with [p] holding on an initial stretch only,
    the walk ends on the [R]-greatest row that satisfies [p]. *)
Lemma last_while_sorted (l : list (Z * B)) :
  StronglySorted (fun a b => R (fst a) (fst b)) l ->
  forall found,
    match last_while p l found with
    | Some x =>
        (Some x = found /\ forall r, In r l -> p (fst r) = false)
        \/ (In x l /\ p (fst x) = true
            /\ forall r, In r l -> p (fst r) = true -> r = x \/ R (fst r) (fst x))
    | None => found = None /\ forall r, In r l -> p (fst r) = false
    end.
Proof.
  induction 1 as [|r l Hs IH Hr]; intros found; simpl.
  - destruct found; [left|]; split; auto; intros ? [].
  - rewrite Forall_forall in Hr. destruct (p (fst r)) eqn:Hp.
    + specialize (IH (Some r)). destruct (last_while p l (Some r)) as [x|].
      * right. destruct IH as [[[= ->] Hall]|(Hin & Hx & Hmax)].
        -- split; [auto|]. split; [exact Hp|].
           intros r' [<-|Hr'] Hp'; [auto|]. rewrite (Hall _ Hr') in Hp'. discriminate.
        -- split; [auto|]. split; [exact Hx|].
           intros r' [<-|Hr'] Hp'; [|auto].
           right. apply Hr, list_elem_of_In, Hin.
      * destruct IH as [[=] _].
    + assert (Hall : forall r', In r' (r :: l) -> p (fst r') = false).
      { intros r' [<-|Hr']; [exact Hp|].
        destruct (p (fst r')) eqn:Hp'; [|reflexivity].
        apply list_elem_of_In, Hr in Hr'. rewrite (p_closed _ _ Hr' Hp') in Hp. discriminate. }
      destruct found; [left|]; split; auto.
Qed.

Lemma last_while_None (l : list (Z * B)) :
  StronglySorted (fun a b => R (fst a) (fst b)) l ->
  match last_while p l None with
  | Some x =>
      In x l /\ p (fst x) = true
      /\ forall r, In r l -> p (fst r) = true -> r = x \/ R (fst r) (fst x)
  | None => forall r, In r l -> p (fst r) = false
  end.
Proof.
  intros Hs. pose proof (last_while_sorted l Hs None) as H.
  destruct (last_while p l None).
  - destruct H as [[[=] _]|H]; exact H.
  - apply H.
Qed.

End LastWhile.

Lemma StronglySorted_rev {A} (R : A -> A -> Prop) (l : list A) :
  StronglySorted R l -> StronglySorted (fun a b => R b a) (rev l).
Proof.
  induction 1 as [|a l Hs IH Ha]; simpl; [constructor|].
  apply StronglySorted_app. split; [|split; [exact IH|repeat constructor]].
  intros x y Hx%list_elem_of_In%in_rev ->%list_elem_of_singleton.
  rewrite Forall_forall in Ha. apply Ha, list_elem_of_In, Hx.
Qed.

Lemma asof_backward_spec {B} (t : Z) (right : list (Z * B)) :
  StronglySorted by_key right ->
  match asof_backward t right with
  | Some x => In x right /\ (fst x <= t)%Z
              /\ forall r, In r right -> (fst r <= t)%Z -> (fst r <= fst x)%Z
  | None => forall r, In r right -> (t < fst r)%Z
  end.
Proof.
  intros Hs. unfold asof_backward.
  pose proof (last_while_None Z.le (fun k => (k <=? t)%Z)
                ltac:(intros a b Hab Hb%Z.leb_le; apply Z.leb_le; lia) right Hs) as H.
  destruct (last_while _ right None) as [x|].
  - destruct H as (Hin & Hx%Z.leb_le & Hmax). repeat split; auto.
    intros r Hr Hle%Z.leb_le. destruct (Hmax r Hr Hle) as [->|]; lia.
  - intros r Hr. specialize (H r Hr). apply Z.leb_gt in H. exact H.
Qed.

Lemma asof_forward_spec {B} (t : Z) (right : list (Z * B)) :
  StronglySorted by_key right ->
  match asof_forward t right with
  | Some x => In x right /\ (t <= fst x)%Z
              /\ forall r, In r right -> (t <= fst r)%Z -> (fst x <= fst r)%Z
  | None => forall r, In r right -> (fst r < t)%Z
  end.
Proof.
  intros Hs%StronglySorted_rev. unfold asof_forward.
  pose proof (last_while_None (fun a b => (b <= a)%Z) (fun k => (t <=? k)%Z)
                ltac:(intros a b Hab Hb%Z.leb_le; apply Z.leb_le; cbv beta in Hab; lia)
                (rev right) Hs) as H.
  destruct (last_while _ (rev right) None) as [x|].
  - destruct H as (Hin%in_rev & Hx%Z.leb_le & Hmax). repeat split; auto.
    intros r Hr%in_rev Hle%Z.leb_le. destruct (Hmax r Hr Hle) as [->|]; lia.
  - intros r Hr%in_rev. specialize (H r Hr). apply Z.leb_gt in H. exact H.
Qed.

(** The nearest match, on sorted right keys. *)
Lemma asof_nearest_spec {B} (tolerance t : Z) (right : list (Z * B)) :
  StronglySorted by_key right ->
  match asof_nearest tolerance t right with
  | Some x =>
      In x right /\ (Z.abs (t - fst x) <= tolerance)%Z
      /\ forall r, In r right ->
           (Z.abs (t - fst x) <= Z.abs (t - fst r))%Z
           /\ (Z.abs (t - fst r) = Z.abs (t - fst x) -> fst x <= fst r)%Z
  | None => forall r, In r right -> (tolerance < Z.abs (t - fst r))%Z
  end.
Proof.
  intros Hs. unfold asof_nearest, within_tolerance.
  pose proof (asof_backward_spec t right Hs) as Hb.
  pose proof (asof_forward_spec t right Hs) as Hf.
  assert (Hall : forall r, In r right ->
            match asof_backward t right with
            | Some b => (fst b <= t)%Z /\ ((fst r <= t)%Z -> (fst r <= fst b)%Z)
            | None => (t < fst r)%Z
            end
            /\ match asof_forward t right with
               | Some f => (t <= fst f)%Z /\ ((t <= fst r)%Z -> (fst f <= fst r)%Z)
               | None => (fst r < t)%Z
               end).
  { intros r Hr. split.
    - destruct (asof_backward t right); [|auto]. destruct Hb as (_ & ? & Hmax). auto.
    - destruct (asof_forward t right); [|auto]. destruct Hf as (_ & ? & Hmin). auto. }
  destruct (asof_backward t right) as [b|], (asof_forward t right) as [f|];
    repeat match goal with
           | |- context [(?a <? ?b)%Z] => destruct (Z.ltb_spec a b)
           | |- context [(?a <=? ?b)%Z] => destruct (Z.leb_spec a b)
           end;
    try (intros r Hr; specialize (Hall r Hr); lia);
    (split; [tauto|]);
    (split; [try (destruct Hb as (_ & ? & _)); try (destruct Hf as (_ & ? & _)); lia|]);
    intros r Hr; specialize (Hall r Hr); lia.
Qed.

Lemma sorted_from_keyed {A} (df : list (option Z * A)) :
  forall prev,
    sorted_from prev (map fst df) = true ->
    map (fun r : Z * A => (Some (fst r), snd r)) (keyed df) = df
    /\ Forall (fun r : Z * A => (prev <= fst r)%Z) (keyed df)
    /\ StronglySorted by_key (keyed df).
Proof.
  induction df as [|[[k|] a] df IH]; intros prev; simpl; try discriminate.
  - intros _. repeat split; constructor.
  - intros [Hk%Z.leb_le Hs]%andb_true_iff.
    destruct (IH k Hs) as (Hmap & Hall & Hsorted).
    change (keyed ((Some k, a) :: df)) with ((k, a) :: keyed df). simpl.
    rewrite Hmap. split; [reflexivity|]. split.
    + constructor; [exact Hk|]. eapply Forall_impl; [exact Hall|]. simpl. intros; lia.
    + constructor; [exact Hsorted|]. exact Hall.
Qed.

Lemma monotonic_keyed {A} (df : list (option Z * A)) :
  is_monotonic_increasing (map fst df) = true ->
  map (fun r : Z * A => (Some (fst r), snd r)) (keyed df) = df
  /\ StronglySorted by_key (keyed df).
Proof.
  destruct df as [|[[k|] a] df]; simpl; try discriminate.
  - intros _. split; constructor.
  - intros Hs. destruct (sorted_from_keyed df k Hs) as (Hmap & Hall & Hsorted).
    change (keyed ((Some k, a) :: df)) with ((k, a) :: keyed df). simpl.
    rewrite Hmap. split; [reflexivity|]. constructor; assumption.
Qed.

Lemma check_keys_Ok (side : string) (keys : list (option Z)) (u : unit) :
  check_keys side keys = Ok u -> is_monotonic_increasing keys = true.
Proof.
  unfold check_keys. destruct (is_monotonic_increasing keys); [reflexivity|].
  destruct (existsb _ keys); discriminate.
Qed.

Lemma merge_asof_Ok_inv {A B} (left : list (option Z * A)) (right : list (option Z * B))
    (tolerance : Z) (out : list (Z * A * option (Z * B))) :
  merge_asof left right tolerance = Ok out ->
  (0 <= tolerance)%Z
  /\ is_monotonic_increasing (map fst left) = true
  /\ is_monotonic_increasing (map fst right) = true
  /\ out = map (fun l : Z * A => (l, asof_nearest tolerance (fst l) (keyed right)))
             (keyed left).
Proof.
  unfold merge_asof. destruct (Z.ltb_spec tolerance 0); [discriminate|].
  destruct (check_keys "left" (map fst left)) as [u|] eqn:El; [|discriminate].
  destruct (check_keys "right" (map fst right)) as [v|] eqn:Er; [|discriminate].
  simpl. intros [= <-].
  split; [assumption|]. split; [eapply check_keys_Ok, El|].
  split; [eapply check_keys_Ok, Er|reflexivity].
Qed.

Lemma In_keyed {B} (right : list (option Z * B)) (k : Z) (b : B) :
  In (k, b) (keyed right) <-> In (Some k, b) right.
Proof.
  unfold keyed. rewrite <- !list_elem_of_In, list_elem_of_omap. split.
  - intros ([[k'|] b'] & Hin & [= -> ->]). exact Hin.
  - intros Hin. exists (Some k, b). split; [exact Hin|reflexivity].
Qed.

(** ** Summaries *)



(** ** [compute_wse] *)

Lemma collect_map_CFloat {X} (g : X -> float) (rs : list X) :
  collect to_float64 (map (fun x => CFloat (g x)) rs) = Ok (map g rs).
Proof. induction rs as [|x rs IH]; simpl; [reflexivity|]. rewrite IH. reflexivity. Qed.

(** Reading a column whose cells are known floats. *)
Lemma numeric_map_rows {X} (cols : list (string * dtype)) (rs : list X)
    (h : X -> gmap string cell) (label : string) (g : X -> float) :
  existsb (String.eqb label) (map fst cols) = true ->
  (forall x, In x rs -> h x !! label = Some (CFloat (g x))) ->
  numeric {| columns := cols; rows := map h rs |} label = Ok (map g rs).
Proof.
  intros Hc Hg. unfold numeric, getitem, contains, labels. simpl. rewrite Hc. simpl.
  rewrite map_map. rewrite <- (collect_map_CFloat g rs). f_equal.
  apply map_ext_in. intros x Hx. rewrite (Hg x Hx). reflexivity.
Qed.

(** Assigning a column computed row by row. *)
Lemma assign_map_rows {X} (label : string) (rs : list X) (h : X -> gmap string cell)
    (g : X -> float) :
  assign label (map h rs) (map (fun x => CFloat (g x)) rs)
  = map (fun x => <[label := CFloat (g x)]> (h x)) rs.
Proof. induction rs as [|x rs IH]; simpl; [reflexivity|]. rewrite IH. reflexivity. Qed.

Lemma set_dtype_contains (cols : list (string * dtype)) (label : string) (dt : dtype)
    (label' : string) :
  existsb (String.eqb label') (map fst (set_dtype cols label dt))
  = existsb (String.eqb label') (map fst cols) || String.eqb label' label.
Proof.
  unfold set_dtype. destruct (existsb (String.eqb label) (map fst cols)) eqn:E.
  - rewrite map_map.
    assert (Hfst : map (fun c : string * dtype =>
                     fst (if String.eqb label (fst c) then (label, dt) else c)) cols
                   = map fst cols).
    { apply map_ext. intros [l d]. simpl.
      destruct (String.eqb_spec label l); [subst|]; reflexivity. }
    rewrite Hfst. destruct (String.eqb_spec label' label) as [->|].
    + rewrite E. reflexivity.
    + rewrite orb_false_r. reflexivity.
  - rewrite map_app, existsb_app. simpl. rewrite orb_false_r. reflexivity.
Qed.

Lemma numeric_rows (cols : list (string * dtype)) (rs : list (gmap string cell))
    (label : string) :
  existsb (String.eqb label) (map fst cols) = true ->
  (forall r, In r rs -> exists x, r !! label = Some (CFloat x)) ->
  numeric {| columns := cols; rows := rs |} label = Ok (map (float_at label) rs).
Proof.
  intros Hc Hg. rewrite <- (map_id rs) at 1.
  apply numeric_map_rows; [exact Hc|].
  intros r [x Hx]%Hg. unfold float_at. rewrite Hx. reflexivity.
Qed.

Lemma zip_with_map_same {X} (f g : X -> float) (rs : list X) :
  zip_with PrimFloat.sub (map f rs) (map g rs) = map (fun x => (f x - g x)%float) rs.
Proof. induction rs as [|x rs IH]; simpl; [reflexivity|]. rewrite IH. reflexivity. Qed.

Lemma setitem_map_rows {X} (cols : list (string * dtype)) (rs : list X)
    (h : X -> gmap string cell) (label : string) (dt : dtype) (g : X -> float) :
  setitem {| columns := cols; rows := map h rs |} label dt (map CFloat (map g rs))
  = {| columns := set_dtype cols label dt;
       rows := map (fun x => <[label := CFloat (g x)]> (h x)) rs |}.
Proof. unfold setitem. simpl. rewrite map_map, assign_map_rows. reflexivity. Qed.

Lemma setitem_rows (cols : list (string * dtype)) (rs : list (gmap string cell))
    (label : string) (dt : dtype) (g : gmap string cell -> float) :
  setitem {| columns := cols; rows := rs |} label dt (map CFloat (map g rs))
  = {| columns := set_dtype cols label dt;
       rows := map (fun r => <[label := CFloat (g r)]> r) rs |}.
Proof.
  rewrite <- (map_id rs) at 1. rewrite (setitem_map_rows cols rs (fun r => r)).
  reflexivity.
Qed.

Section ComputeWse.
Context {raw W B : Type}.
Variable to_datetime : raw -> option Z.
Variable tz_localize : string -> result (Z -> option Z).
Variable to_timedelta : string -> result Z.
Variable sort_values : forall A : Type, (A -> option Z) -> list A -> list A.

Variable config : ProcessingConfig.
Variable water_pressure_col : W -> float.
Variable baro_pressure_col : B -> float.
Variable water_temp_col : option (W -> float).
Variable baro_temp_col : option (B -> float).
Variable timestamp_col_water : W -> raw.
Variable timestamp_col_baro : B -> raw.

Let row_of := merged_row water_pressure_col baro_pressure_col water_temp_col baro_temp_col.

Lemma merged_row_timestamp (m : Z * W * option (Z * B)) :
  row_of m !! ColumnNames.TIMESTAMP = Some (CTime (fst (fst m))).
Proof. unfold row_of, merged_row. destruct water_temp_col, baro_temp_col; reflexivity. Qed.

Lemma merged_row_water_pressure (m : Z * W * option (Z * B)) :
  row_of m !! ColumnNames.WATER_PRESSURE = Some (CFloat (water_pressure_col (snd (fst m)))).
Proof. unfold row_of, merged_row. destruct water_temp_col, baro_temp_col; reflexivity. Qed.

Lemma merged_row_baro_pressure (m : Z * W * option (Z * B)) :
  row_of m !! ColumnNames.BARO_PRESSURE
  = Some (CFloat (from_option baro_pressure_col nan (snd <$> snd m))).
Proof. unfold row_of, merged_row. destruct water_temp_col, baro_temp_col; reflexivity. Qed.

Lemma merged_columns_required (label : string) :
  In label [ColumnNames.TIMESTAMP; ColumnNames.WATER_PRESSURE; ColumnNames.BARO_PRESSURE] ->
  existsb (String.eqb label) (map fst (merged_columns water_temp_col baro_temp_col)) = true.
Proof.
  unfold merged_columns.
  intros [<-|[<-|[<-|[]]]]; destruct water_temp_col, baro_temp_col; reflexivity.
Qed.

Let retained_rows :=
  retained water_pressure_col baro_pressure_col water_temp_col baro_temp_col.

Lemma compute_wse_Ok_inv (water : list W) (barometric : list B) (merged : DataFrame) :
  compute_wse to_datetime tz_localize to_timedelta sort_values water barometric config
    water_pressure_col baro_pressure_col water_temp_col baro_temp_col
    timestamp_col_water timestamp_col_baro = Ok merged ->
  exists localize tolerance aligned factor,
    localizer tz_localize config = Ok localize
    /\ to_timedelta (merge_tolerance config) = Ok tolerance
    /\ merge_asof
         (sort_values _ fst
            (map (fun r => (localize (to_datetime (timestamp_col_water r)), r)) water))
         (sort_values _ fst
            (map (fun r => (localize (to_datetime (timestamp_col_baro r)), r)) barometric))
         tolerance = Ok aligned
    /\ conversion_factor (pressure_units config) = Some factor
    /\ rows merged = map (with_wse config factor) (retained_rows aligned).
Proof.
  unfold compute_wse, prepare.
  destruct (localizer tz_localize config) as [localize|]; [|discriminate].
  cbn [mbind result_bind].
  destruct (to_timedelta (merge_tolerance config)) as [tolerance|]; [|discriminate].
  cbn [mbind result_bind].
  destruct (merge_asof _ _ tolerance) as [aligned|] eqn:Ea; [|discriminate].
  cbn [mbind result_bind].
  fold row_of.
  set (cols := merged_columns water_temp_col baro_temp_col).
  assert (Hdrop : dropna {| columns := cols; rows := map row_of aligned |}
                    [ColumnNames.TIMESTAMP; ColumnNames.WATER_PRESSURE;
                     ColumnNames.BARO_PRESSURE]
                  = Ok {| columns := cols; rows := retained_rows aligned |}).
  { unfold dropna, contains, labels, cols. simpl columns.
    assert (Hfind : find (fun label => negb (existsb (String.eqb label)
                      (map fst (merged_columns water_temp_col baro_temp_col))))
                      [ColumnNames.TIMESTAMP; ColumnNames.WATER_PRESSURE;
                       ColumnNames.BARO_PRESSURE] = None)
      by (unfold merged_columns; destruct water_temp_col, baro_temp_col; reflexivity).
    rewrite Hfind. reflexivity. }
  rewrite Hdrop. cbn [mbind result_bind].
  set (rs := retained_rows aligned).
  assert (Hrs : forall r, In r rs -> exists m, r = row_of m).
  { intros r Hr%list_elem_of_In. apply list_elem_of_filter in Hr as [_ Hr].
    apply list_elem_of_In, in_map_iff in Hr as (m & <- & _). eauto. }
  rewrite (numeric_rows cols rs ColumnNames.WATER_PRESSURE);
    [|apply merged_columns_required; simpl; auto
     |intros r [m ->]%Hrs; rewrite merged_row_water_pressure; eauto].
  cbn [mbind result_bind].
  rewrite (numeric_rows cols rs ColumnNames.BARO_PRESSURE);
    [|apply merged_columns_required; simpl; auto
     |intros r [m ->]%Hrs; rewrite merged_row_baro_pressure; eauto].
  cbn [mbind result_bind].
  rewrite zip_with_map_same. fold gauge_of.
  change (fun x : gmap string cell => gauge_of x) with gauge_of.
  rewrite (setitem_rows cols rs ColumnNames.GAUGE_PRESSURE float64 gauge_of).
  rewrite (numeric_map_rows _ rs _ ColumnNames.GAUGE_PRESSURE gauge_of);
    [|rewrite set_dtype_contains, String.eqb_refl; apply orb_true_r
     |intros; apply lookup_insert_eq].
  cbn [mbind result_bind].
  destruct (gauge_to_depth _ _ _) as [depth|] eqn:Ed; [|discriminate].
  apply gauge_to_depth_Ok_inv in Ed as (factor & Hfactor & ->).
  cbn [mbind result_bind]. rewrite (map_map gauge_of).
  change (map (fun x => _ (gauge_of x)) rs) with (map (depth_of config factor) rs).
  rewrite (setitem_map_rows _ rs _ ColumnNames.WATER_DEPTH float64 (depth_of config factor)).
  rewrite (numeric_map_rows _ rs _ ColumnNames.WATER_DEPTH (depth_of config factor));
    [|rewrite set_dtype_contains, String.eqb_refl; apply orb_true_r
     |intros; apply lookup_insert_eq].
  cbn [mbind result_bind].
  replace (map (fun d => CFloat (reference_datum config + d)%float)
             (map (depth_of config factor) rs))
    with (map CFloat (map (wse_of config factor) rs))
    by (rewrite !map_map; reflexivity).
  rewrite (setitem_map_rows _ rs _ ColumnNames.WSE float64 (wse_of config factor)).
  intros [= <-]. exists localize, tolerance, aligned, factor.
  repeat (split; [reflexivity || assumption|]). reflexivity.
Qed.

Lemma rows_of_compute_wse (water : list W) (barometric : list B) (merged : DataFrame) :
  compute_wse to_datetime tz_localize to_timedelta sort_values water barometric config
    water_pressure_col baro_pressure_col water_temp_col baro_temp_col
    timestamp_col_water timestamp_col_baro = Ok merged ->
  exists factor,
    conversion_factor (pressure_units config) = Some factor
    /\ forall r, In r (rows merged) ->
         exists m, r = with_wse config factor (row_of m)
           /\ notna_at [ColumnNames.TIMESTAMP; ColumnNames.WATER_PRESSURE;
                        ColumnNames.BARO_PRESSURE] (row_of m) = true.
Proof.
  intros (localize & tolerance & aligned & factor & _ & _ & _ & Hf & ->)%compute_wse_Ok_inv.
  exists factor. split; [exact Hf|].
  intros r (r0 & <- & Hr0)%in_map_iff.
  apply list_elem_of_In, list_elem_of_filter in Hr0 as [Hna Hr0].
  apply list_elem_of_In, in_map_iff in Hr0 as (m & <- & _). eauto.
Qed.

Lemma with_wse_lookup (factor : float) (r : gmap string cell) (label : string) :
  label <> ColumnNames.GAUGE_PRESSURE -> label <> ColumnNames.WATER_DEPTH ->
  label <> ColumnNames.WSE ->
  with_wse config factor r !! label = r !! label.
Proof.
  intros H1 H2 H3. unfold with_wse.
  rewrite !lookup_insert_ne by congruence. reflexivity.
Qed.

(** C1, as amended.  Every row [compute_wse] returns holds the two
    pressures it was computed from and satisfies: [gauge_pressure] is the
    water pressure minus the barometric pressure, subtracted in the input
    unit; [water_depth_m] is [to_pascal] of the gauge pressure divided by
    [fluid_density * 9.80665]; [water_surface_elevation] is the reference
    datum plus that depth.  A negative gauge pressure is no error; when the
    fluid density is positive the depth it yields is never positive (it is
    negative, or a zero or NaN at the limits of the binary64 range). *)
Theorem compute_wse_derived_columns (water : list W) (barometric : list B)
    (merged : DataFrame) :
  compute_wse to_datetime tz_localize to_timedelta sort_values water barometric config
    water_pressure_col baro_pressure_col water_temp_col baro_temp_col
    timestamp_col_water timestamp_col_baro = Ok merged ->
  forall r, In r (rows merged) ->
    exists wp bp pascal depth : float,
      r !! ColumnNames.WATER_PRESSURE = Some (CFloat wp)
      /\ r !! ColumnNames.BARO_PRESSURE = Some (CFloat bp)
      /\ r !! ColumnNames.GAUGE_PRESSURE = Some (CFloat (wp - bp))
      /\ _to_pascal [(wp - bp)%float] (pressure_units config) = Ok [pascal]
      /\ depth = (pascal / (fluid_density config * GRAVITY))%float
      /\ r !! ColumnNames.WATER_DEPTH = Some (CFloat depth)
      /\ r !! ColumnNames.WSE = Some (CFloat (reference_datum config + depth))
      /\ ((wp - bp <? 0)%float = true -> (0 <? fluid_density config)%float = true ->
          (0 <? depth)%float = false).
Proof.
  intros (factor & Hf & Hrows)%rows_of_compute_wse r (m & -> & _)%Hrows.
  exists (water_pressure_col (snd (fst m))),
         (from_option baro_pressure_col nan (snd <$> snd m)).
  eexists. eexists.
  assert (Hg : gauge_of (row_of m)
               = (water_pressure_col (snd (fst m))
                  - from_option baro_pressure_col nan (snd <$> snd m))%float).
  { unfold gauge_of, float_at.
    rewrite merged_row_water_pressure, merged_row_baro_pressure. reflexivity. }
  split; [rewrite with_wse_lookup by discriminate; apply merged_row_water_pressure|].
  split; [rewrite with_wse_lookup by discriminate; apply merged_row_baro_pressure|].
  split; [unfold with_wse; rewrite !lookup_insert_ne by discriminate;
          rewrite lookup_insert_eq, Hg; reflexivity|].
  split; [rewrite (to_pascal_factor _ _ _ Hf); reflexivity|].
  split; [reflexivity|].
  split; [unfold with_wse; rewrite lookup_insert_ne by discriminate;
          rewrite lookup_insert_eq; unfold depth_of; rewrite Hg; reflexivity|].
  split; [unfold with_wse; rewrite lookup_insert_eq; unfold wse_of, depth_of;
          rewrite Hg; reflexivity|].
  intros Hneg Hrho. apply quotient_not_positive; auto.
  apply (conversion_factor_positive _ _ Hf).
Qed.

(** [sort_values] reorders the rows it is given and adds or loses none. *)
Hypothesis sort_values_perm :
  forall (A : Type) (key : A -> option Z) (l : list A), Permutation (sort_values A key l) l.

Lemma retained_match (m : Z * W * option (Z * B)) :
  notna_at [ColumnNames.TIMESTAMP; ColumnNames.WATER_PRESSURE; ColumnNames.BARO_PRESSURE]
    (row_of m) = true ->
  is_nan (water_pressure_col (snd (fst m))) = false
  /\ exists k b, snd m = Some (k, b) /\ is_nan (baro_pressure_col b) = false.
Proof.
  unfold notna_at. cbn [forallb].
  rewrite merged_row_timestamp, merged_row_water_pressure, merged_row_baro_pressure.
  intros [_ [Hw [Hb _]%andb_true_iff]%andb_true_iff]%andb_true_iff.
  apply negb_true_iff in Hw, Hb. simpl in Hw, Hb. split; [exact Hw|].
  destruct (snd m) as [[k b]|]; [eauto|]. vm_compute in Hb. discriminate Hb.
Qed.

Lemma retained_iff (m : Z * W * option (Z * B)) :
  notna_at [ColumnNames.TIMESTAMP; ColumnNames.WATER_PRESSURE; ColumnNames.BARO_PRESSURE]
    (row_of m) = true
  <-> is_nan (water_pressure_col (snd (fst m))) = false
      /\ exists k b, snd m = Some (k, b) /\ is_nan (baro_pressure_col b) = false.
Proof.
  split; [apply retained_match|].
  intros (Hw & k & b & Hm & Hb). unfold notna_at. cbn [forallb].
  rewrite merged_row_timestamp, merged_row_water_pressure, merged_row_baro_pressure, Hm.
  simpl. rewrite Hw, Hb. reflexivity.
Qed.

(** The rows of a frame that have a timestamp, as the merge receives
    them. *)
Lemma keyed_sorted_In {A} (localize : option Z -> option Z) (timestamp_col : A -> raw)
    (df : list A) (k : Z) (a : A) :
  In (k, a)
    (keyed (sort_values _ fst
              (map (fun r => (localize (to_datetime (timestamp_col r)), r)) df)))
  <-> In a df /\ localize (to_datetime (timestamp_col a)) = Some k.
Proof.
  rewrite In_keyed. split.
  - intros H. apply (Permutation_in _ (sort_values_perm _ _ _)) in H.
    apply in_map_iff in H as (a' & [= Hk ->] & Hin). auto.
  - intros [Hin Hk]. apply (Permutation_in _ (Permutation_sym (sort_values_perm _ _ _))).
    apply in_map_iff. exists a. rewrite Hk. auto.
Qed.

(** The rows [compute_wse] returns, one by one: a row for each water
    sample with a timestamp whose pressure, and the pressure of the
    barometric sample the merge matched it with, are present. *)
Lemma compute_wse_rows (water : list W) (barometric : list B) (merged : DataFrame)
    (localize : option Z -> option Z) (tolerance : Z) :
  compute_wse to_datetime tz_localize to_timedelta sort_values water barometric config
    water_pressure_col baro_pressure_col water_temp_col baro_temp_col
    timestamp_col_water timestamp_col_baro = Ok merged ->
  localizer tz_localize config = Ok localize ->
  to_timedelta (merge_tolerance config) = Ok tolerance ->
  exists (factor : float) (right : list (Z * B)),
    StronglySorted by_key right
    /\ (forall k b, In (k, b) right
          <-> In b barometric /\ localize (to_datetime (timestamp_col_baro b)) = Some k)
    /\ forall r, In r (rows merged)
         <-> exists t w,
               In w water
               /\ localize (to_datetime (timestamp_col_water w)) = Some t
               /\ notna_at [ColumnNames.TIMESTAMP; ColumnNames.WATER_PRESSURE;
                            ColumnNames.BARO_PRESSURE]
                    (row_of (t, w, asof_nearest tolerance t right)) = true
               /\ r = with_wse config factor (row_of (t, w, asof_nearest tolerance t right)).
Proof.
  intros (localize' & tolerance' & aligned & factor & Hl & Ht & Ha & _ & Hrows)%compute_wse_Ok_inv
    Hl' Ht'.
  rewrite Hl in Hl'. injection Hl' as ->. rewrite Ht in Ht'. injection Ht' as ->.
  apply merge_asof_Ok_inv in Ha as (_ & _ & Hr & ->).
  destruct (monotonic_keyed _ Hr) as [_ Hsorted].
  eexists factor, _. split; [exact Hsorted|]. split; [intros k b; apply keyed_sorted_In|].
  intros r. rewrite Hrows. unfold retained_rows, retained. fold row_of. split.
  - intros (r0 & <- & Hr0)%in_map_iff.
    apply list_elem_of_In, list_elem_of_filter in Hr0 as [Hna Hr0].
    apply list_elem_of_In, in_map_iff in Hr0 as (m & <- & Hm).
    apply in_map_iff in Hm as ([t w] & <- & [Hw Htw]%keyed_sorted_In).
    exists t, w. auto.
  - intros (t & w & Hw & Htw & Hna & ->). apply in_map.
    apply list_elem_of_In, list_elem_of_filter. split; [exact Hna|].
    apply list_elem_of_In, in_map_iff.
    exists (t, w, asof_nearest tolerance t
                    (keyed (sort_values _ fst
                       (map (fun r => (localize (to_datetime (timestamp_col_baro r)), r))
                          barometric)))).
    split; [reflexivity|]. apply in_map_iff. exists (t, w). split; [reflexivity|].
    apply keyed_sorted_In. auto.
Qed.

(** A water sample that has a barometric sample within the tolerance, its
    own pressure and the pressure of every such barometric sample being
    present, gives a row of the result. *)
Lemma compute_wse_row_of_sample (water : list W) (barometric : list B) (merged : DataFrame)
    (localize : option Z -> option Z) (tolerance : Z) (w : W) (t : Z) :
  compute_wse to_datetime tz_localize to_timedelta sort_values water barometric config
    water_pressure_col baro_pressure_col water_temp_col baro_temp_col
    timestamp_col_water timestamp_col_baro = Ok merged ->
  localizer tz_localize config = Ok localize ->
  to_timedelta (merge_tolerance config) = Ok tolerance ->
  In w water ->
  localize (to_datetime (timestamp_col_water w)) = Some t ->
  is_nan (water_pressure_col w) = false ->
  (exists b k, In b barometric
               /\ localize (to_datetime (timestamp_col_baro b)) = Some k
               /\ (Z.abs (t - k) <= tolerance)%Z) ->
  (forall b k, In b barometric ->
     localize (to_datetime (timestamp_col_baro b)) = Some k ->
     (Z.abs (t - k) <= tolerance)%Z -> is_nan (baro_pressure_col b) = false) ->
  exists r,
    In r (rows merged)
    /\ r !! ColumnNames.TIMESTAMP = Some (CTime t)
    /\ r !! ColumnNames.WATER_PRESSURE = Some (CFloat (water_pressure_col w)).
Proof.
  intros H Hl Ht Hw Htw Hwp (b0 & k0 & Hb0 & Hk0 & Hd0) Hbp.
  destruct (compute_wse_rows _ _ _ _ _ H Hl Ht) as (factor & right & Hsorted & Hright & Hrows).
  pose proof (asof_nearest_spec tolerance t right Hsorted) as Hspec.
  destruct (asof_nearest tolerance t right) as [[k b]|] eqn:En.
  - destruct Hspec as ([Hb Hk]%Hright & Hd & _). cbn [fst] in Hd.
    exists (with_wse config factor (row_of (t, w, Some (k, b)))). split.
    + apply Hrows. exists t, w. rewrite En. split; [exact Hw|]. split; [exact Htw|].
      split; [|reflexivity]. apply retained_iff. split; [exact Hwp|].
      exists k, b. split; [reflexivity|]. apply (Hbp b k Hb Hk Hd).
    + rewrite !with_wse_lookup by discriminate.
      rewrite merged_row_timestamp, merged_row_water_pressure.
      split; reflexivity.
  - specialize (Hspec (k0, b0) (proj2 (Hright k0 b0) (conj Hb0 Hk0))). cbn [fst] in Hspec. lia.
Qed.

(** C5.  The barometric sample [compute_wse] pairs with a water sample is
    the one nearest in time, within the configured merge tolerance.  Every
    row returned carries the pressure of a barometric sample that is no
    farther from the row's timestamp than the tolerance and than any other
    barometric sample, and that is the earlier one where another is exactly
    as far.  A water sample whose nearest barometric sample is farther than
    the tolerance is left without barometric fields and gives no row of the
    result.  A water sample with a barometric sample within the tolerance
    is paired and gives a row, when the pressures involved are present. *)
Theorem compute_wse_matches_nearest (water : list W) (barometric : list B)
    (merged : DataFrame) (localize : option Z -> option Z) (tolerance : Z) :
  compute_wse to_datetime tz_localize to_timedelta sort_values water barometric config
    water_pressure_col baro_pressure_col water_temp_col baro_temp_col
    timestamp_col_water timestamp_col_baro = Ok merged ->
  localizer tz_localize config = Ok localize ->
  to_timedelta (merge_tolerance config) = Ok tolerance ->
  (forall r, In r (rows merged) ->
     exists w b t k,
       In w water /\ In b barometric
       /\ localize (to_datetime (timestamp_col_water w)) = Some t
       /\ localize (to_datetime (timestamp_col_baro b)) = Some k
       /\ r !! ColumnNames.TIMESTAMP = Some (CTime t)
       /\ r !! ColumnNames.WATER_PRESSURE = Some (CFloat (water_pressure_col w))
       /\ r !! ColumnNames.BARO_PRESSURE = Some (CFloat (baro_pressure_col b))
       /\ (Z.abs (t - k) <= tolerance)%Z
       /\ forall b' k',
            In b' barometric ->
            localize (to_datetime (timestamp_col_baro b')) = Some k' ->
            (Z.abs (t - k) <= Z.abs (t - k'))%Z
            /\ (Z.abs (t - k') = Z.abs (t - k) -> k <= k')%Z)
  /\ (forall t : Z,
        (forall b k, In b barometric ->
           localize (to_datetime (timestamp_col_baro b)) = Some k ->
           (tolerance < Z.abs (t - k))%Z) ->
        forall r, In r (rows merged) -> r !! ColumnNames.TIMESTAMP <> Some (CTime t))
  /\ (forall w t,
        In w water ->
        localize (to_datetime (timestamp_col_water w)) = Some t ->
        is_nan (water_pressure_col w) = false ->
        (exists b k, In b barometric
                     /\ localize (to_datetime (timestamp_col_baro b)) = Some k
                     /\ (Z.abs (t - k) <= tolerance)%Z) ->
        (forall b k, In b barometric ->
           localize (to_datetime (timestamp_col_baro b)) = Some k ->
           (Z.abs (t - k) <= tolerance)%Z -> is_nan (baro_pressure_col b) = false) ->
        exists r,
          In r (rows merged)
          /\ r !! ColumnNames.TIMESTAMP = Some (CTime t)
          /\ r !! ColumnNames.WATER_PRESSURE = Some (CFloat (water_pressure_col w))).
Proof.
  intros H Hl Ht.
  destruct (compute_wse_rows _ _ _ _ _ H Hl Ht) as (factor & right & Hsorted & Hright & Hrows).
  assert (Hrow : forall r, In r (rows merged) ->
            exists t w k b,
              In w water /\ localize (to_datetime (timestamp_col_water w)) = Some t
              /\ asof_nearest tolerance t right = Some (k, b)
              /\ r = with_wse config factor (row_of (t, w, Some (k, b)))).
  { intros r (t & w & Hw & Htw & Hna & ->)%Hrows.
    apply retained_match in Hna as (_ & k & b & Hm & _). cbn [snd] in Hm.
    exists t, w, k, b. rewrite Hm. auto. }
  split; [|split].
  - intros r (t & w & k & b & Hw & Htw & En & ->)%Hrow.
    pose proof (asof_nearest_spec tolerance t right Hsorted) as Hspec. rewrite En in Hspec.
    destruct Hspec as ([Hb Hk]%Hright & Hd & Hmin). cbn [fst] in Hd, Hmin.
    exists w, b, t, k. rewrite !with_wse_lookup by discriminate.
    rewrite merged_row_timestamp, merged_row_water_pressure, merged_row_baro_pressure.
    repeat (split; [reflexivity || assumption|]).
    intros b' k' Hb' Hk'. apply (Hmin (k', b')), Hright. auto.
  - intros t Hfar r (t' & w & k & b & _ & _ & En & ->)%Hrow.
    rewrite with_wse_lookup by discriminate. rewrite merged_row_timestamp. cbn [fst].
    intros [= ->].
    pose proof (asof_nearest_spec tolerance t right Hsorted) as Hspec. rewrite En in Hspec.
    destruct Hspec as ([Hb Hk]%Hright & Hd & _). cbn [fst] in Hd.
    specialize (Hfar b k Hb Hk). lia.
  - intros w t Hw Htw Hwp Hnear Hbp.
    apply (compute_wse_row_of_sample _ _ _ _ _ w t H Hl Ht Hw Htw Hwp Hnear Hbp).
Qed.

(** X20.  Which rows [compute_wse] keeps is decided by the
    timestamp and the two pressures alone.  Every row returned has a
    timestamp, a water pressure and a barometric pressure, none of them
    null, and a water-surface elevation.  A water sample with its pressure
    present and a barometric sample within the tolerance (the pressure of
    each such sample being present) gives a row, with a temperature or
    without: no condition is put on the temperature columns, selected or
    not. *)
Theorem compute_wse_keeps_rows_without_temperature (water : list W) (barometric : list B)
    (merged : DataFrame) (localize : option Z -> option Z) (tolerance : Z) :
  compute_wse to_datetime tz_localize to_timedelta sort_values water barometric config
    water_pressure_col baro_pressure_col water_temp_col baro_temp_col
    timestamp_col_water timestamp_col_baro = Ok merged ->
  localizer tz_localize config = Ok localize ->
  to_timedelta (merge_tolerance config) = Ok tolerance ->
  (forall r, In r (rows merged) ->
     exists (t : Z) (wp bp wse : float),
       r !! ColumnNames.TIMESTAMP = Some (CTime t)
       /\ r !! ColumnNames.WATER_PRESSURE = Some (CFloat wp) /\ is_nan wp = false
       /\ r !! ColumnNames.BARO_PRESSURE = Some (CFloat bp) /\ is_nan bp = false
       /\ r !! ColumnNames.WSE = Some (CFloat wse))
  /\ (forall w t,
        In w water ->
        localize (to_datetime (timestamp_col_water w)) = Some t ->
        is_nan (water_pressure_col w) = false ->
        (exists b k, In b barometric
                     /\ localize (to_datetime (timestamp_col_baro b)) = Some k
                     /\ (Z.abs (t - k) <= tolerance)%Z) ->
        (forall b k, In b barometric ->
           localize (to_datetime (timestamp_col_baro b)) = Some k ->
           (Z.abs (t - k) <= tolerance)%Z -> is_nan (baro_pressure_col b) = false) ->
        exists r wse,
          In r (rows merged)
          /\ r !! ColumnNames.TIMESTAMP = Some (CTime t)
          /\ r !! ColumnNames.WATER_PRESSURE = Some (CFloat (water_pressure_col w))
          /\ r !! ColumnNames.WSE = Some (CFloat wse)).
Proof.
  intros H Hl Ht.
  assert (Hsound : forall r, In r (rows merged) ->
            exists (t : Z) (wp bp wse : float),
              r !! ColumnNames.TIMESTAMP = Some (CTime t)
              /\ r !! ColumnNames.WATER_PRESSURE = Some (CFloat wp) /\ is_nan wp = false
              /\ r !! ColumnNames.BARO_PRESSURE = Some (CFloat bp) /\ is_nan bp = false
              /\ r !! ColumnNames.WSE = Some (CFloat wse)).
  { pose proof H as (factor & _ & Hrows)%rows_of_compute_wse.
    intros r (m & -> & (Hw & k & b & Hm & Hb)%retained_match)%Hrows.
    exists (fst (fst m)), (water_pressure_col (snd (fst m))), (baro_pressure_col b).
    eexists.
    rewrite !with_wse_lookup by discriminate.
    rewrite merged_row_timestamp, merged_row_water_pressure, merged_row_baro_pressure, Hm.
    repeat (split; [reflexivity || assumption|]).
    unfold with_wse. apply lookup_insert_eq. }
  split; [exact Hsound|].
  intros w t Hw Htw Hwp Hnear Hbp.
  destruct (compute_wse_row_of_sample _ _ _ _ _ w t H Hl Ht Hw Htw Hwp Hnear Hbp)
    as (r & Hr & Hts & Hp).
  destruct (Hsound r Hr) as (_ & _ & _ & wse & _ & _ & _ & _ & _ & Hwse).
  exists r, wse. auto.
Qed.

End ComputeWse.

(** ** The worked run *)

Lemma insert_by_perm {A} (key : A -> option Z) (a : A) (l : list A) :
  Permutation (insert_by key a l) (a :: l).
Proof.
  induction l as [|b l IH]; simpl; [reflexivity|].
  destruct (key_le (key a) (key b)); [reflexivity|].
  rewrite IH. apply perm_swap.
Qed.

Lemma insertion_sort_perm (A : Type) (key : A -> option Z) (l : list A) :
  Permutation (insertion_sort A key l) l.
Proof.
  unfold insertion_sort. induction l as [|a l IH]; simpl; [reflexivity|].
  rewrite insert_by_perm, IH. reflexivity.
Qed.

Lemma compute_wse_derived_columns_witness :
  exists merged r,
    run_example (example_config 1000.0) example_water example_baro None = Ok merged
    /\ rows merged !! 1%nat = Some r
    /\ exists wp bp pascal depth : float,
         r !! ColumnNames.WATER_PRESSURE = Some (CFloat wp)
         /\ r !! ColumnNames.BARO_PRESSURE = Some (CFloat bp)
         /\ r !! ColumnNames.GAUGE_PRESSURE = Some (CFloat (wp - bp))
         /\ _to_pascal [(wp - bp)%float] "kPa" = Ok [pascal]
         /\ depth = (pascal / (1000.0 * GRAVITY))%float
         /\ r !! ColumnNames.WATER_DEPTH = Some (CFloat depth)
         /\ r !! ColumnNames.WSE = Some (CFloat (100.0 + depth))
         /\ ((wp - bp <? 0)%float = true -> (0 <? 1000.0)%float = true ->
             (0 <? depth)%float = false).
Proof.
  eexists. eexists. split; [vm_compute; reflexivity|]. split; [reflexivity|].
  apply (compute_wse_derived_columns (raw := Z) Some no_timezones example_timedelta
           insertion_sort (example_config 1000.0) sample_pressure sample_pressure None None
           sample_time sample_time example_water example_baro _ eq_refl).
  right. left. reflexivity.
Defined.

(** C1, counterexample.  With a negative fluid density, which the
    configuration accepts, the above-water sample (gauge pressure about
    -0.1 kPa) gets a positive depth; and with density 1000 a gauge pressure
    of -2^-1074 kPa gives the depth -0.0, which is not below zero. *)
Lemma negative_gauge_without_negative_depth :
  (exists merged r g d,
      run_example (example_config (-1000.0)) example_water example_baro None = Ok merged
      /\ In r (rows merged)
      /\ r !! ColumnNames.GAUGE_PRESSURE = Some (CFloat g) /\ (g <? 0)%float = true
      /\ r !! ColumnNames.WATER_DEPTH = Some (CFloat d) /\ (0 <? d)%float = true)
  /\ (exists merged r g d,
        run_example (example_config 1000.0) [(0%Z, 0%float, 12.5%float)]
          [(0%Z, 0x1p-1074%float, 9.0%float)] None = Ok merged
        /\ In r (rows merged)
        /\ r !! ColumnNames.GAUGE_PRESSURE = Some (CFloat g) /\ (g <? 0)%float = true
        /\ r !! ColumnNames.WATER_DEPTH = Some (CFloat d) /\ (d <? 0)%float = false).
Proof.
  split.
  - eexists. eexists. eexists. eexists. split; [vm_compute; reflexivity|].
    split; [right; left; reflexivity|]. repeat split.
  - eexists. eexists. eexists. eexists. split; [vm_compute; reflexivity|].
    split; [left; reflexivity|]. repeat split.
Qed.

(** At ten minutes the barometric samples at zero and at twenty minutes
    are equally far, and within the tolerance of fifteen minutes: the row
    carries the pressure of the earlier one. *)
Lemma compute_wse_matches_nearest_witness :
  exists merged,
    run_example (example_config 1000.0) tie_water tie_baro None = Ok merged
    /\ (exists r, rows merged = [r]
                  /\ r !! ColumnNames.BARO_PRESSURE = Some (CFloat 101.0))
    /\ forall r, In r (rows merged) ->
         exists w b t k,
           In w tie_water /\ In b tie_baro
           /\ Some (sample_time w) = Some t
           /\ Some (sample_time b) = Some k
           /\ r !! ColumnNames.TIMESTAMP = Some (CTime t)
           /\ r !! ColumnNames.WATER_PRESSURE = Some (CFloat (sample_pressure w))
           /\ r !! ColumnNames.BARO_PRESSURE = Some (CFloat (sample_pressure b))
           /\ (Z.abs (t - k) <= 900000000000)%Z
           /\ forall b' k',
                In b' tie_baro ->
                Some (sample_time b') = Some k' ->
                (Z.abs (t - k) <= Z.abs (t - k'))%Z
                /\ (Z.abs (t - k') = Z.abs (t - k) -> k <= k')%Z.
Proof.
  eexists. split; [vm_compute; reflexivity|].
  split; [eexists; split; [reflexivity|vm_compute; reflexivity]|].
  exact (proj1 (compute_wse_matches_nearest (raw := Z) Some no_timezones example_timedelta
                  insertion_sort (example_config 1000.0) sample_pressure sample_pressure
                  None None sample_time sample_time insertion_sort_perm
                  tie_water tie_baro _ (fun t => t) 900000000000%Z eq_refl eq_refl eq_refl)).
Defined.

(** The water temperature column is selected and the sample's temperature
    is missing (NaN): the row is returned all the same. *)
Lemma compute_wse_keeps_rows_without_temperature_witness :
  exists merged r wse,
    run_example (example_config 1000.0) [(0%Z, 101.3%float, nan)] example_baro
      (Some sample_temperature) = Ok merged
    /\ In r (rows merged)
    /\ r !! ColumnNames.TIMESTAMP = Some (CTime 0)
    /\ r !! ColumnNames.WATER_PRESSURE = Some (CFloat 101.3)
    /\ r !! ColumnNames.WSE = Some (CFloat wse).
Proof.
  eexists.
  destruct (proj2 (compute_wse_keeps_rows_without_temperature (raw := Z) Some no_timezones
                     example_timedelta insertion_sort (example_config 1000.0)
                     sample_pressure sample_pressure (Some sample_temperature) None
                     sample_time sample_time insertion_sort_perm
                     [(0%Z, 101.3%float, nan)] example_baro _ (fun t => t)
                     900000000000%Z eq_refl eq_refl eq_refl)
              (0%Z, 101.3%float, nan) 0%Z)
    as (r & wse & Hr & Hts & Hwp & Hwse).
  - left. reflexivity.
  - reflexivity.
  - reflexivity.
  - exists (0%Z, 101.0%float, 9.0%float), 0%Z.
    split; [left; reflexivity|]. split; [reflexivity|]. simpl. lia.
  - intros b k [<-|[<-|[]]] _ _; reflexivity.
  - exists r, wse. split; [reflexivity|]. split; [exact Hr|]. split; [exact Hts|].
    split; [exact Hwp|exact Hwse].
Defined.

(** The row of that run holds the missing temperature and a water-surface
    elevation that is a number. *)
Lemma row_without_temperature_is_kept :
  exists merged r wse,
    run_example (example_config 1000.0) [(0%Z, 101.3%float, nan)] example_baro
      (Some sample_temperature) = Ok merged
    /\ In r (rows merged)
    /\ r !! ColumnNames.WATER_TEMPERATURE = Some (CFloat nan)
    /\ r !! ColumnNames.WSE = Some (CFloat wse)
    /\ is_nan wse = false.
Proof.
  eexists. eexists. eexists. split; [vm_compute; reflexivity|].
  split; [left; reflexivity|]. repeat split.
Qed.

(** ** The theorems at work on the example data *)

Lemma ProcessingConfig_accepts_any_density_witness :
  exists depth,
    gauge_to_depth [0.3%float] 0%float "kPa" = Ok depth
    /\ length depth = 1%nat
    /\ Forall (fun d => is_finite d = false) depth.
Proof.
  apply (proj2 ProcessingConfig_accepts_any_density [0.3%float] 0%float "kPa"
           KPA_TO_PASCAL eq_refl eq_refl).
Defined.

Lemma flag_shifts_flags_exactly_the_shifts_witness :
  exists out depth,
    flag_shifts example_depths {| shift_threshold := 0.15; temperature_threshold := None |}
    = Ok out
    /\ numeric example_depths ColumnNames.WATER_DEPTH = Ok depth
    /\ rows out = omap (shift_row 0.15 depth (rows example_depths)) (seq 0 4).
Proof.
  destruct (proj1 flag_shifts_flags_exactly_the_shifts example_depths
              {| shift_threshold := 0.15; temperature_threshold := None |} _ eq_refl)
    as (depth & Hdepth & Hrows).
  eexists. exists depth. split; [reflexivity|]. split; [exact Hdepth|exact Hrows].
Defined.

Lemma flagged_rows_are_input_rows_witness :
  (exists out r r0 d,
      flag_shifts example_depths {| shift_threshold := 0.15; temperature_threshold := None |}
      = Ok out
      /\ In r (rows out) /\ In r0 (rows example_depths)
      /\ (forall label, label <> "depth_change" -> r !! label = r0 !! label)
      /\ r !! "depth_change" = Some (CFloat d)
      /\ (0.15 <? d)%float = true)
  /\ (exists out r r0 e,
        flag_temperature_outliers warm_frame
          {| shift_threshold := 0.15; temperature_threshold := Some 1.0%float |} = Ok out
        /\ In r (rows out) /\ In r0 (rows warm_frame)
        /\ (forall label, label <> "temperature_excess" -> r !! label = r0 !! label)
        /\ r !! "temperature_excess" = Some (CFloat e)
        /\ (0 <? e)%float = true).
Proof.
  split.
  - destruct (proj1 flagged_rows_are_input_rows example_depths
                {| shift_threshold := 0.15; temperature_threshold := None |} _ _
                eq_refl (or_introl eq_refl)) as (r0 & d & H).
    eexists. eexists. exists r0, d. split; [reflexivity|]. split; [left; reflexivity|exact H].
  - destruct (proj2 flagged_rows_are_input_rows warm_frame
                {| shift_threshold := 0.15; temperature_threshold := Some 1.0%float |} _ _
                eq_refl (or_introl eq_refl)) as (r0 & e & H).
    eexists. eexists. exists r0, e. split; [reflexivity|]. split; [left; reflexivity|exact H].
Defined.

(** * Further properties of the code *)

(** ** [compute_wse]: null timestamps, order of the rows, samples out of reach *)

Section ComputeWseShape.
Context {raw W B : Type}.
Variable to_datetime : raw -> option Z.
Variable tz_localize : string -> result (Z -> option Z).
Variable to_timedelta : string -> result Z.
Variable sort_values : forall A : Type, (A -> option Z) -> list A -> list A.

Variable config : ProcessingConfig.
Variable water_pressure_col : W -> float.
Variable baro_pressure_col : B -> float.
Variable water_temp_col : option (W -> float).
Variable baro_temp_col : option (B -> float).
Variable timestamp_col_water : W -> raw.
Variable timestamp_col_baro : B -> raw.

Let run := compute_wse (W := W) (B := B) to_datetime tz_localize to_timedelta sort_values.
Let row_of := merged_row water_pressure_col baro_pressure_col water_temp_col baro_temp_col.
Let kept := retained water_pressure_col baro_pressure_col water_temp_col baro_temp_col.

(** The two frames as [merge_asof] receives them. *)
Let sorted_water (localize : option Z -> option Z) (water : list W) :=
  sort_values _ fst (stamped to_datetime localize timestamp_col_water water).
Let sorted_baro (localize : option Z -> option Z) (barometric : list B) :=
  sort_values _ fst (stamped to_datetime localize timestamp_col_baro barometric).

(** The column-by-column computation of [compute_wse], row by row. *)
Lemma compute_wse_eq (water : list W) (barometric : list B) :
  run water barometric config water_pressure_col baro_pressure_col water_temp_col
    baro_temp_col timestamp_col_water timestamp_col_baro
  = (localize ← localizer tz_localize config;
     tolerance ← to_timedelta (merge_tolerance config);
     aligned ← merge_asof (sorted_water localize water) (sorted_baro localize barometric)
                 tolerance;
     match conversion_factor (pressure_units config) with
     | Some factor =>
         Ok (finished config factor water_pressure_col baro_pressure_col
               water_temp_col baro_temp_col aligned)
     | None =>
         Raise (ValueError ("Unsupported pressure unit: " +:+ lower (pressure_units config)))
     end).
Proof.
  unfold run, compute_wse, prepare, sorted_water, sorted_baro, stamped.
  destruct (localizer tz_localize config) as [localize|]; [|reflexivity].
  cbn [mbind result_bind].
  destruct (to_timedelta (merge_tolerance config)) as [tolerance|]; [|reflexivity].
  cbn [mbind result_bind].
  destruct (merge_asof _ _ tolerance) as [aligned|]; [|reflexivity].
  cbn [mbind result_bind].
  fold row_of.
  set (cols := merged_columns water_temp_col baro_temp_col).
  assert (Hdrop : dropna {| columns := cols; rows := map row_of aligned |}
                    [ColumnNames.TIMESTAMP; ColumnNames.WATER_PRESSURE;
                     ColumnNames.BARO_PRESSURE]
                  = Ok {| columns := cols; rows := kept aligned |}).
  { unfold dropna, contains, labels, cols. simpl columns.
    assert (Hfind : find (fun label => negb (existsb (String.eqb label)
                      (map fst (merged_columns water_temp_col baro_temp_col))))
                      [ColumnNames.TIMESTAMP; ColumnNames.WATER_PRESSURE;
                       ColumnNames.BARO_PRESSURE] = None)
      by (unfold merged_columns; destruct water_temp_col, baro_temp_col; reflexivity).
    rewrite Hfind. reflexivity. }
  rewrite Hdrop. cbn [mbind result_bind].
  set (rs := kept aligned).
  assert (Hrs : forall r, In r rs -> exists m, r = row_of m).
  { intros r Hr%list_elem_of_In. apply list_elem_of_filter in Hr as [_ Hr].
    apply list_elem_of_In, in_map_iff in Hr as (m & <- & _). eauto. }
  rewrite (numeric_rows cols rs ColumnNames.WATER_PRESSURE);
    [|apply merged_columns_required; simpl; auto
     |intros r [m ->]%Hrs; unfold row_of; rewrite merged_row_water_pressure; eauto].
  cbn [mbind result_bind].
  rewrite (numeric_rows cols rs ColumnNames.BARO_PRESSURE);
    [|apply merged_columns_required; simpl; auto
     |intros r [m ->]%Hrs; unfold row_of; rewrite merged_row_baro_pressure; eauto].
  cbn [mbind result_bind].
  rewrite zip_with_map_same. fold gauge_of.
  change (fun x : gmap string cell => gauge_of x) with gauge_of.
  rewrite (setitem_rows cols rs ColumnNames.GAUGE_PRESSURE float64 gauge_of).
  rewrite (numeric_map_rows _ rs _ ColumnNames.GAUGE_PRESSURE gauge_of);
    [|rewrite set_dtype_contains, String.eqb_refl; apply orb_true_r
     |intros; apply lookup_insert_eq].
  cbn [mbind result_bind].
  destruct (conversion_factor (pressure_units config)) as [factor|] eqn:Hf.
  - rewrite (gauge_to_depth_factor _ _ _ _ Hf).
    cbn [mbind result_bind]. rewrite (map_map gauge_of).
    change (map (fun x => _ (gauge_of x)) rs) with (map (depth_of config factor) rs).
    rewrite (setitem_map_rows _ rs _ ColumnNames.WATER_DEPTH float64 (depth_of config factor)).
    rewrite (numeric_map_rows _ rs _ ColumnNames.WATER_DEPTH (depth_of config factor));
      [|rewrite set_dtype_contains, String.eqb_refl; apply orb_true_r
       |intros; apply lookup_insert_eq].
    cbn [mbind result_bind].
    replace (map (fun d => CFloat (reference_datum config + d)%float)
               (map (depth_of config factor) rs))
      with (map CFloat (map (wse_of config factor) rs))
      by (rewrite !map_map; reflexivity).
    rewrite (setitem_map_rows _ rs _ ColumnNames.WSE float64 (wse_of config factor)).
    reflexivity.
  - unfold gauge_to_depth. rewrite (to_pascal_unsupported _ _ Hf). reflexivity.
Qed.

Lemma null_key_not_monotonic (keys : list (option Z)) :
  In None keys -> is_monotonic_increasing keys = false.
Proof.
  assert (Hfrom : forall ks prev, In None ks -> sorted_from prev ks = false).
  { induction ks as [|[k|] ks IH]; intros prev; simpl; try tauto.
    intros [[=]|H]. rewrite (IH k H). apply andb_false_r. }
  destruct keys as [|[k|] keys]; simpl; try tauto.
  intros [[=]|H]. apply Hfrom, H.
Qed.

Lemma check_keys_null (side : string) (keys : list (option Z)) :
  In None keys ->
  check_keys side keys
  = Raise (ValueError ("Merge keys contain null values on " +:+ side +:+ " side")).
Proof.
  intros H. unfold check_keys. rewrite (null_key_not_monotonic _ H).
  assert (He : existsb (fun k : option Z => match k with None => true | Some _ => false end)
                 keys = true) by (apply existsb_exists; exists None; auto).
  rewrite He. reflexivity.
Qed.

(** [sort_values] reorders the rows it is given and adds or loses none. *)
Hypothesis sort_values_perm :
  forall (A : Type) (key : A -> option Z) (l : list A), Permutation (sort_values A key l) l.

Lemma null_key_after_sort {A} (localize : option Z -> option Z) (timestamp_col : A -> raw)
    (df : list A) (r : A) :
  In r df -> localize (to_datetime (timestamp_col r)) = None ->
  In None (map fst (sort_values _ fst (stamped to_datetime localize timestamp_col df))).
Proof.
  intros Hr Hnull. apply in_map_iff. exists (None, r). split; [reflexivity|].
  apply (Permutation_in _ (Permutation_sym (sort_values_perm _ _ _))).
  apply in_map_iff. exists r. rewrite Hnull. auto.
Qed.

(** C4.  A row whose timestamp is null is not dropped.  As soon as one
    timestamp of the water frame or of the barometric frame cannot be
    parsed, or is ambiguous in the configured time zone, [compute_wse]
    raises and returns no frame at all: the merge refuses null keys, and it
    comes before the [dropna] that was to remove such rows. *)
Theorem compute_wse_raises_on_null_timestamp (water : list W) (barometric : list B)
    (localize : option Z -> option Z) :
  localizer tz_localize config = Ok localize ->
  (exists w, In w water /\ localize (to_datetime (timestamp_col_water w)) = None)
  \/ (exists b, In b barometric /\ localize (to_datetime (timestamp_col_baro b)) = None) ->
  exists e,
    compute_wse to_datetime tz_localize to_timedelta sort_values water barometric config
      water_pressure_col baro_pressure_col water_temp_col baro_temp_col
      timestamp_col_water timestamp_col_baro = Raise e.
Proof.
  intros Hl Hnull. fold run. rewrite compute_wse_eq, Hl. cbn [mbind result_bind].
  destruct (to_timedelta (merge_tolerance config)) as [tolerance|e]; [|eauto].
  cbn [mbind result_bind]. unfold merge_asof, sorted_water, sorted_baro.
  destruct (tolerance <? 0)%Z; [eauto|].
  destruct Hnull as [(w & Hw & Hnull)|(b & Hb & Hnull)].
  - rewrite (check_keys_null "left" _ (null_key_after_sort _ _ _ _ Hw Hnull)). eauto.
  - destruct (check_keys "left" _) as [u|e]; [|eauto]. cbn [mbind result_bind].
    rewrite (check_keys_null "right" _ (null_key_after_sort _ _ _ _ Hb Hnull)). eauto.
Qed.

Lemma finished_row_timestamp (factor : float) (m : Z * W * option (Z * B)) :
  timestamp_of (with_wse config factor (row_of m)) = Some (fst (fst m)).
Proof.
  unfold timestamp_of, row_of. rewrite with_wse_lookup by discriminate.
  rewrite merged_row_timestamp. reflexivity.
Qed.

Lemma kept_cons (m : Z * W * option (Z * B)) (aligned : list (Z * W * option (Z * B))) :
  kept (m :: aligned)
  = if decide (notna_at [ColumnNames.TIMESTAMP; ColumnNames.WATER_PRESSURE;
                         ColumnNames.BARO_PRESSURE] (row_of m) = true)
    then row_of m :: kept aligned else kept aligned.
Proof. unfold kept, retained. cbn [map]. rewrite filter_cons. reflexivity. Qed.

Lemma retained_timestamps (factor : float) (g : Z * W -> option (Z * B)) (l : list (Z * W)) :
  StronglySorted by_key l ->
  exists ts,
    map timestamp_of (map (with_wse config factor) (kept (map (fun x => (x, g x)) l)))
    = map Some ts
    /\ StronglySorted Z.le ts
    /\ Forall (fun t => exists x, In x l /\ fst x = t) ts
    /\ (length ts <= length l)%nat.
Proof.
  induction 1 as [|x l Hs IH Hx].
  - exists []. repeat split; constructor.
  - destruct IH as (ts & Hmap & Hsorted & Hfrom & Hlen).
    cbn [map]. rewrite kept_cons.
    destruct (decide _) as [Hkeep|Hdrop].
    + exists (fst x :: ts). cbn [map]. rewrite finished_row_timestamp, Hmap.
      split; [reflexivity|]. split; [|split].
      * constructor; [exact Hsorted|].
        eapply Forall_impl; [exact Hfrom|]. intros t (y & Hy & <-).
        apply (proj1 (Forall_forall _ _) Hx y), list_elem_of_In, Hy.
      * constructor; [exists x; simpl; auto|].
        eapply Forall_impl; [exact Hfrom|]. intros t (y & Hy & <-). exists y. simpl. auto.
      * simpl. lia.
    + exists ts. split; [exact Hmap|]. split; [exact Hsorted|]. split.
      * eapply Forall_impl; [exact Hfrom|]. intros t (y & Hy & <-). exists y. simpl. auto.
      * simpl. lia.
Qed.

(** X3.  The rows [compute_wse] returns are in ascending order of
    their timestamps, every one of them with a timestamp, and there are at
    most as many as the water frame has rows. *)
Theorem compute_wse_rows_in_time_order (water : list W) (barometric : list B)
    (merged : DataFrame) :
  compute_wse to_datetime tz_localize to_timedelta sort_values water barometric config
    water_pressure_col baro_pressure_col water_temp_col baro_temp_col
    timestamp_col_water timestamp_col_baro = Ok merged ->
  exists ts,
    map timestamp_of (rows merged) = map Some ts
    /\ StronglySorted Z.le ts
    /\ (length ts <= length water)%nat.
Proof.
  fold run. rewrite compute_wse_eq.
  destruct (localizer tz_localize config) as [localize|]; [|discriminate].
  cbn [mbind result_bind].
  destruct (to_timedelta (merge_tolerance config)) as [tolerance|]; [|discriminate].
  cbn [mbind result_bind].
  destruct (merge_asof _ _ tolerance) as [aligned|] eqn:Ea; [|discriminate].
  cbn [mbind result_bind].
  destruct (conversion_factor (pressure_units config)) as [factor|]; [|discriminate].
  intros [= <-]. apply merge_asof_Ok_inv in Ea as (_ & Hl & _ & ->).
  destruct (monotonic_keyed _ Hl) as [Hkeys Hsorted].
  destruct (retained_timestamps factor
              (fun x => asof_nearest tolerance (fst x)
                          (keyed (sorted_baro localize barometric)))
              _ Hsorted) as (ts & Hmap & Hts & _ & Hlen).
  exists ts. split; [exact Hmap|]. split; [exact Hts|].
  apply (f_equal (@length _)) in Hkeys. rewrite length_map in Hkeys.
  unfold sorted_water in Hkeys. rewrite (Permutation_length (sort_values_perm _ _ _)) in Hkeys.
  unfold stamped in Hkeys. rewrite length_map in Hkeys.
  unfold sorted_water, stamped in Hlen. rewrite Hkeys in Hlen. exact Hlen.
Qed.

Lemma kept_unmatched (g : Z * W -> option (Z * B)) (ls : list (Z * W)) :
  (forall l, In l ls -> g l = None) -> kept (map (fun l => (l, g l)) ls) = [].
Proof.
  induction ls as [|l ls IH]; intros Hg; [reflexivity|]. cbn [map]. rewrite kept_cons.
  destruct (decide _) as [H|_]; [|apply IH; intros l' Hl'; apply Hg; right; exact Hl'].
  apply retained_match in H as [_ (k & b & H & _)]. cbn [snd] in H.
  rewrite (Hg l) in H by (left; reflexivity). discriminate H.
Qed.

Lemma In_sorted_stamped {A} (localize : option Z -> option Z) (timestamp_col : A -> raw)
    (df : list A) (k : Z) (a : A) :
  In (k, a) (keyed (sort_values _ fst (stamped to_datetime localize timestamp_col df))) ->
  In a df /\ localize (to_datetime (timestamp_col a)) = Some k.
Proof.
  intros H%In_keyed. apply (Permutation_in _ (sort_values_perm _ _ _)) in H.
  unfold stamped in H. apply in_map_iff in H as (a' & [= Hk ->] & Hin). auto.
Qed.

(** X18.  When no barometric sample lies within the merge
    tolerance of any water sample there is nothing to compensate with: if
    [compute_wse] returns, the frame it returns has no row.  Such is the
    case of a barometric frame without rows. *)
Theorem compute_wse_nothing_within_tolerance (water : list W) (barometric : list B)
    (merged : DataFrame) (localize : option Z -> option Z) (tolerance : Z) :
  localizer tz_localize config = Ok localize ->
  to_timedelta (merge_tolerance config) = Ok tolerance ->
  (forall w b tw tb,
      In w water -> In b barometric ->
      localize (to_datetime (timestamp_col_water w)) = Some tw ->
      localize (to_datetime (timestamp_col_baro b)) = Some tb ->
      (tolerance < Z.abs (tw - tb))%Z) ->
  compute_wse to_datetime tz_localize to_timedelta sort_values water barometric config
    water_pressure_col baro_pressure_col water_temp_col baro_temp_col
    timestamp_col_water timestamp_col_baro = Ok merged ->
  rows merged = [].
Proof.
  intros Hl Ht Hfar. fold run. rewrite compute_wse_eq, Hl, Ht. cbn [mbind result_bind].
  destruct (merge_asof _ _ tolerance) as [aligned|] eqn:Ea; [|discriminate].
  cbn [mbind result_bind].
  destruct (conversion_factor (pressure_units config)) as [factor|]; [|discriminate].
  intros [= <-]. apply merge_asof_Ok_inv in Ea as (_ & _ & Hr & ->).
  destruct (monotonic_keyed _ Hr) as [_ Hsorted].
  unfold finished. cbn [rows]. fold kept.
  rewrite (kept_unmatched
             (fun l => asof_nearest tolerance (fst l) (keyed (sorted_baro localize barometric))));
    [reflexivity|].
  intros [tw w] [Hw Htw]%In_sorted_stamped. cbn [fst].
  pose proof (asof_nearest_spec tolerance tw _ Hsorted) as Hspec.
  destruct (asof_nearest tolerance tw _) as [[tb b]|]; [|reflexivity].
  destruct Hspec as ([Hb Htb]%In_sorted_stamped & Hclose & _). cbn [fst] in Hclose.
  pose proof (Hfar w b tw tb Hw Hb Htw Htb). lia.
Qed.

End ComputeWseShape.

(** ** qaqc.py: what the two detectors report *)

Lemma labels_setitem (df : DataFrame) (label : string) (dt : dtype) (values : list cell) :
  labels (setitem df label dt values) = labels_with df label.
Proof.
  unfold labels, labels_with, contains, labels, setitem, set_dtype. cbn [columns].
  destruct (existsb _ _); [|rewrite map_app; reflexivity].
  induction (columns df) as [|c cols IH]; [reflexivity|]. cbn [map]. rewrite IH.
  destruct (String.eqb label (fst c)) eqn:E; [|reflexivity].
  apply String.eqb_eq in E. rewrite E. reflexivity.
Qed.

Lemma omap_length_le {A B} (f : A -> option B) (l : list A) :
  (length (omap f l) <= length l)%nat.
Proof.
  induction l as [|a l IH]; [reflexivity|]. rewrite omap_cons.
  destruct (f a); simpl; lia.
Qed.

Lemma omap_all_None {A B} (f : A -> option B) (l : list A) :
  (forall a, In a l -> f a = None) -> omap f l = [].
Proof.
  induction l as [|a l IH]; intros H; [reflexivity|]. rewrite omap_cons, (H a) by (left; reflexivity).
  apply IH. intros b Hb. apply H. right. exact Hb.
Qed.

Lemma In_omap {A B} (f : A -> option B) (l : list A) (b : B) :
  In b (omap f l) <-> exists a, In a l /\ f a = Some b.
Proof.
  rewrite <- list_elem_of_In, list_elem_of_omap. split; intros (a & Ha & Hf); exists a.
  - split; [apply list_elem_of_In, Ha|exact Hf].
  - split; [apply list_elem_of_In, Ha|exact Hf].
Qed.

(** The rows the outlier detector keeps, with their excess, row by row. *)
Lemma excess_rows_mask (threshold : float) (rs : list (gmap string cell)) :
  let temperature := map (float_at ColumnNames.WATER_TEMPERATURE) rs in
  let mask := map (fun v => (threshold <? v)%float) temperature in
  assign "temperature_excess" (boolean_mask mask rs)
    (map (fun v => CFloat (v - threshold)%float) (boolean_mask mask temperature))
  = omap (fun r => excess_row threshold (r, float_at ColumnNames.WATER_TEMPERATURE r)) rs.
Proof.
  induction rs as [|r rs IH]; [reflexivity|]. cbn zeta in *. cbn [map boolean_mask].
  rewrite omap_cons. unfold excess_row at 1. cbn [fst snd].
  destruct (threshold <? _)%float; [cbn [map assign]; rewrite IH; reflexivity|exact IH].
Qed.

Lemma flag_temperature_outliers_enabled (df out : DataFrame) (config : QAQCConfig)
    (threshold : float) :
  temperature_threshold config = Some threshold ->
  (threshold =? 0)%float = false ->
  contains df ColumnNames.WATER_TEMPERATURE = true ->
  flag_temperature_outliers df config = Ok out ->
  out = setitem
          (loc df (map (fun v => (threshold <? v)%float)
                     (map (float_at ColumnNames.WATER_TEMPERATURE) (rows df))))
          "temperature_excess" float64
          (map (fun v => CFloat (v - threshold)%float)
             (boolean_mask (map (fun v => (threshold <? v)%float)
                              (map (float_at ColumnNames.WATER_TEMPERATURE) (rows df)))
                (map (float_at ColumnNames.WATER_TEMPERATURE) (rows df))))
  /\ rows out
     = omap (fun r => excess_row threshold (r, float_at ColumnNames.WATER_TEMPERATURE r))
         (rows df).
Proof.
  intros Ht Hz Hc. unfold flag_temperature_outliers. rewrite Ht, Hc. cbn [truthy default].
  rewrite Hz. cbn [negb orb].
  destruct (numeric df ColumnNames.WATER_TEMPERATURE) as [temperature|] eqn:En; [|discriminate].
  apply numeric_inv in En as [_ ->]. cbn [mbind result_bind]. intros [= <-].
  split; [reflexivity|]. unfold setitem, loc. cbn [rows]. apply excess_rows_mask.
Qed.

Lemma excess_row_inv (threshold : float) (r0 r : gmap string cell) :
  excess_row threshold (r0, float_at ColumnNames.WATER_TEMPERATURE r0) = Some r <->
  exists v,
    r0 !! ColumnNames.WATER_TEMPERATURE = Some (CFloat v)
    /\ (threshold <? v)%float = true
    /\ r = <["temperature_excess" := CFloat (v - threshold)]> r0.
Proof.
  unfold excess_row, float_at. cbn [fst snd]. split.
  - destruct (r0 !! ColumnNames.WATER_TEMPERATURE) as [[v| | |]|] eqn:E;
      try (rewrite ltb_nan_r; discriminate).
    destruct (threshold <? v)%float eqn:Hv; [|discriminate].
    intros [= <-]. exists v. auto.
  - intros (v & -> & -> & ->). reflexivity.
Qed.

(** X6.  With the temperature check enabled (a threshold that is
    not zero, and a water temperature column), the detector returns one row
    for each input row whose temperature is above the threshold and no
    other: the input row with its excess over the threshold added, which is
    strictly positive.  It never returns more rows than it was given. *)
Theorem flag_temperature_outliers_reports_exceedances (df out : DataFrame)
    (config : QAQCConfig) (threshold : float) :
  temperature_threshold config = Some threshold ->
  (threshold =? 0)%float = false ->
  contains df ColumnNames.WATER_TEMPERATURE = true ->
  flag_temperature_outliers df config = Ok out ->
  (forall r,
      In r (rows out) <->
      exists r0 v,
        In r0 (rows df)
        /\ r0 !! ColumnNames.WATER_TEMPERATURE = Some (CFloat v)
        /\ (threshold <? v)%float = true
        /\ r = <["temperature_excess" := CFloat (v - threshold)]> r0)
  /\ (forall r, In r (rows out) ->
        exists excess,
          r !! "temperature_excess" = Some (CFloat excess) /\ (0 <? excess)%float = true)
  /\ (length (rows out) <= length (rows df))%nat.
Proof.
  intros Ht Hz Hc H.
  destruct (flag_temperature_outliers_enabled _ _ _ _ Ht Hz Hc H) as [_ Hrows].
  assert (Hiff : forall r,
             In r (rows out) <->
             exists r0 v,
               In r0 (rows df)
               /\ r0 !! ColumnNames.WATER_TEMPERATURE = Some (CFloat v)
               /\ (threshold <? v)%float = true
               /\ r = <["temperature_excess" := CFloat (v - threshold)]> r0).
  { intros r. rewrite Hrows, In_omap. split.
    - intros (r0 & Hr0 & (v & Hv & Hlt & ->)%excess_row_inv). exists r0, v. auto.
    - intros (r0 & v & Hr0 & Hv & Hlt & ->). exists r0. split; [exact Hr0|].
      apply excess_row_inv. exists v. auto. }
  split; [exact Hiff|]. split.
  - intros r (r0 & v & _ & _ & Hlt & ->)%Hiff. exists (v - threshold)%float.
    split; [apply lookup_insert_eq|apply sub_pos, Hlt].
  - rewrite Hrows. apply omap_length_le.
Qed.

(** X7.  The columns of what the outlier detector returns: with the
    check enabled, those of the input followed by [temperature_excess]
    (in place, if the input has a column of that name); with the check
    disabled, or without a water temperature column, those of the input
    alone, and no row. *)
Theorem flag_temperature_outliers_labels (df out : DataFrame) (config : QAQCConfig) :
  flag_temperature_outliers df config = Ok out ->
  if truthy (temperature_threshold config) && contains df ColumnNames.WATER_TEMPERATURE
  then labels out = labels_with df "temperature_excess"
  else labels out = labels df /\ rows out = [].
Proof.
  unfold flag_temperature_outliers.
  destruct (truthy (temperature_threshold config)); cbn [negb orb andb].
  - destruct (contains df ColumnNames.WATER_TEMPERATURE); cbn [negb].
    + destruct (numeric df ColumnNames.WATER_TEMPERATURE); [|discriminate].
      cbn [mbind result_bind]. intros [= <-]. rewrite labels_setitem. reflexivity.
    + intros [= <-]. split; [|reflexivity].
      unfold labels, empty_like. cbn [columns]. rewrite map_map. reflexivity.
  - intros [= <-]. split; [|reflexivity].
    unfold labels, empty_like. cbn [columns]. rewrite map_map. reflexivity.
Qed.

(** X8.  What the shift detector returns has the columns of its
    input followed by [depth_change] (in place, if the input has a column of
    that name), and, the first row having no predecessor, fewer rows than
    its input unless that is empty. *)
Theorem flag_shifts_shape (df out : DataFrame) (config : QAQCConfig) :
  flag_shifts df config = Ok out ->
  labels out = labels_with df "depth_change"
  /\ (length (rows out) <= length (rows df) - 1)%nat.
Proof.
  intros H. split.
  - unfold flag_shifts in H.
    destruct (negb (contains df ColumnNames.WATER_DEPTH)); [discriminate|].
    destruct (numeric df ColumnNames.WATER_DEPTH); [|discriminate].
    cbn [mbind result_bind] in H. injection H as <-. rewrite labels_setitem. reflexivity.
  - apply flag_shifts_rows in H as (depth & _ & ->).
    destruct (length (rows df)) as [|n]; [reflexivity|].
    cbn [seq]. rewrite omap_cons. unfold shift_row at 1. cbn [shift_at].
    etransitivity; [apply omap_length_le|]. rewrite length_seq. lia.
Qed.

Lemma sub_diag_zero_or_nan (d : float) :
  Prim2SF (d - d) = S754_nan \/ exists s, Prim2SF (d - d) = S754_zero s.
Proof.
  rewrite sub_spec. unfold SF64sub, SFsub.
  destruct (Prim2SF d) as [s|s| |s m e].
  - right. destruct s; simpl; eauto.
  - left. destruct s; reflexivity.
  - left. reflexivity.
  - right. exists false.
    change IntDef.Z.sub with Z.sub. rewrite Z.sub_diag. reflexivity.
Qed.

Lemma no_change_below_threshold (threshold d : float) :
  (threshold <? 0)%float = false -> (threshold <? abs (d - d))%float = false.
Proof.
  rewrite !ltb_spec, abs_spec, Prim2SF_zero. intros H.
  destruct (sub_diag_zero_or_nan d) as [->|[s ->]]; cbn [SFabs].
  - unfold SFltb. destruct (Prim2SF threshold); reflexivity.
  - exact H.
Qed.

(** X9.  With a threshold that is not negative, a series whose
    depth is the same in every row is never flagged, whatever that depth
    is. *)
Theorem steady_depth_is_never_flagged (df out : DataFrame) (config : QAQCConfig)
    (d : float) :
  (shift_threshold config <? 0)%float = false ->
  (forall r, In r (rows df) -> r !! ColumnNames.WATER_DEPTH = Some (CFloat d)) ->
  flag_shifts df config = Ok out ->
  rows out = [].
Proof.
  intros Hthr Hd H. apply flag_shifts_rows in H as (depth & Hn & ->).
  apply numeric_inv in Hn as [_ ->].
  assert (Hat : forall i a,
             map (float_at ColumnNames.WATER_DEPTH) (rows df) !! i = Some a -> a = d).
  { intros i a. rewrite lookup_map. destruct (rows df !! i) as [r|] eqn:E; [|discriminate].
    intros [= <-]. unfold float_at. rewrite (Hd r (lookup_In _ _ _ E)). reflexivity. }
  apply omap_all_None. intros i _.
  destruct (shift_row _ _ _ i) as [r|] eqn:E; [|reflexivity].
  apply shift_row_iff in E as (j & a & b & r0 & _ & Ha & Hb & _ & Hlt & _).
  apply Hat in Ha as ->. apply Hat in Hb as ->.
  rewrite (no_change_below_threshold _ _ Hthr) in Hlt. discriminate.
Qed.

(** ** calculations.py: the bins of [summarise_timeseries] *)

Lemma foldr_min_le (b0 : Z) (bs : list Z) (x : Z) :
  In x (b0 :: bs) -> (foldr Z.min b0 bs <= x)%Z.
Proof.
  induction bs as [|b bs IH]; simpl.
  - intros [->|[]]. lia.
  - intros [->|[->|H]].
    + pose proof (IH (or_introl eq_refl)). lia.
    + lia.
    + pose proof (IH (or_intror H)). lia.
Qed.

Lemma foldr_max_ge (b0 : Z) (bs : list Z) (x : Z) :
  In x (b0 :: bs) -> (x <= foldr Z.max b0 bs)%Z.
Proof.
  induction bs as [|b bs IH]; simpl.
  - intros [->|[]]. lia.
  - intros [->|[->|H]].
    + pose proof (IH (or_introl eq_refl)). lia.
    + lia.
    + pose proof (IH (or_intror H)). lia.
Qed.

Lemma In_bin_range (bs : list Z) (b : Z) : In b bs -> In b (bin_range bs).
Proof.
  destruct bs as [|b0 bs]; [intros []|]. intros H. unfold bin_range.
  apply list_elem_of_In, elem_of_seqZ.
  pose proof (foldr_min_le b0 bs b H). pose proof (foldr_max_ge b0 bs b H). lia.
Qed.

Lemma bin_range_consecutive (bs : list Z) (i : nat) (b b' : Z) :
  bin_range bs !! i = Some b -> bin_range bs !! S i = Some b' -> b' = (b + 1)%Z.
Proof.
  destruct bs as [|b0 bs]; [discriminate|]. unfold bin_range.
  intros [-> _]%lookup_seqZ [-> _]%lookup_seqZ. lia.
Qed.

Lemma collect_zip {A B R} (f : B -> result R) (g : A -> B) (rs : list A) :
  forall idx,
    collect f (map g rs) = Ok idx ->
    length idx = length rs
    /\ forall r o, In r rs -> f (g r) = Ok o -> In (o, r) (zip idx rs).
Proof.
  induction rs as [|r0 rs IH]; simpl; intros idx.
  - intros [= <-]. split; [reflexivity|intros ? ? []].
  - destruct (f (g r0)) as [o0|] eqn:E0; [|discriminate].
    destruct (collect f (map g rs)) as [os|] eqn:Ec; [|discriminate].
    intros [= <-]. destruct (IH os eq_refl) as [Hlen Hin]. split; [simpl; lia|].
    intros r o [<-|Hr] Hf.
    + left. congruence.
    + right. apply Hin; assumption.
Qed.

Section Bins.
Variable mean : list float -> float.
Variables bin_of label_of : Z -> Z.

Lemma resample_mean_shape (index : list (option Z)) (df : DataFrame) :
  let resampled := resample_mean mean bin_of label_of index df in
  length (rows (frame resampled)) = length (bins resampled)
  /\ (forall i b b',
        bins resampled !! i = Some b -> bins resampled !! S i = Some b' ->
        exists k, b = label_of k /\ b' = label_of (k + 1)%Z)
  /\ (forall t r, In (Some t, r) (zip index (rows df)) ->
        In (label_of (bin_of t)) (bins resampled)).
Proof.
  cbn zeta. unfold resample_mean. destruct (rows df) as [|r0 rs] eqn:Er.
  - cbn [rows frame bins]. split; [reflexivity|]. split; [discriminate|].
    intros t r Hin. destruct index; destruct Hin.
  - cbn [columns rows frame bins].
    split; [rewrite !length_map; reflexivity|]. split.
    + intros i b b'. rewrite !lookup_map.
      destruct (bin_range _ !! i) as [k|] eqn:Ei; [|discriminate].
      destruct (bin_range _ !! S i) as [k'|] eqn:Ej; [|discriminate].
      intros [= <-] [= <-]. exists k. split; [reflexivity|].
      rewrite (bin_range_consecutive _ _ _ _ Ei Ej). reflexivity.
    + intros t r Hin. apply in_map, In_bin_range.
      apply (in_map (fun s : Z * gmap string cell => bin_of (fst s)) _ (t, r)).
      apply In_keyed, Hin.
Qed.

End Bins.

Lemma day_of_instant (t : Z) :
  (day_label (day_bin t) <= t < day_label (day_bin t) + NS_PER_DAY)%Z.
Proof.
  unfold day_label, day_bin.
  assert (HN : (0 < NS_PER_DAY)%Z) by reflexivity.
  pose proof (Z.div_mod t NS_PER_DAY ltac:(lia)).
  pose proof (Z.mod_pos_bound t NS_PER_DAY HN). lia.
Qed.

Lemma week_of_instant (t : Z) :
  (week_label (week_bin t) - 6 * NS_PER_DAY <= t < week_label (week_bin t) + NS_PER_DAY)%Z.
Proof.
  pose proof (day_of_instant t) as Hd. unfold week_label, week_bin. unfold day_label in Hd.
  assert (HN : (0 < NS_PER_DAY)%Z) by reflexivity.
  pose proof (Z.div_mod (day_bin t + 3) 7 ltac:(lia)).
  pose proof (Z.mod_pos_bound (day_bin t + 3) 7 ltac:(lia)).
  generalize dependent NS_PER_DAY. intros N. intros. nia.
Qed.

(** X10.  The two summaries of [summarise_timeseries] have one
    row per bin.  The daily bins are consecutive days and the weekly bins
    consecutive weeks, none left out; every row that has a timestamp falls
    on the day of one daily bin and in the seven days that end with the day
    of one weekly bin. *)
Theorem summarise_timeseries_bins (coerce_datetime : cell -> result (option Z))
    (mean : list float -> float) (df : DataFrame) (daily weekly : Resampled) :
  summarise_timeseries coerce_datetime mean df = Ok (daily, weekly) ->
  (length (rows (frame daily)) = length (bins daily)
   /\ length (rows (frame weekly)) = length (bins weekly))
  /\ (forall i b b',
        bins daily !! i = Some b -> bins daily !! S i = Some b' ->
        b' = (b + NS_PER_DAY)%Z)
  /\ (forall i b b',
        bins weekly !! i = Some b -> bins weekly !! S i = Some b' ->
        b' = (b + 7 * NS_PER_DAY)%Z)
  /\ (forall r t,
        In r (rows df) -> r !! ColumnNames.TIMESTAMP = Some (CTime t) ->
        (exists b, In b (bins daily) /\ (b <= t < b + NS_PER_DAY)%Z)
        /\ (exists b, In b (bins weekly)
                      /\ (b - 6 * NS_PER_DAY <= t < b + NS_PER_DAY)%Z)).
Proof.
  unfold summarise_timeseries, getitem.
  destruct (contains df ColumnNames.TIMESTAMP); [|discriminate]. cbn [mbind result_bind].
  destruct (DatetimeIndex coerce_datetime _) as [index|] eqn:Ei; [|discriminate].
  cbn [mbind result_bind]. intros [= <- <-].
  destruct (resample_mean_shape mean day_bin day_label index df) as (Hdl & Hds & Hdi).
  destruct (resample_mean_shape mean week_bin week_label index df) as (Hwl & Hws & Hwi).
  cbn zeta in *. unfold DatetimeIndex in Ei. apply collect_zip in Ei as [_ Hzip].
  split; [split; assumption|]. split; [|split].
  - intros i b b' Hb Hb'. destruct (Hds i b b' Hb Hb') as (k & -> & ->).
    unfold day_label. lia.
  - intros i b b' Hb Hb'. destruct (Hws i b b' Hb Hb') as (k & -> & ->).
    unfold week_label. lia.
  - intros r t Hr Ht.
    assert (Hin : In (Some t, r) (zip index (rows df))).
    { apply Hzip; [exact Hr|]. rewrite Ht. reflexivity. }
    split.
    + exists (day_label (day_bin t)). split; [apply (Hdi t r Hin)|apply day_of_instant].
    + exists (week_label (week_bin t)). split; [apply (Hwi t r Hin)|apply week_of_instant].
Qed.

(** ** io.py: header and column detection *)

Lemma prefix_trans (a : string) :
  forall b k, String.prefix a b = true -> String.prefix b k = true -> String.prefix a k = true.
Proof.
  induction a as [|x a IH]; intros b k.
  - destruct k; reflexivity.
  - destruct b as [|y b]; [discriminate|]. destruct k as [|z k]; [discriminate|].
    simpl. destruct (ascii_dec x y) as [->|]; [|discriminate].
    destruct (ascii_dec y z); [|discriminate]. apply IH.
Qed.

Lemma substring_of_eq (candidate key : string) :
  substring_of candidate key
  = String.prefix candidate key
    || match key with
       | EmptyString => false
       | String _ key' => substring_of candidate key'
       end.
Proof. destruct key; reflexivity. Qed.

Lemma substring_of_prefix (a : string) :
  forall b k, substring_of a b = true -> String.prefix b k = true -> substring_of a k = true.
Proof.
  intros b. induction b as [|y b IH]; intros k.
  - rewrite substring_of_eq. rewrite orb_false_r. intros Ha _.
    rewrite substring_of_eq. destruct a; [|discriminate]. destruct k; reflexivity.
  - rewrite (substring_of_eq a (String y b)). intros [Ha|Ha]%orb_true_iff Hk.
    + rewrite substring_of_eq, (prefix_trans _ _ _ Ha Hk). reflexivity.
    + destruct k as [|z k]; [discriminate|]. simpl in Hk.
      destruct (ascii_dec y z); [|discriminate].
      rewrite substring_of_eq, (IH k Ha Hk). apply orb_true_r.
Qed.

(** A candidate that occurs in a string occurs in every string in which
    that string occurs. *)
Lemma substring_of_trans (a b : string) :
  forall k, substring_of a b = true -> substring_of b k = true -> substring_of a k = true.
Proof.
  induction k as [|z k IH]; intros Ha; rewrite (substring_of_eq b).
  - rewrite orb_false_r. apply substring_of_prefix, Ha.
  - intros [Hk|Hk]%orb_true_iff.
    + apply (substring_of_prefix a b _ Ha Hk).
    + rewrite substring_of_eq, (IH Ha Hk). apply orb_true_r.
Qed.

Lemma find_header_from_app (pre : list string) (line : string) (post : list string) :
  forall idx,
    Forall (fun l => header_like l = false) pre ->
    header_like line = true ->
    find_header_from idx (pre ++ line :: post) = (idx + length pre)%nat.
Proof.
  unfold header_like. induction pre as [|l pre IH]; intros idx Hpre Hline; simpl.
  - rewrite Hline. lia.
  - inversion Hpre as [|? ? Hl Hpre']; subst. rewrite Hl, IH by assumption. lia.
Qed.

Lemma find_header_from_none (lines : list string) :
  forall idx,
    Forall (fun l => header_like l = false) lines -> find_header_from idx lines = 0%nat.
Proof.
  unfold header_like. induction lines as [|l lines IH]; intros idx H; simpl; [reflexivity|].
  inversion H as [|? ? Hl H']; subst. rewrite Hl. apply IH, H'.
Qed.

(** X11.  [_find_header_line] returns the position of the first
    line that contains both "date" and "time", in any letter case; when no
    line does it returns 0, the position of the first line. *)
Theorem find_header_line_first_header (lines : list string) :
  (forall pre line post,
      lines = pre ++ line :: post ->
      Forall (fun l => header_like l = false) pre ->
      header_like line = true ->
      _find_header_line lines = length pre)
  /\ (Forall (fun l => header_like l = false) lines -> _find_header_line lines = 0%nat).
Proof.
  split.
  - intros pre line post -> Hpre Hline. unfold _find_header_line.
    rewrite find_header_from_app by assumption. reflexivity.
  - apply find_header_from_none.
Qed.

Lemma dict_set_In (key value : string) (d : list (string * string)) (kv : string * string) :
  In kv (dict_set key value d) -> kv = (key, value) \/ In kv d.
Proof.
  induction d as [|kv0 d IH]; simpl.
  - intros [<-|[]]. auto.
  - destruct (String.eqb key (fst kv0)).
    + intros [<-|H]; [left; reflexivity|right; right; exact H].
    + intros [<-|H]; [right; left; reflexivity|].
      destruct (IH H); [left; assumption|right; right; assumption].
Qed.

Lemma dict_set_key (key value : string) (d : list (string * string)) :
  In (key, value) (dict_set key value d).
Proof.
  induction d as [|kv0 d IH]; simpl; [auto|].
  destruct (String.eqb key (fst kv0)); [left; reflexivity|right; exact IH].
Qed.

Lemma dict_set_keeps (key value : string) (d : list (string * string)) (k v : string) :
  In (k, v) d -> exists v', In (k, v') (dict_set key value d).
Proof.
  induction d as [|kv0 d IH]; [intros []|]. simpl.
  destruct (String.eqb key (fst kv0)) eqn:E.
  - intros [->|H].
    + apply String.eqb_eq in E. simpl in E. subst. exists value. left. reflexivity.
    + exists v. right. exact H.
  - intros [->|H].
    + exists v. left. reflexivity.
    + destruct (IH H) as [v' Hv']. exists v'. right. exact Hv'.
Qed.

Lemma lowered_from_sound (columns : list string) :
  forall d kv,
    In kv (fold_left (fun d col => dict_set (lower col) col d) columns d) ->
    In kv d \/ (In (snd kv) columns /\ fst kv = lower (snd kv)).
Proof.
  induction columns as [|col columns IH]; intros d kv; simpl; [auto|].
  intros [[->|H]%dict_set_In|[H1 H2]]%IH; auto.
Qed.

Lemma lowered_from_keeps (columns : list string) :
  forall d k v,
    In (k, v) d ->
    exists v', In (k, v') (fold_left (fun d col => dict_set (lower col) col d) columns d).
Proof.
  induction columns as [|col columns IH]; intros d k v H; simpl; [eauto|].
  destruct (dict_set_keeps (lower col) col d k v H) as [v' Hv']. apply (IH _ _ _ Hv').
Qed.

Lemma lowered_from_complete (columns : list string) :
  forall d col,
    In col columns ->
    exists v, In (lower col, v) (fold_left (fun d col => dict_set (lower col) col d) columns d).
Proof.
  induction columns as [|c columns IH]; intros d col; simpl; [intros []|].
  intros [->|H]; [|apply IH, H].
  apply (lowered_from_keeps columns _ (lower col) col), dict_set_key.
Qed.

Lemma first_match_Some (candidate : string) (lowered : list (string * string))
    (original : string) :
  first_match candidate lowered = Some original ->
  exists key, In (key, original) lowered /\ substring_of candidate key = true.
Proof.
  unfold first_match. destruct (find _ lowered) as [[key v]|] eqn:E; [|discriminate].
  intros [= <-]. apply find_some in E as [Hin Hsub]. exists key. auto.
Qed.

Lemma first_match_None (candidate : string) (lowered : list (string * string)) :
  first_match candidate lowered = None <->
  forall kv, In kv lowered -> substring_of candidate (fst kv) = false.
Proof.
  unfold first_match. split.
  - destruct (find _ lowered) eqn:E; [discriminate|]. intros _. apply (find_none _ _ E).
  - intros H. destruct (find _ lowered) as [kv|] eqn:E; [|reflexivity].
    apply find_some in E as [Hin Hsub]. rewrite (H kv Hin) in Hsub. discriminate.
Qed.

Lemma first_match_no_column (candidate : string) (columns : list string) :
  first_match candidate (lowered_columns columns) = None <->
  forall col, In col columns -> substring_of candidate (lower col) = false.
Proof.
  rewrite first_match_None. unfold lowered_columns. split.
  - intros H col Hcol. destruct (lowered_from_complete columns [] col Hcol) as [v Hv].
    apply (H _ Hv).
  - intros H kv [[]|[Hin ->]]%lowered_from_sound. apply H, Hin.
Qed.

Lemma find_in_Some (lowered : list (string * string)) (candidates : list string)
    (original : string) :
  find_in lowered candidates = Some original ->
  exists pre candidate post,
    candidates = pre ++ candidate :: post
    /\ first_match candidate lowered = Some original
    /\ forall c, In c pre -> first_match c lowered = None.
Proof.
  induction candidates as [|c candidates IH]; [discriminate|]. simpl.
  destruct (first_match c lowered) as [o|] eqn:E.
  - intros [= ->]. exists [], c, candidates. split; [reflexivity|]. split; [exact E|intros ? []].
  - intros (pre & candidate & post & -> & Hm & Hpre)%IH.
    exists (c :: pre), candidate, post. split; [reflexivity|]. split; [exact Hm|].
    intros c' [<-|Hc']; [exact E|apply Hpre, Hc'].
Qed.

Lemma find_in_None (lowered : list (string * string)) (candidates : list string) :
  find_in lowered candidates = None <->
  forall c, In c candidates -> first_match c lowered = None.
Proof.
  induction candidates as [|c candidates IH]; simpl.
  - split; [intros _ ? []|reflexivity].
  - destruct (first_match c lowered) as [o|] eqn:E.
    + split; [discriminate|]. intros H. rewrite <- E. apply H. left. reflexivity.
    + rewrite IH. split.
      * intros H c' [<-|Hc']; [exact E|apply H, Hc'].
      * intros H c' Hc'. apply H. right. exact Hc'.
Qed.

(** X12.  The column [_find_column] returns is one of the given
    columns, and its lower-cased name contains the first candidate, in the
    order of the candidates, that the lower-cased name of any column
    contains.  It returns [None] exactly when no column contains any
    candidate. *)
Theorem find_column_first_candidate (columns candidates : list string) :
  (forall original,
      _find_column columns candidates = Some original ->
      In original columns
      /\ exists pre candidate post,
           candidates = pre ++ candidate :: post
           /\ substring_of candidate (lower original) = true
           /\ forall c col, In c pre -> In col columns ->
                substring_of c (lower col) = false)
  /\ (_find_column columns candidates = None <->
      forall c col, In c candidates -> In col columns ->
        substring_of c (lower col) = false).
Proof.
  unfold _find_column. split.
  - intros original (pre & candidate & post & -> & Hm & Hpre)%find_in_Some.
    apply first_match_Some in Hm as (key & Hin & Hsub).
    apply lowered_from_sound in Hin as [[]|[Hin Hkey]]. simpl in Hin, Hkey. subst key.
    split; [exact Hin|]. exists pre, candidate, post. split; [reflexivity|].
    split; [exact Hsub|]. intros c col Hc Hcol.
    apply (proj1 (first_match_no_column c columns) (Hpre c Hc) col Hcol).
  - rewrite find_in_None. split.
    + intros H c col Hc Hcol. apply (proj1 (first_match_no_column c columns) (H c Hc) col Hcol).
    + intros H c Hc. apply first_match_no_column. intros col Hcol. apply H; assumption.
Qed.

Lemma find_in_skip (lowered : list (string * string)) (c' : string) (post : list string) :
  first_match c' lowered = None ->
  forall pre, find_in lowered (pre ++ c' :: post) = find_in lowered (pre ++ post).
Proof.
  intros H. induction pre as [|p pre IH]; simpl; [rewrite H; reflexivity|].
  destruct (first_match p lowered); [reflexivity|exact IH].
Qed.

Lemma first_match_subsumed (lowered : list (string * string)) (c c' : string) :
  substring_of c c' = true ->
  first_match c lowered = None -> first_match c' lowered = None.
Proof.
  rewrite !first_match_None. intros Hc H kv Hkv.
  destruct (substring_of c' (fst kv)) eqn:E; [|reflexivity].
  rewrite <- (H kv Hkv). symmetry. apply (substring_of_trans c c' _ Hc E).
Qed.

(** A candidate that contains an earlier candidate never decides the
    outcome. *)
Lemma find_in_subsumed (lowered : list (string * string)) (c c' : string)
    (post : list string) :
  substring_of c c' = true ->
  forall pre,
    In c pre -> find_in lowered (pre ++ c' :: post) = find_in lowered (pre ++ post).
Proof.
  intros Hc. induction pre as [|p pre IH]; [intros []|]. simpl.
  destruct (first_match p lowered) eqn:E; [reflexivity|].
  intros [->|Hin]; [|apply IH, Hin].
  apply find_in_skip, (first_match_subsumed lowered c c' Hc E).
Qed.

(** X13.  Of the candidates [load_dataset] looks for, "abs
    pressure", "water pressure" and "temperature" never decide which column
    is found: each contains an earlier candidate, "pressure" or "temp", so
    the search gives the same result without them. *)
Theorem load_dataset_redundant_candidates (columns : list string) :
  _find_column columns PRESSURE_CANDIDATES = _find_column columns ["pressure"; "kpa"; "psi"]
  /\ _find_column columns TEMPERATURE_CANDIDATES = _find_column columns ["temp"].
Proof.
  unfold _find_column, PRESSURE_CANDIDATES, TEMPERATURE_CANDIDATES. split.
  - rewrite (find_in_subsumed _ "pressure" "abs pressure" ["water pressure"; "kpa"; "psi"]
               eq_refl ["pressure"]) by (left; reflexivity).
    apply (find_in_subsumed _ "pressure" "water pressure" ["kpa"; "psi"] eq_refl ["pressure"]).
    left. reflexivity.
  - apply (find_in_subsumed _ "temp" "temperature" [] eq_refl ["temp"]). left. reflexivity.
Qed.

(** ** io.py: reading a file *)

Lemma lower_ascii_idempotent (c : ascii) : lower_ascii (lower_ascii c) = lower_ascii c.
Proof. destruct c as [[] [] [] [] [] [] [] []]; reflexivity. Qed.

Lemma lower_idempotent (s : string) : lower (lower s) = lower s.
Proof.
  induction s as [|c s IH]; [reflexivity|]. simpl. rewrite lower_ascii_idempotent, IH.
  reflexivity.
Qed.

Section LoadingFacts.
Context {Bytes T : Type}.
Variable _decode_bytes : Bytes -> string.
Variable splitlines : string -> list string.
Variable read_csv : string -> option string -> result T.
Variable read_delimited : Bytes -> result T.
Variable read_excel : Bytes -> result T.
Variable empty : T -> bool.
Variable columns_of : T -> list string.
Variable set_columns : T -> list string -> T.

Lemma first_parse_result (content : string) (seps : list (option string)) :
  match first_parse read_csv empty content seps with
  | Ok df =>
      empty df = false /\ exists sep, In sep seps /\ read_csv content sep = Ok df
  | Raise e =>
      e = ValueError "Unable to parse HOBO file – please export as CSV/Excel."
      /\ forall sep df, In sep seps -> read_csv content sep = Ok df -> empty df = true
  end.
Proof.
  induction seps as [|sep seps IH]; simpl.
  - split; [reflexivity|intros ? ? []].
  - destruct (read_csv content sep) as [df|e] eqn:E.
    + destruct (empty df) eqn:Ee; cbn [negb].
      * destruct (first_parse read_csv empty content seps) as [df'|e'].
        -- destruct IH as [He (sep' & Hin & Hr)]. split; [exact He|]. exists sep'. auto.
        -- destruct IH as [He Hall]. split; [exact He|].
           intros sep' df' [<-|Hin] Hr; [congruence|apply (Hall sep' df' Hin Hr)].
      * split; [exact Ee|]. exists sep. auto.
    + destruct (first_parse read_csv empty content seps) as [df'|e'].
      * destruct IH as [He (sep' & Hin & Hr)]. split; [exact He|]. exists sep'. auto.
      * destruct IH as [He Hall]. split; [exact He|].
        intros sep' df' [<-|Hin] Hr; [congruence|apply (Hall sep' df' Hin Hr)].
Qed.

(** X14.  [read_hobo_file] parses the text from the header line
    on.  What it returns is never an empty frame: it is the parse of that
    text with one of the four separators.  It raises one error only, the
    [ValueError] that asks for a CSV or Excel export, and only when the
    parse with each separator raised or gave an empty frame; an error of
    the parser itself never reaches the caller. *)
Theorem read_hobo_file_result (data : Bytes) :
  let lines := splitlines (_decode_bytes data) in
  let content :=
    String.concat (String (ascii_of_nat 10) EmptyString)
      (drop (_find_header_line lines) lines) in
  match read_hobo_file _decode_bytes splitlines read_csv empty data with
  | Ok df =>
      empty df = false
      /\ exists sep, In sep HOBO_SEPARATORS /\ read_csv content sep = Ok df
  | Raise e =>
      e = ValueError "Unable to parse HOBO file – please export as CSV/Excel."
      /\ forall sep df,
           In sep HOBO_SEPARATORS -> read_csv content sep = Ok df -> empty df = true
  end.
Proof. cbn zeta. unfold read_hobo_file. apply first_parse_result. Qed.

(** X15.  [load_dataset] chooses the reader by the suffix without
    regard to letter case, and for a suffix it does not know it raises a
    [ValueError] that names the suffix in lower case. *)
Theorem load_dataset_suffix_case (name : string) (data : Bytes) (suffix : string) :
  load_dataset _decode_bytes splitlines read_csv read_delimited read_excel empty
    columns_of set_columns name data suffix
  = load_dataset _decode_bytes splitlines read_csv read_delimited read_excel empty
      columns_of set_columns name data (lower suffix)
  /\ (~ In (lower suffix) [".hobo"; ".csv"; ".txt"; ".xls"; ".xlsx"] ->
      load_dataset _decode_bytes splitlines read_csv read_delimited read_excel empty
        columns_of set_columns name data suffix
      = Raise (ValueError ("Unsupported file type: " +:+ lower suffix))).
Proof.
  split.
  - unfold load_dataset. rewrite lower_idempotent. reflexivity.
  - intros Hnot. unfold load_dataset.
    destruct (String.eqb_spec (lower suffix) ".hobo") as [E|_];
      [exfalso; apply Hnot; rewrite E; simpl; tauto|].
    destruct (String.eqb_spec (lower suffix) ".csv") as [E|_];
      [exfalso; apply Hnot; rewrite E; simpl; tauto|].
    destruct (String.eqb_spec (lower suffix) ".txt") as [E|_];
      [exfalso; apply Hnot; rewrite E; simpl; tauto|].
    destruct (String.eqb_spec (lower suffix) ".xls") as [E|_];
      [exfalso; apply Hnot; rewrite E; simpl; tauto|].
    destruct (String.eqb_spec (lower suffix) ".xlsx") as [E|_];
      [exfalso; apply Hnot; rewrite E; simpl; tauto|].
    reflexivity.
Qed.

(** Assigning the column names of a frame sets them. *)
Hypothesis columns_set : forall df l, columns_of (set_columns df l) = l.

Lemma find_column_In (columns candidates : list string) (original : string) :
  _find_column columns candidates = Some original -> In original columns.
Proof.
  unfold _find_column. intros (pre & candidate & post & _ & Hm & _)%find_in_Some.
  apply first_match_Some in Hm as (key & Hin & _).
  apply lowered_from_sound in Hin as [[]|[Hin _]]. exact Hin.
Qed.

Lemma load_dataset_Ok_inv (file : string) (bytes : Bytes) (suffix : string)
    (dataset : ParsedDataset T) :
  load_dataset _decode_bytes splitlines read_csv read_delimited read_excel empty
    columns_of set_columns file bytes suffix = Ok dataset ->
  exists stripped,
    Forall (fun col => exists col0, col = strip col0) stripped
    /\ columns_of (data dataset) = stripped
    /\ name dataset = file
    /\ timestamp_column dataset = _find_column stripped TIMESTAMP_CANDIDATES
    /\ pressure_column dataset = _find_column stripped PRESSURE_CANDIDATES
    /\ temperature_column dataset = _find_column stripped TEMPERATURE_CANDIDATES.
Proof.
  unfold load_dataset.
  match goal with |- (x ← ?m; _) = _ -> _ => destruct m as [df|]; [|discriminate] end.
  cbn [mbind result_bind]. intros [= <-].
  cbn [name data timestamp_column pressure_column temperature_column].
  rewrite columns_set. exists (map strip (columns_of df)).
  split; [|repeat split; reflexivity].
  apply Forall_forall. intros col (col0 & <- & _)%list_elem_of_In%in_map_iff. eauto.
Qed.

(** X16.  The dataset [load_dataset] returns keeps the given name;
    the column names of its frame are stripped of surrounding white space;
    and each column it detected (timestamp, pressure, temperature) is a
    column of that frame. *)
Theorem load_dataset_detected_columns (file : string) (bytes : Bytes) (suffix : string)
    (dataset : ParsedDataset T) :
  load_dataset _decode_bytes splitlines read_csv read_delimited read_excel empty
    columns_of set_columns file bytes suffix = Ok dataset ->
  name dataset = file
  /\ Forall (fun col => exists col0, col = strip col0) (columns_of (data dataset))
  /\ forall col,
       In (Some col) [timestamp_column dataset; pressure_column dataset;
                      temperature_column dataset] ->
       In col (columns_of (data dataset)).
Proof.
  intros (stripped & Hs & -> & Hn & -> & -> & ->)%load_dataset_Ok_inv.
  split; [exact Hn|]. split; [exact Hs|].
  intros col [H|[H|[H|[]]]]; apply (find_column_In _ _ _ H).
Qed.

Lemma list_index_In (d : string) (options : list string) :
  In d options -> exists i, list_index d options = Ok i /\ options !! i = Some d.
Proof.
  induction options as [|o options IH]; [intros []|]. simpl.
  destruct (String.eqb_spec d o) as [->|Hne].
  - intros _. exists 0%nat. auto.
  - intros [->|Hin]; [congruence|]. destruct (IH Hin) as (i & -> & Hi).
    exists (S i). auto.
Qed.

(** X19.  In the column selectors of the application, the option
    shown first for a dataset that [load_dataset] returned is the column
    that was detected; where none was detected it is the first column of
    the frame, whatever that column holds.  Computing the position raises
    nothing. *)
Theorem detected_column_is_preselected (file : string) (bytes : Bytes) (suffix : string)
    (dataset : ParsedDataset T) (default : option string) :
  load_dataset _decode_bytes splitlines read_csv read_delimited read_excel empty
    columns_of set_columns file bytes suffix = Ok dataset ->
  In default [timestamp_column dataset; pressure_column dataset;
              temperature_column dataset] ->
  exists i,
    _column_selector_index (columns_of (data dataset)) default = Ok i
    /\ match default with
       | Some col => columns_of (data dataset) !! i = Some col
       | None => i = 0%nat
       end.
Proof.
  intros (stripped & _ & -> & _ & Ht & Hp & Hk)%load_dataset_Ok_inv Hd.
  destruct default as [col|]; [|exists 0%nat; auto].
  assert (Hin : In col stripped).
  { destruct Hd as [H|[H|[H|[]]]]; [rewrite Ht in H|rewrite Hp in H|rewrite Hk in H];
      apply (find_column_In _ _ _ H). }
  destruct (list_index_In col stripped Hin) as (i & Hi & Hl). exists i.
  split; [|exact Hl]. unfold _column_selector_index.
  assert (He : existsb (String.eqb col) stripped = true).
  { apply existsb_exists. exists col. split; [exact Hin|apply String.eqb_refl]. }
  rewrite He. exact Hi.
Qed.

End LoadingFacts.

(** ** app.py: joining the historical dataset *)

Lemma timestamp_of_cell_at (r : gmap string cell) (t : Z) :
  timestamp_of r = Some t <-> cell_at ColumnNames.TIMESTAMP r = CTime t.
Proof.
  unfold timestamp_of, cell_at.
  destruct (r !! ColumnNames.TIMESTAMP) as [[| | |]|]; simpl; split; congruence.
Qed.

Lemma cell_eqb_CTime (t : Z) (c : cell) : cell_eqb (CTime t) c = true <-> c = CTime t.
Proof.
  destruct c; simpl; try (split; discriminate).
  rewrite Z.eqb_eq. split; congruence.
Qed.

Lemma seen_CTime (t : Z) (seen : list cell) :
  existsb (cell_eqb (CTime t)) seen = true <-> In (CTime t) seen.
Proof.
  rewrite existsb_exists. split.
  - intros (c & Hin & ->%cell_eqb_CTime). exact Hin.
  - intros Hin. exists (CTime t). split; [exact Hin|]. apply cell_eqb_CTime. reflexivity.
Qed.

Lemma keep_first_sound (label : string) (rs : list (gmap string cell)) :
  forall seen r,
    In r (keep_first label seen rs) ->
    In r rs /\ existsb (cell_eqb (cell_at label r)) seen = false.
Proof.
  induction rs as [|r0 rs IH]; intros seen r; simpl; [intros []|].
  fold (cell_at label r0).
  destruct (existsb (cell_eqb (cell_at label r0)) seen) eqn:E.
  - intros [Hin Hs]%IH. auto.
  - intros [<-|[Hin Hs]%IH]; [auto|]. split; [auto|].
    simpl in Hs. apply orb_false_iff in Hs as [_ Hs]. exact Hs.
Qed.

Lemma keep_first_app (label : string) (l1 l2 : list (gmap string cell)) :
  forall seen,
    exists seen',
      keep_first label seen (l1 ++ l2)
      = keep_first label seen l1 ++ keep_first label seen' l2
      /\ (forall c, In c seen -> In c seen')
      /\ (forall h t, In h l1 -> cell_at label h = CTime t -> In (CTime t) seen').
Proof.
  induction l1 as [|r l1 IH]; intros seen; simpl.
  - exists seen. split; [reflexivity|]. split; [auto|intros ? ? []].
  - fold (cell_at label r). destruct (existsb (cell_eqb (cell_at label r)) seen) eqn:E.
    + destruct (IH seen) as (seen' & Heq & Hsub & Hcov). exists seen'.
      split; [exact Heq|]. split; [exact Hsub|].
      intros h t [<-|Hin] Ht; [|apply (Hcov h t Hin Ht)].
      rewrite Ht in E. apply Hsub, seen_CTime, E.
    + destruct (IH (cell_at label r :: seen)) as (seen' & Heq & Hsub & Hcov). exists seen'.
      split; [rewrite Heq; reflexivity|]. split; [intros c Hc; apply Hsub; right; exact Hc|].
      intros h t [<-|Hin] Ht; [|apply (Hcov h t Hin Ht)].
      apply Hsub. left. exact Ht.
Qed.

Lemma keep_first_NoDup (rs : list (gmap string cell)) :
  forall seen,
    NoDup (omap timestamp_of (keep_first ColumnNames.TIMESTAMP seen rs))
    /\ forall t, In (CTime t) seen ->
         ~ In t (omap timestamp_of (keep_first ColumnNames.TIMESTAMP seen rs)).
Proof.
  induction rs as [|r rs IH]; intros seen; simpl.
  - split; [constructor|intros ? _ []].
  - fold (cell_at ColumnNames.TIMESTAMP r).
    destruct (existsb (cell_eqb (cell_at ColumnNames.TIMESTAMP r)) seen) eqn:E; [apply IH|].
    destruct (IH (cell_at ColumnNames.TIMESTAMP r :: seen)) as [Hnd Hseen].
    rewrite omap_cons. destruct (timestamp_of r) as [t|] eqn:Et.
    + apply timestamp_of_cell_at in Et. rewrite Et in *. split.
      * constructor; [|exact Hnd]. rewrite list_elem_of_In. apply Hseen. left. reflexivity.
      * intros t' Hin [<-|Hin'].
        -- apply seen_CTime in Hin. congruence.
        -- apply (Hseen t'); [right; exact Hin|exact Hin'].
    + split; [exact Hnd|]. intros t' Hin. apply Hseen. right. exact Hin.
Qed.

Lemma keep_first_represents (t : Z) (rs : list (gmap string cell)) :
  forall seen,
    ~ In (CTime t) seen ->
    (exists h, In h rs /\ timestamp_of h = Some t) ->
    exists h, In h rs /\ In h (keep_first ColumnNames.TIMESTAMP seen rs)
              /\ timestamp_of h = Some t.
Proof.
  induction rs as [|r rs IH]; intros seen Hseen (h & Hin & Ht); [destruct Hin|]. simpl.
  fold (cell_at ColumnNames.TIMESTAMP r).
  destruct (timestamp_of r) as [t'|] eqn:Er.
  - destruct (Z.eq_dec t' t) as [->|Hne].
    + pose proof (proj1 (timestamp_of_cell_at r t) Er) as Hc. rewrite Hc.
      destruct (existsb (cell_eqb (CTime t)) seen) eqn:E;
        [apply seen_CTime in E; contradiction|].
      exists r. split; [left; reflexivity|]. split; [left; reflexivity|exact Er].
    + destruct Hin as [<-|Hin]; [congruence|].
      pose proof (proj1 (timestamp_of_cell_at r t') Er) as Hc.
      destruct (existsb (cell_eqb (cell_at ColumnNames.TIMESTAMP r)) seen).
      * destruct (IH seen Hseen (ex_intro _ h (conj Hin Ht))) as (h' & H1 & H2 & H3).
        exists h'. auto.
      * destruct (IH (cell_at ColumnNames.TIMESTAMP r :: seen)) as (h' & H1 & H2 & H3).
        -- rewrite Hc. intros [[= ->]|H]; [congruence|contradiction].
        -- eauto.
        -- exists h'. split; [right; exact H1|]. split; [right; exact H2|exact H3].
  - destruct Hin as [<-|Hin]; [congruence|].
    assert (Hc : cell_at ColumnNames.TIMESTAMP r <> CTime t).
    { intros Hc%timestamp_of_cell_at. congruence. }
    destruct (existsb (cell_eqb (cell_at ColumnNames.TIMESTAMP r)) seen).
    + destruct (IH seen Hseen (ex_intro _ h (conj Hin Ht))) as (h' & H1 & H2 & H3).
      exists h'. auto.
    + destruct (IH (cell_at ColumnNames.TIMESTAMP r :: seen)) as (h' & H1 & H2 & H3).
      * intros [H|H]; [congruence|contradiction].
      * eauto.
      * exists h'. split; [right; exact H1|]. split; [right; exact H2|exact H3].
Qed.

Section HistoryFacts.
Variable sort_rows : string -> list (gmap string cell) -> result (list (gmap string cell)).
(** Sorting, when it succeeds, reorders the rows. *)
Hypothesis sort_rows_perm :
  forall label rs sorted, sort_rows label rs = Ok sorted -> Permutation sorted rs.

(** X17.  Joined with a historical dataset that is not empty, the
    frame holds rows of the history and rows of the new frame only, no two
    of them with the same timestamp.  Where both have a row for a
    timestamp, the row of the history is the one that stays: every
    timestamp of the history is still carried by a row of the history, and
    a row of the new frame stays only if no row of the history has its
    timestamp. *)
Theorem with_history_keeps_historical_rows (history merged out : DataFrame) :
  frame_empty history = false ->
  with_history sort_rows (Some history) merged = Ok out ->
  (forall r, In r (rows out) ->
      In r (rows history)
      \/ (In r (rows merged)
          /\ forall h t, In h (rows history) -> timestamp_of r = Some t ->
               timestamp_of h <> Some t))
  /\ NoDup (omap timestamp_of (rows out))
  /\ (forall h t, In h (rows history) -> timestamp_of h = Some t ->
        exists h', In h' (rows history) /\ In h' (rows out) /\ timestamp_of h' = Some t).
Proof.
  intros Hne. unfold with_history. rewrite Hne. cbn [negb]. unfold drop_duplicates.
  destruct (contains (concat history merged) ColumnNames.TIMESTAMP); [|discriminate].
  cbn [mbind result_bind rows columns concat].
  destruct (sort_rows _ _) as [sorted|] eqn:Es; [|discriminate].
  cbn [mbind result_bind]. intros [= <-]. cbn [rows].
  apply sort_rows_perm in Es.
  destruct (keep_first_app ColumnNames.TIMESTAMP (rows history) (rows merged) [])
    as (seen' & Heq & _ & Hcov).
  split; [|split].
  - intros r Hr. apply (Permutation_in _ Es) in Hr. rewrite Heq in Hr.
    apply in_app_or in Hr as [Hr|Hr].
    + left. apply (keep_first_sound _ _ _ _ Hr).
    + right. apply keep_first_sound in Hr as [Hin Hs]. split; [exact Hin|].
      intros h t Hh Hrt Hht. apply timestamp_of_cell_at in Hrt, Hht.
      rewrite Hrt in Hs. pose proof (Hcov h t Hh Hht) as Hseen%seen_CTime. congruence.
  - rewrite Es. apply keep_first_NoDup.
  - intros h t Hh Ht.
    destruct (keep_first_represents t (rows history) [] (fun H => H) (ex_intro _ h (conj Hh Ht)))
      as (h' & H1 & H2 & H3).
    exists h'. split; [exact H1|]. split; [|exact H3].
    apply (Permutation_in _ (Permutation_sym Es)). rewrite Heq. apply in_or_app. left. exact H2.
Qed.

End HistoryFacts.

(** One water sample whose timestamp does not parse. *)
Lemma compute_wse_raises_on_null_timestamp_witness :
  exists e,
    compute_wse (raw := option Z) (W := RawSample) (B := RawSample) id no_timezones
      example_timedelta insertion_sort
      [(Some 0%Z, 101.3%float); (None, 101.4%float)] [(Some 0%Z, 101.0%float)]
      (example_config 1000.0) snd snd None None fst fst
    = Raise e.
Proof.
  apply (compute_wse_raises_on_null_timestamp (raw := option Z) (W := RawSample)
           (B := RawSample) id no_timezones example_timedelta insertion_sort
           (example_config 1000.0) snd snd None None fst fst insertion_sort_perm
           [(Some 0%Z, 101.3%float); (None, 101.4%float)] [(Some 0%Z, 101.0%float)]
           (fun t => t) eq_refl).
  left. exists (None, 101.4%float). split; [right; left; reflexivity|reflexivity].
Defined.

(** ** Worked examples of the further properties *)

Lemma compute_wse_rows_in_time_order_witness :
  exists merged ts,
    run_example (example_config 1000.0) example_water example_baro
      (Some sample_temperature) = Ok merged
    /\ map timestamp_of (rows merged) = map Some ts
    /\ StronglySorted Z.le ts
    /\ (length ts <= length example_water)%nat.
Proof.
  eexists.
  destruct (compute_wse_rows_in_time_order (raw := Z) Some no_timezones example_timedelta
              insertion_sort (example_config 1000.0) sample_pressure sample_pressure
              (Some sample_temperature) None sample_time sample_time insertion_sort_perm
              example_water example_baro _ eq_refl) as (ts & Hmap & Hsorted & Hlen).
  exists ts. split; [reflexivity|]. split; [exact Hmap|]. split; [exact Hsorted|exact Hlen].
Defined.

Lemma compute_wse_nothing_within_tolerance_witness :
  exists merged,
    run_example (example_config 1000.0) example_water
      [((10 * HOUR)%Z, 101.0%float, 9.0%float)] (Some sample_temperature)
    = Ok merged
    /\ rows merged = [].
Proof.
  eexists. split; [vm_compute; reflexivity|].
  refine (compute_wse_nothing_within_tolerance (raw := Z) Some no_timezones
            example_timedelta insertion_sort (example_config 1000.0) sample_pressure
            sample_pressure (Some sample_temperature) None sample_time sample_time
            insertion_sort_perm example_water [((10 * HOUR)%Z, 101.0%float, 9.0%float)]
            _ id 900000000000%Z eq_refl eq_refl _ eq_refl).
  intros w b tw tb [<-|[<-|[<-|[]]]] [<-|[]] [= <-] [= <-]; reflexivity.
Defined.

Lemma flag_temperature_outliers_reports_exceedances_witness :
  exists out,
    flag_temperature_outliers warm_frame
      {| shift_threshold := 0.15; temperature_threshold := Some 1.0%float |} = Ok out
    /\ (forall r, In r (rows out) ->
          exists excess,
            r !! "temperature_excess" = Some (CFloat excess) /\ (0 <? excess)%float = true)
    /\ (length (rows out) <= length (rows warm_frame))%nat.
Proof.
  eexists. split; [vm_compute; reflexivity|].
  exact (proj2 (flag_temperature_outliers_reports_exceedances warm_frame _
                  {| shift_threshold := 0.15; temperature_threshold := Some 1.0%float |}
                  1.0%float eq_refl eq_refl eq_refl eq_refl)).
Defined.

Lemma flag_temperature_outliers_labels_witness :
  exists out,
    flag_temperature_outliers warm_frame
      {| shift_threshold := 0.15; temperature_threshold := Some 1.0%float |} = Ok out
    /\ labels out
       = [ColumnNames.TIMESTAMP; ColumnNames.WATER_TEMPERATURE; "temperature_excess"].
Proof.
  eexists. split; [vm_compute; reflexivity|].
  exact (flag_temperature_outliers_labels warm_frame _
           {| shift_threshold := 0.15; temperature_threshold := Some 1.0%float |} eq_refl).
Defined.

Lemma flag_shifts_shape_witness :
  exists out,
    flag_shifts example_depths {| shift_threshold := 0.15; temperature_threshold := None |}
    = Ok out
    /\ labels out = [ColumnNames.TIMESTAMP; ColumnNames.WATER_DEPTH; "depth_change"]
    /\ (length (rows out) <= 3)%nat.
Proof.
  eexists. split; [vm_compute; reflexivity|].
  exact (flag_shifts_shape example_depths _
           {| shift_threshold := 0.15; temperature_threshold := None |} eq_refl).
Defined.

Lemma steady_depth_is_never_flagged_witness :
  exists out,
    flag_shifts steady_depths {| shift_threshold := 0.15; temperature_threshold := None |}
    = Ok out
    /\ rows out = [].
Proof.
  eexists. split; [vm_compute; reflexivity|].
  apply (steady_depth_is_never_flagged steady_depths _
           {| shift_threshold := 0.15; temperature_threshold := None |} 2.5%float eq_refl).
  - intros r [<-|[<-|[<-|[]]]]; reflexivity.
  - reflexivity.
Defined.

Lemma summarise_timeseries_bins_witness :
  exists daily weekly,
    summarise_timeseries (fun _ => Raise (TypeError "not a timestamp")) (fun _ => nan)
      example_history = Ok (daily, weekly)
    /\ forall r t,
         In r (rows example_history) -> r !! ColumnNames.TIMESTAMP = Some (CTime t) ->
         (exists b, In b (bins daily) /\ (b <= t < b + NS_PER_DAY)%Z)
         /\ (exists b, In b (bins weekly)
                       /\ (b - 6 * NS_PER_DAY <= t < b + NS_PER_DAY)%Z).
Proof.
  eexists. eexists. split; [vm_compute; reflexivity|].
  exact (proj2 (proj2 (proj2
           (summarise_timeseries_bins (fun _ => Raise (TypeError "not a timestamp"))
              (fun _ => nan) example_history _ _ eq_refl)))).
Defined.

Lemma load_dataset_detected_columns_witness :
  exists dataset,
    example_load "water.csv" ".CSV" = Ok dataset
    /\ name dataset = "water.csv"
    /\ Forall (fun col => exists col0, col = strip col0) (data dataset)
    /\ forall col,
         In (Some col) [timestamp_column dataset; pressure_column dataset;
                        temperature_column dataset] ->
         In col (data dataset).
Proof.
  eexists. split; [vm_compute; reflexivity|].
  exact (load_dataset_detected_columns (Bytes := string) (T := list string) id
           (fun text => [text]) (fun content sep => example_reader content)
           example_reader example_reader
           (fun df => match df with [] => true | _ => false end) id (fun _ l => l)
           (fun _ _ => eq_refl) "water.csv" "" ".CSV" _ eq_refl).
Defined.

Lemma detected_column_is_preselected_witness :
  exists dataset i,
    example_load "water.csv" ".CSV" = Ok dataset
    /\ _column_selector_index (data dataset) (pressure_column dataset) = Ok i
    /\ data dataset !! i = Some "Abs Pres, kPa".
Proof.
  eexists.
  destruct (detected_column_is_preselected (Bytes := string) (T := list string) id
              (fun text => [text]) (fun content sep => example_reader content)
              example_reader example_reader
              (fun df => match df with [] => true | _ => false end) id (fun _ l => l)
              (fun _ _ => eq_refl) "water.csv" "" ".CSV" _ (Some "Abs Pres, kPa") eq_refl)
    as (i & Hi & Hcol).
  - right. left. reflexivity.
  - exists i. split; [reflexivity|]. split; [exact Hi|exact Hcol].
Defined.

Lemma with_history_keeps_historical_rows_witness :
  exists out,
    with_history sort_by_time (Some example_history) example_new = Ok out
    /\ NoDup (omap timestamp_of (rows out))
    /\ (forall h t, In h (rows example_history) -> timestamp_of h = Some t ->
          exists h', In h' (rows example_history) /\ In h' (rows out)
                     /\ timestamp_of h' = Some t).
Proof.
  eexists. split; [vm_compute; reflexivity|].
  refine (proj2 (with_history_keeps_historical_rows sort_by_time _ example_history
                   example_new _ eq_refl eq_refl)).
  intros label rs sorted H. injection H as <-. apply insertion_sort_perm.
Defined.
